(** * Sales-analysis dashboard: the data transformation core

    A shallow embedding of the synthetic record generator and its cache
    ([utils/dataGenerator]) and of the derivations of the market-analysis
    page (segment aggregation, product-type chart, region/country shares,
    waterfall, CAGR, bubble separation), with the properties the
    specification states about them. *)

From Stdlib Require Import ZArith Floats Uint63 String Ascii List Bool Lia.
From Stdlib Require Import Permutation Sorted.
From Stdlib Require Decimal DecimalString DecimalZ DecimalPos.
Import ListNotations.

Set Warnings "-inexact-float".

Open Scope bool_scope.
Open Scope list_scope.

(** ** JavaScript numbers

    A JavaScript number is an IEEE 754 binary64 value; [float] is the same
    format, with the same correctly rounded [+ - * /] and [sqrt]. *)
Module JS.

Open Scope float_scope.

Definition two52 : float := 4503599627370496.

(** [Math.floor]: below 2^52 in magnitude the integer nearest to [x] is
    obtained by adding and subtracting 2^52, and is corrected downwards;
    from 2^52 on every finite double is an integer. *)
Definition floor (x : float) : float :=
  if abs x <? two52 then
    if x =? 0 then x else
    let t := if 0 <=? x then (x + two52) - two52 else (x - two52) + two52 in
    if x <? t then t - 1 else t
  else x.

(** [Math.round]: the nearest integer, ties towards +infinity, [-0] for
    [-0.5 <= x < 0].  [x - floor x] is exact. *)
Definition round (x : float) : float :=
  if abs x <? two52 then
    let f := floor x in
    let r := if x - f <? 0.5 then f else f + 1 in
    if (x <? 0) && (r =? 0) then (-0) else r
  else x.

(** The double of an integer (exact below 2^53 in magnitude). *)
Definition of_Z (z : Z) : float :=
  if (z <? 0)%Z then - of_uint63 (Uint63.of_Z (- z)) else of_uint63 (Uint63.of_Z z).

(** The integer part of a finite double (0 for NaN and the infinities),
    used to index arrays with the result of [Math.floor]. *)
Definition to_Z (x : float) : Z :=
  match Prim2SF x with
  | S754_finite s m e =>
      let v := Z.shiftl (Zpos m) e in if s then Z.opp v else v
  | _ => 0%Z
  end.

(** Truthiness of a number: [0], [-0] and [NaN] are falsy. *)
Definition truthy (x : float) : bool := negb (x =? 0) && (x =? x).

(** [x || d] on numbers. *)
Definition or_else (x d : float) : float := if truthy x then x else d.

(** [-0], which [=?] does not tell from [0]. *)
Definition is_neg_zero (x : float) : bool := (x =? 0) && (1 / x <? 0).

(** [Math.max(x, y)], [Math.min(x, y)]: [NaN] when an argument is [NaN];
    [-0] counts as smaller than [+0]. *)
Definition max (x y : float) : float :=
  if negb (x =? x) then x else if negb (y =? y) then y
  else if x <? y then y
  else if y <? x then x
  else if is_neg_zero x then y else x.

Definition min (x y : float) : float :=
  if negb (x =? x) then x else if negb (y =? y) then y
  else if y <? x then y
  else if x <? y then x
  else if is_neg_zero y then y else x.

Definition is_nan (x : float) : bool := negb (x =? x).
Definition is_finite (x : float) : bool := abs x <? infinity.

(** [arr[i]] for a number [i] that is a non-negative integer; a missing
    element is [undefined], here [None]. *)
Definition at_index {A} (arr : list A) (i : float) : option A :=
  if (0 <=? i) then nth_error arr (Z.to_nat (to_Z i)) else None.

Open Scope string_scope.

Definition startsWith (s p : string) : bool := String.prefix p s.

Definition includes (s sub : string) : bool :=
  match String.index 0 sub s with Some _ => true | None => false end.

(** [s.split(sep)[0]]: the part of [s] before the first [sep]. *)
Definition split_head (s sep : string) : string :=
  match String.index 0 sep s with
  | Some n => String.substring 0 n s
  | None => s
  end.

(** [obj[key]] on an object literal; a missing key is [undefined]. *)
Fixpoint prop {V} (obj : list (string * V)) (key : string) : option V :=
  match obj with
  | [] => None
  | (k, v) :: rest => if String.eqb k key then Some v else prop rest key
  end.

End JS.

(** ** The record generator ([generateComprehensiveData]) *)

(** The record type of the source, over the type [num] of its numeric
    fields ([float] for generated records). *)
Record ShovelMarketData {num : Type} := mkRecord {
  recordId : Z;
  year : Z;
  region : string;
  country : string;
  productType : string;
  bladeMaterial : string;
  handleLength : string;
  application : string;
  endUser : string;
  distributionChannelType : string;
  distributionChannel : string;
  brand : string;
  company : string;
  price : num;
  volumeUnits : num;
  qty : num;
  revenue : num;
  marketValueUsd : num;
  value : num;
  marketSharePct : num;
  cagr : num;
  yoyGrowth : num
}.
Arguments ShovelMarketData : clear implicits.

Module Generator.

Open Scope string_scope.
Open Scope float_scope.

Definition years : list Z := map (fun i => (2021 + Z.of_nat i)%Z) (seq 0 15).
Definition regions : list string :=
  ["North India"; "South India"; "East India"; "West India"].

Definition productTypes : list string :=
  [ "Skin Care";
    "Skin Care - Serums";
    "Skin Care - Moisturizers & Creams";
    "Skin Care - Face Oils (Abhyanga / Ayurvedic oils)";
    "Skin Care - Face Wash & Cleansers";
    "Skin Care - Toners / Mists";
    "Skin Care - Sunscreen";
    "Hair Care";
    "Hair Care - Oils & Serums";
    "Hair Care - Shampoos";
    "Hair Care - Conditioners & Hair Masks";
    "Hair Care - Hair Growth & Scalp Treatments";
    "Body Care";
    "Body Care - Body Oils (Ayurvedic Abhyangsnan, Massage Oils)";
    "Body Care - Lotions & Butters";
    "Body Care - Body Wash / Scrubs";
    "Cosmetic & Beauty Enhancers";
    "Cosmetic & Beauty Enhancers - Makeup (base, eyes, lips)";
    "Cosmetic & Beauty Enhancers - Nail & Hand Care";
    "Cosmetology Kits";
    "Cosmetology Kits - Facial Kits (Anti-Aging, Hydration, Acne)";
    "Cosmetology Kits - Hair Treatment Kits";
    "Cosmetology Kits - Seasonal Wellness Kits (Festive, Bridal, Ritual-based)";
    "Cosmetology Kits - Travel + Daily Routine Kits" ].

Definition bladeMaterials : list string :=
  [ "Oils (Ayurvedic, Tonic, Carrier & Herbal blend)";
    "Creams & Lotions";
    "Serums (water/oil-based, actives)";
    "Gels & Mousse";
    "Powders (face packs, exfoliants, ubtan)";
    "Capsules / Ampoules";
    "Bars (soap, shampoo bars)";
    "Others (Sprays & Mists, etc.)" ].

Definition handleLengths : list string := ["Mass"; "Premium"; "Luxury"].

Definition applications : list string :=
  [ "Gen Z (Ages 10-25)";
    "Millennials (Ages 26-41)";
    "Gen X (Ages 42-57)";
    "Baby Boomers (Ages 58+)" ].

Definition professions : list string :=
  [ "Students";
    "Corporate & Office Professionals";
    "Home & Family-Centric Consumers";
    "Health, Wellness & Beauty Professionals" ].

Definition salesChannels : list string :=
  [ "D2C & Digital Platforms";
    "D2C & Digital Platforms - E-commerce Marketplaces (Amazon, Flipkart, etc.)";
    "D2C & Digital Platforms - Brand D2C Websites & Apps";
    "D2C & Digital Platforms - Quick Commerce Platforms";
    "D2C & Digital Platforms - Social / Influencer-led Commerce";
    "Offline Retail";
    "Offline Retail - Supermarkets / Hypermarkets";
    "Offline Retail - Beauty & Cosmetic Specialty Stores";
    "Offline Retail - Pharmacies / Drugstores";
    "Offline Retail - Neighbourhood / Convenience Stores";
    "Offline Retail - Professional & Institutional - Salons & Spa Chains";
    "Offline Retail - Professional & Institutional - Aesthetic / Dermatology Clinics";
    "Others";
    "Others - Direct Selling, MLM Networks, etc." ].

Definition offlineChannels : list string :=
  ["Retail Stores"; "Pharmacies"; "Specialty Beauty Stores"; "Ayurvedic Clinics"].
Definition onlineChannels : list string :=
  ["Ecommerce Platforms"; "Brand Website"; "Social Commerce"].

Definition brands : list string :=
  [ "Forest Essentials"; "Kama Ayurveda"; "Biotique"; "Himalaya"; "Patanjali";
    "Khadi Natural"; "Shahnaz Husain"; "Lotus Herbals"; "Dabur"; "Baidyanath" ].

Definition companies : list string :=
  [ "Forest Essentials Pvt Ltd"; "Kama Ayurveda"; "Biotique Bio Research";
    "Himalaya Wellness"; "Patanjali Ayurved"; "Khadi Natural"; "Shahnaz Herbals";
    "Lotus Herbals"; "Dabur India Ltd"; "Baidyanath Ayurved" ].

Definition countryMap : list (string * list string) :=
  [ ("North India", []); ("South India", []); ("East India", []); ("West India", []) ].

Record ProductMult := { pm_price : float; pm_volume : float; pm_cagr : float }.
Record PVMult := { m_price : float; m_volume : float }.
Record RegionMult := { rm_volume : float; rm_marketShare : float }.

Definition productTypeMultipliers : list (string * ProductMult) :=
  [ ("Skin Care", {| pm_price := 1.0; pm_volume := 1.2; pm_cagr := 1.1 |});
    ("Hair Care", {| pm_price := 0.9; pm_volume := 1.3; pm_cagr := 1.2 |});
    ("Body Care", {| pm_price := 0.85; pm_volume := 1.1; pm_cagr := 1.0 |});
    ("Cosmetic & Beauty Enhancers", {| pm_price := 1.3; pm_volume := 0.9; pm_cagr := 1.15 |});
    ("Cosmetology Kits", {| pm_price := 1.5; pm_volume := 0.8; pm_cagr := 1.3 |}) ].

Definition getProductTypeMultiplier (productType : string) : ProductMult :=
  let mainCategory := JS.split_head productType " - " in
  match JS.prop productTypeMultipliers mainCategory with
  | Some m => m
  | None => {| pm_price := 1.0; pm_volume := 1.0; pm_cagr := 1.0 |}
  end.

Definition bladeMaterialMultipliers : list (string * PVMult) :=
  [ ("Oils (Ayurvedic, Tonic, Carrier & Herbal blend)", {| m_price := 1.2; m_volume := 1.3 |});
    ("Creams & Lotions", {| m_price := 1.0; m_volume := 1.2 |});
    ("Serums (water/oil-based, actives)", {| m_price := 1.4; m_volume := 0.9 |});
    ("Gels & Mousse", {| m_price := 1.1; m_volume := 1.0 |});
    ("Powders (face packs, exfoliants, ubtan)", {| m_price := 0.9; m_volume := 1.1 |});
    ("Capsules / Ampoules", {| m_price := 1.6; m_volume := 0.7 |});
    ("Bars (soap, shampoo bars)", {| m_price := 0.7; m_volume := 1.4 |});
    ("Others (Sprays & Mists, etc.)", {| m_price := 1.0; m_volume := 1.0 |}) ].

Definition applicationMultipliers : list (string * PVMult) :=
  [ ("Gen Z (Ages 10-25)", {| m_volume := 1.4; m_price := 0.9 |});
    ("Millennials (Ages 26-41)", {| m_volume := 1.5; m_price := 1.2 |});
    ("Gen X (Ages 42-57)", {| m_volume := 1.2; m_price := 1.3 |});
    ("Baby Boomers (Ages 58+)", {| m_volume := 0.9; m_price := 1.4 |}) ].

Definition distributionChannelMultipliers : list (string * PVMult) :=
  [ ("Offline", {| m_volume := 1.3; m_price := 1.1 |});
    ("Online", {| m_volume := 1.2; m_price := 0.95 |}) ].

Definition regionMultipliers : list (string * RegionMult) :=
  [ ("North India", {| rm_volume := 1.5; rm_marketShare := 1.4 |});
    ("South India", {| rm_volume := 1.3; rm_marketShare := 1.3 |});
    ("East India", {| rm_volume := 1.2; rm_marketShare := 1.1 |});
    ("West India", {| rm_volume := 1.4; rm_marketShare := 1.2 |}) ].

(** [brands.forEach((brand, idx) => brandPremiumMap[brand] = 0.8 + (idx % 3) * 0.4)];
    a later write to the same key would replace the earlier one, the brand
    names are distinct. *)
Definition brandPremiumMap : list (string * float) :=
  map (fun '(idx, b) => (b, 0.8 + JS.of_Z (Z.of_nat idx mod 3) * 0.4))
      (combine (seq 0 (List.length brands)) brands).

(** *** The seeded generator

    [seed] is a local of [generateComprehensiveData], set to 42 on entry.
    Every value it takes is an integer below 233280 and
    [seed * 9301 + 49297] stays below 2^32, so the double arithmetic of the
    source is exact integer arithmetic; it is done here on 63-bit machine
    integers, where it does not wrap either. *)
Definition lcg_next (seed : int) : int :=
  ((seed * 9301 + 49297) mod 233280)%uint63.

(** The locals that change while the loops run: [seed] and [recordId]
    ([data] is what the loops below return, in push order). *)
Record GenState := { seed : int; nextId : Z }.

(** The generator's code as a state transformer that may stop: [None] is a
    thrown exception (a property read on [undefined]) or an array read out
    of range, whose [undefined] the typed record cannot hold. *)
Definition M (A : Type) : Type := GenState -> option (A * GenState).

Definition ret {A} (a : A) : M A := fun s => Some (a, s).

Definition bind {A B} (m : M A) (k : A -> M B) : M B :=
  fun s => match m s with
           | Some (a, s') => k a s'
           | None => None
           end.

Definition defined {A} (o : option A) : M A :=
  fun s => match o with Some a => Some (a, s) | None => None end.

Notation "x <- m ;; k" := (bind m (fun x => k))
  (at level 61, m at next level, right associativity).

(** [seededRandom()]: advances the seed and returns [seed / 233280]. *)
Definition seededRandom : M float :=
  fun s =>
    let seed' := lcg_next (seed s) in
    Some (of_uint63 seed' / 233280, {| seed := seed'; nextId := nextId s |}).

Definition readRecordId : M Z := fun s => Some (nextId s, s).

(** [recordId++] *)
Definition incrRecordId : M unit :=
  fun s => Some (tt, {| seed := seed s; nextId := (nextId s + 1)%Z |}).

(** [for (const x of xs) body(x)], collecting what the body pushes. *)
Fixpoint forOf {A R} (xs : list A) (body : A -> M (list R)) : M (list R) :=
  match xs with
  | [] => ret []
  | x :: rest =>
      out1 <- body x ;;
      out2 <- forOf rest body ;;
      ret (out1 ++ out2)%list
  end.

Definition round2 (x : float) : float := JS.round (x * 100) / 100.

(** [Math.floor(seededRandom() * arr.length)] as an index into [arr]. *)
Definition pick (arr : list string) : M string :=
  r <- seededRandom ;;
  defined (JS.at_index arr (JS.floor (r * JS.of_Z (Z.of_nat (List.length arr))))).

(** The ternary that computes the local [distributionChannelType]; the
    record literal does not read it. *)
Definition channelTypeOf (salesChannel : string) : string :=
  if JS.startsWith salesChannel "D2C" || JS.startsWith salesChannel "Offline"
     || JS.startsWith salesChannel "Others"
  then salesChannel else "Online"%string.

(** The body of the innermost loop. *)
Definition makeRecord (year : Z) (region : string) (regionMult : option RegionMult)
    (country productType : string) (productMult : ProductMult)
    (bladeMaterial : string) (bladeMult : option PVMult)
    (handleLength : string) (handleMult : float)
    (application : string) (appMult : option PVMult)
  : M (list (ShovelMarketData float)) :=
  profession <- pick professions ;;
  salesChannel <- pick salesChannels ;;
  let distributionChannelType := channelTypeOf salesChannel in
  let channelMult :=
    JS.prop distributionChannelMultipliers
      (if JS.includes salesChannel "Offline" then "Offline" else "Online")%string in
  distributionChannel <-
    (if JS.includes salesChannel "Offline"
     then pick offlineChannels else pick onlineChannels) ;;
  brand <- pick brands ;;
  let brandMult :=
    match JS.prop brandPremiumMap brand with
    | Some m => JS.or_else m 1.0
    | None => 1.0
    end in
  company <- pick companies ;;
  r6 <- seededRandom ;;
  let basePrice := 10 + r6 * 90 in
  bladeMult <- defined bladeMult ;;
  let price := basePrice * pm_price productMult * m_price bladeMult * brandMult
               * handleMult * (1 + JS.of_Z (year - 2021) * 0.02) in
  r7 <- seededRandom ;;
  let baseVolume := 100 + r7 * 900 in
  regionMult <- defined regionMult ;;
  appMult <- defined appMult ;;
  channelMult <- defined channelMult ;;
  let volumeUnits :=
    JS.floor (baseVolume * rm_volume regionMult * pm_volume productMult
              * m_volume bladeMult * m_volume appMult * m_volume channelMult
              * (1 + JS.of_Z (year - 2021) * 0.05)) in
  let revenue := price * volumeUnits in
  r8 <- seededRandom ;;
  let marketValueUsd := revenue * (0.9 + r8 * 0.2) in
  r9 <- seededRandom ;;
  let baseMarketShare := 1 + r9 * 24 in
  let marketSharePct := baseMarketShare * rm_marketShare regionMult * brandMult in
  r10 <- seededRandom ;;
  let baseCAGR := -2 + r10 * 12 in
  let cagr := baseCAGR * pm_cagr productMult in
  r11 <- seededRandom ;;
  let yoyGrowth := -5 + r11 * 20 in
  r12 <- seededRandom ;;
  let qty := JS.floor (volumeUnits * (0.8 + r12 * 0.4)) in
  recordId <- readRecordId ;;
  _ <- incrRecordId ;;
  ret [ {| recordId := recordId;
           year := year;
           region := region;
           country := country;
           productType := productType;
           bladeMaterial := bladeMaterial;
           handleLength := handleLength;
           application := application;
           endUser := profession;
           distributionChannelType := salesChannel;
           distributionChannel := distributionChannel;
           brand := brand;
           company := company;
           price := round2 price;
           volumeUnits := volumeUnits;
           qty := qty;
           revenue := round2 revenue;
           marketValueUsd := round2 marketValueUsd;
           value := round2 marketValueUsd;
           marketSharePct := round2 marketSharePct;
           cagr := round2 cagr;
           yoyGrowth := round2 yoyGrowth |} ].

Definition generateFrom : M (list (ShovelMarketData float)) :=
  forOf years (fun year =>
  forOf regions (fun region =>
    let regionMult := JS.prop regionMultipliers region in
    let countries := match JS.prop countryMap region with
                     | Some cs => cs | None => [] end in
    let countriesToProcess :=
      if (0 <? List.length countries)%nat then countries else [region] in
    forOf countriesToProcess (fun country =>
    forOf productTypes (fun productType =>
      let productMult := getProductTypeMultiplier productType in
      forOf bladeMaterials (fun bladeMaterial =>
        let bladeMult := JS.prop bladeMaterialMultipliers bladeMaterial in
        forOf handleLengths (fun handleLength =>
          let handleMult :=
            if String.eqb handleLength "Luxury" then 1.5
            else if String.eqb handleLength "Premium" then 1.2 else 0.8 in
          forOf applications (fun application =>
            let appMult := JS.prop applicationMultipliers application in
            makeRecord year region regionMult country productType productMult
              bladeMaterial bladeMult handleLength handleMult
              application appMult))))))).

(** [generateComprehensiveData()]: [Some data], or [None] when it throws. *)
Definition generateComprehensiveData (_ : unit) : option (list (ShovelMarketData float)) :=
  option_map fst (generateFrom {| seed := 42%uint63; nextId := 100000 |}).

End Generator.

(** ** The dataset cache ([getData], [clearDataCache])

    [dataCache] is a module-level variable holding [null] or an array.  An
    array is an object: it is modelled with the identity it gets when it is
    created, so that "the same array" and "an equal array" are different
    statements. *)
Module Cache.

Section Cache.

Context {R : Type}.

(** [generateComprehensiveData]; [None] when the call throws. *)
Variable generate : unit -> option (list R).

Record array := { arr_id : nat; arr_items : list R }.

Record Store := {
  dataCache : option array;     (* [null] is [None] *)
  allocated : nat;              (* arrays created so far *)
  generations : nat             (* calls of [generateComprehensiveData] so far *)
}.

Definition init : Store :=
  {| dataCache := None; allocated := 0; generations := 0 |}.

(** [getData()].  [!dataCache] holds for [null] only: an array, empty or
    not, is truthy.  Both the [try] and the [catch] branch store a new
    array. *)
Definition getData (s : Store) : array * Store :=
  match dataCache s with
  | Some a => (a, s)
  | None =>
      let items := match generate tt with
                   | Some data => data   (* the [try] branch *)
                   | None => []          (* the [catch] branch *)
                   end in
      let a := {| arr_id := allocated s; arr_items := items |} in
      (a, {| dataCache := Some a;
             allocated := S (allocated s);
             generations := S (generations s) |})
  end.

(** [clearDataCache()] *)
Definition clearDataCache (s : Store) : Store :=
  {| dataCache := None; allocated := allocated s; generations := generations s |}.

(** [n] further calls of [getData]. *)
Fixpoint getData_times (n : nat) (s : Store) : list array * Store :=
  match n with
  | 0 => ([], s)
  | S n' => let '(a, s1) := getData s in
            let '(rest, s2) := getData_times n' s1 in
            (a :: rest, s2)
  end.

(** The module exports these two operations only. *)
Inductive call := GetData | ClearDataCache.

Definition step (s : Store) (c : call) : Store :=
  match c with
  | GetData => snd (getData s)
  | ClearDataCache => clearDataCache s
  end.

Definition run (calls : list call) : Store := fold_left step calls init.

(** The records of a call of the generator, none when it throws. *)
Definition recordsOf (generated : option (list R)) : list R :=
  match generated with
  | Some data => data
  | None => []
  end.

(** What a call of [generateComprehensiveData] leaves in the cache. *)
Definition generated_items : list R := recordsOf (generate tt).

(** What the cache holds in every state the two operations can reach. *)
Definition cache_ok (s : Store) : Prop :=
  match dataCache s with
  | None => True
  | Some a => arr_id a < allocated s /\ arr_items a = generated_items
  end.

End Cache.

Arguments array : clear implicits.
Arguments Store : clear implicits.

End Cache.

(** ** Numbers of the derivations

    The chart derivations use numbers through a handful of operations
    only.  They are written once over these operations and read at
    [float], the doubles the program computes with. *)
Class Number (num : Type) := {
  lit : Z -> positive -> num;          (* the decimal literal [n / d] *)
  add : num -> num -> num;
  sub : num -> num -> num;
  mul : num -> num -> num;
  div : num -> num -> num;
  gt : num -> num -> bool;             (* [a > b] *)
  truthy : num -> bool                 (* [!!a] *)
}.

#[export] Instance float_Number : Number float := {
  lit n d := (JS.of_Z n / JS.of_Z (Zpos d))%float;
  add := PrimFloat.add;
  sub := PrimFloat.sub;
  mul := PrimFloat.mul;
  div := PrimFloat.div;
  gt a b := (b <? a)%float;
  truthy := JS.truthy
}.

Definition zero {num} `{Number num} : num := lit 0 1.

(** [a || 0] *)
Definition or_zero {num} `{Number num} (a : num) : num :=
  if truthy a then a else zero.

(** ** Strings, arrays, maps *)
Module Str.

Open Scope string_scope.

(** [String(n)] for an integer [n]: its decimal digits, with a leading
    minus sign when negative. *)
Definition of_Z (z : Z) : string := DecimalString.NilEmpty.string_of_int (Z.to_int z).

(** [Number(s)] for a decimal integer string ([NaN], here 0, otherwise). *)
Definition to_Z (s : string) : Z :=
  match DecimalString.NilEmpty.int_of_string s with
  | Some d => Z.of_int d
  | None => 0%Z
  end.

Definition is_empty (s : string) : bool :=
  match s with EmptyString => true | _ => false end.

(** A string is truthy when it is not empty ([filter(Boolean)],
    [filter(s => s)], [if (segment)]). *)
Definition truthy (s : string) : bool := negb (is_empty s).

(** [arr.includes(x)] *)
Definition includes (arr : list string) (x : string) : bool :=
  existsb (String.eqb x) arr.

End Str.

Module Arr.

Section Arr.

Context {A : Type}.

(** [[...new Set(arr)]]: the distinct elements in order of first
    occurrence. *)
Fixpoint uniq (eqb : A -> A -> bool) (arr : list A) : list A :=
  match arr with
  | [] => []
  | x :: rest => x :: filter (fun y => negb (eqb x y)) (uniq eqb rest)
  end.

Fixpoint insert (leb : A -> A -> bool) (x : A) (sorted : list A) : list A :=
  match sorted with
  | [] => [x]
  | y :: rest => if leb x y then x :: sorted else y :: insert leb x rest
  end.

(** A stable sort: among elements that compare equal the earlier one of
    [arr] comes first. *)
Definition sortBy (leb : A -> A -> bool) (arr : list A) : list A :=
  fold_right (insert leb) [] arr.

(** [arr.sort()] without a comparator: ascending in the string form [key]
    of the elements, compared code unit by code unit. *)
Definition sort (key : A -> string) (arr : list A) : list A :=
  sortBy (fun x y => String.leb (key x) (key y)) arr.

End Arr.

End Arr.

(** A [Map], or an object used as a dictionary: the entries in insertion
    order.  (An object enumerates keys that look like array indices first;
    no property below depends on the order of enumeration.) *)
Module Dict.

Section Dict.

Context {K V : Type}.
Variable eqb : K -> K -> bool.

Definition t := list (K * V).

Fixpoint get (m : list (K * V)) (k : K) : option V :=
  match m with
  | [] => None
  | (k', v) :: rest => if eqb k' k then Some v else get rest k
  end.

Definition has (m : list (K * V)) (k : K) : bool :=
  match get m k with Some _ => true | None => false end.

(** [m.set(k, v)], [obj[k] = v]: replaces the value of an existing key in
    place, appends a new key. *)
Fixpoint set (k : K) (v : V) (m : list (K * V)) : list (K * V) :=
  match m with
  | [] => [(k, v)]
  | (k', v') :: rest =>
      if eqb k' k then (k', v) :: rest else (k', v') :: set k v rest
  end.

Definition keys (m : list (K * V)) : list K := map fst m.

End Dict.

End Dict.

(** An object used as a dictionary: the own properties in the order in
    which [Object.keys] and [Object.entries] enumerate them, array indices
    (canonical decimal strings below 2^32 - 1) first in ascending numeric
    order, then the other keys in insertion order.  Keys are taken not to
    be names that every object inherits ([__proto__], [constructor],
    ...). *)
Module Obj.

Definition is_index (k : string) : bool :=
  String.eqb (Str.of_Z (Str.to_Z k)) k
  && (0 <=? Str.to_Z k)%Z && (Str.to_Z k <? 4294967295)%Z.

Definition entries {V} (m : list (string * V)) : list (string * V) :=
  (Arr.sortBy (fun a b => (Str.to_Z (fst a) <=? Str.to_Z (fst b))%Z)
     (filter (fun kv => is_index (fst kv)) m)
   ++ filter (fun kv => negb (is_index (fst kv))) m)%list.

Definition keys {V} (m : list (string * V)) : list string := map fst (entries m).

End Obj.

(** ** The product-type hierarchy ([getProductTypeHierarchy]) *)
Module Hierarchy.

Open Scope string_scope.

Record ProductTypeHierarchy := {
  mainCategory : string;
  subCategories : list string
}.

Definition getProductTypeHierarchy (_ : unit) : list ProductTypeHierarchy :=
  [ {| mainCategory := "Skin Care";
       subCategories :=
         [ "Serums";
           "Moisturizers & Creams";
           "Face Oils (Abhyanga / Ayurvedic oils)";
           "Face Wash & Cleansers";
           "Toners / Mists";
           "Sunscreen" ] |};
    {| mainCategory := "Hair Care";
       subCategories :=
         [ "Oils & Serums";
           "Shampoos";
           "Conditioners & Hair Masks";
           "Hair Growth & Scalp Treatments" ] |};
    {| mainCategory := "Body Care";
       subCategories :=
         [ "Body Oils (Ayurvedic Abhyangsnan, Massage Oils)";
           "Lotions & Butters";
           "Body Wash / Scrubs" ] |};
    {| mainCategory := "Cosmetic & Beauty Enhancers";
       subCategories :=
         [ "Makeup (base, eyes, lips)";
           "Nail & Hand Care" ] |};
    {| mainCategory := "Cosmetology Kits";
       subCategories :=
         [ "Facial Kits (Anti-Aging, Hydration, Acne)";
           "Hair Treatment Kits";
           "Seasonal Wellness Kits (Festive, Bridal, Ritual-based)";
           "Travel + Daily Routine Kits" ] |} ].

End Hierarchy.

(** ** The market-analysis page: filters and chart derivations *)

(** The page's filter state. *)
Module Filters.

Inductive MarketEvaluationType := ByValue | ByVolume.

Record t := {
  year : list Z;
  country : list string;                  (* used for the region *)
  productType : list string;
  bladeMaterial : list string;
  handleLength : list string;
  application : list string;
  endUser : list string;
  distributionChannelType : list string;
  distributionChannel : list string;
  marketEvaluation : MarketEvaluationType
}.

End Filters.

Module Analysis.

Open Scope string_scope.

(** A chart row, [Record<string, number | string>]: [year] holds a string,
    the segment keys hold numbers. *)
Inductive Value {num : Type} := VStr (s : string) | VNum (n : num).
Arguments Value : clear implicits.

Definition Entry (num : Type) : Type := list (string * Value num).

Record ChartResult {num : Type} := {
  chartData : list (Entry num);
  segments : list string
}.
Arguments ChartResult : clear implicits.

Record ProductTypeChart {num : Type} := {
  pt_chartData : list (Entry num);
  pt_segments : list string;
  stackedChartData : list (Entry num);
  stackedSegments : list string;
  isStacked : bool
}.
Arguments ProductTypeChart : clear implicits.

Section Analysis.

Context {num : Type} `{Number num}.

Abbreviation Row := (ShovelMarketData num).

(** [filtered.filter(d => selected.includes(field(d)))] when something is
    selected. *)
Definition keepSelected (selected : list string) (field : Row -> string)
    (filtered : list Row) : list Row :=
  if (0 <? List.length selected)%nat
  then filter (fun d => Str.includes selected (field d)) filtered
  else filtered.

(** [filteredData] *)
Definition filteredData (filters : Filters.t) (data : list Row) : list Row :=
  let filtered := data in
  let filtered :=
    if (0 <? List.length (Filters.year filters))%nat
    then filter (fun d => existsb (Z.eqb (year d)) (Filters.year filters)) filtered
    else filtered in
  let filtered := keepSelected (Filters.country filters) region filtered in
  let filtered := keepSelected (Filters.productType filters) productType filtered in
  let filtered := keepSelected (Filters.bladeMaterial filters) bladeMaterial filtered in
  let filtered := keepSelected (Filters.handleLength filters) handleLength filtered in
  let filtered := keepSelected (Filters.application filters) application filtered in
  let filtered := keepSelected (Filters.endUser filters) endUser filtered in
  let filtered :=
    keepSelected (Filters.distributionChannelType filters) distributionChannelType
      filtered in
  filtered.

(** [(d.marketValueUsd || 0) / 1000] *)
Definition valueInMillions (d : Row) : num :=
  div (or_zero (marketValueUsd d)) (lit 1000 1).

(** [getDataValue] *)
Definition getDataValue (filters : Filters.t) (d : Row) : num :=
  match Filters.marketEvaluation filters with
  | Filters.ByVolume => or_zero (volumeUnits d)
  | Filters.ByValue => valueInMillions d
  end.

(** [m.get(key) || 0] *)
Definition getOrZero {K} (eqb : K -> K -> bool) (m : list (K * num)) (key : K) : num :=
  match Dict.get eqb m key with
  | Some v => or_zero v
  | None => zero
  end.

(** [[...new Set(filteredData.map(d => d.year))].sort()]: the default sort
    orders numbers by their decimal strings. *)
Definition yearsOf (filteredData : list Row) : list Z :=
  Arr.sort Str.of_Z (Arr.uniq Z.eqb (map year filteredData)).

(** [[...new Set(arr)].filter(Boolean).sort()] *)
Definition distinctSorted (arr : list string) : list string :=
  Arr.sort (fun s => s) (filter Str.truthy (Arr.uniq String.eqb arr)).

(** The segment axis of both aggregations: the selection of the filter
    when there is one, the segments of the data otherwise. *)
Definition segmentAxis (filteredData : list Row) (getSegmentValue : Row -> string)
    (selectedSegments : option (list string)) : list string :=
  let segmentsFromData := distinctSorted (map getSegmentValue filteredData) in
  match selectedSegments with
  | Some selected =>
      if (0 <? List.length selected)%nat
      then Arr.sort (fun s => s) (filter Str.truthy selected)
      else segmentsFromData
  | None => segmentsFromData
  end.

(** [`${year}-${segment}`] *)
Definition yearSegmentKey (year : Z) (segment : string) : string :=
  Str.of_Z year ++ "-" ++ segment.

(** [{ year: String(year) }] *)
Definition newEntry (year : Z) : Entry num := [("year", VStr (Str.of_Z year))].

(** [entry[segment] = v] *)
Definition setNum (segment : string) (v : num) (entry : Entry num) : Entry num :=
  Dict.set String.eqb segment (VNum v) entry.

(** [generateSegmentChartData] *)
Definition generateSegmentChartData (filters : Filters.t) (filteredData : list Row)
    (getSegmentValue : Row -> string) (selectedSegments : option (list string))
  : ChartResult num :=
  let years := yearsOf filteredData in
  let segments := segmentAxis filteredData getSegmentValue selectedSegments in
  let segmentMap :=
    fold_left (fun segmentMap d =>
      let key := yearSegmentKey (year d) (getSegmentValue d) in
      Dict.set String.eqb key
        (add (getOrZero String.eqb segmentMap key) (getDataValue filters d))
        segmentMap) filteredData [] in
  let chartData :=
    map (fun year =>
      fold_left (fun entry segment =>
        let key := yearSegmentKey year segment in
        setNum segment (getOrZero String.eqb segmentMap key) entry)
        segments (newEntry year)) years in
  {| chartData := chartData; segments := segments |}.

(** The loop that fills a [Map<number, Map<string, number>>]: the records
    that [keep] accepts are summed by year and by [getSegmentValue]. *)
Definition sumByYear (filters : Filters.t) (getSegmentValue : Row -> string)
    (keep : string -> bool) (records : list Row)
  : list (Z * list (string * num)) :=
  fold_left (fun yearSegmentMap d =>
    let year := year d in
    let segment := getSegmentValue d in
    if keep segment then
      let yearSegmentMap :=
        if Dict.has Z.eqb yearSegmentMap year then yearSegmentMap
        else Dict.set Z.eqb year [] yearSegmentMap in
      match Dict.get Z.eqb yearSegmentMap year with
      | Some segmentMap =>
          Dict.set Z.eqb year
            (Dict.set String.eqb segment
               (add (getOrZero String.eqb segmentMap segment) (getDataValue filters d))
               segmentMap)
            yearSegmentMap
      | None => yearSegmentMap          (* not reached: the year was just set *)
      end
    else yearSegmentMap) records [].

(** The rows of a stacked chart: per year, every segment with its sum. *)
Definition stackedRows (years : list Z) (segments : list string)
    (yearSegmentMap : list (Z * list (string * num))) : list (Entry num) :=
  map (fun year =>
    let segmentMap :=
      match Dict.get Z.eqb yearSegmentMap year with
      | Some m => m
      | None => []
      end in
    fold_left (fun entry segment =>
      setNum segment (getOrZero String.eqb segmentMap segment) entry)
      segments (newEntry year)) years.

(** [(entry[segment] as number) > 0]; a segment key holds a number. *)
Definition positiveAt (segment : string) (entry : Entry num) : bool :=
  match Dict.get String.eqb entry segment with
  | Some (VNum v) => gt v zero
  | _ => false
  end.

(** [segments.filter(segment => chartData.some(entry => entry[segment] > 0))] *)
Definition activeOf (chartData : list (Entry num)) (segments : list string) : list string :=
  filter (fun segment => existsb (positiveAt segment) chartData) segments.

(** [generateYearWiseStackedBarData] *)
Definition generateYearWiseStackedBarData (filters : Filters.t) (filteredData : list Row)
    (getSegmentValue : Row -> string) (selectedSegments : option (list string))
  : ChartResult num :=
  let years := yearsOf filteredData in
  let segments := segmentAxis filteredData getSegmentValue selectedSegments in
  let yearSegmentMap := sumByYear filters getSegmentValue Str.truthy filteredData in
  let chartData := stackedRows years segments yearSegmentMap in
  let activeSegments := activeOf chartData segments in
  {| chartData := chartData; segments := activeSegments |}.

(** [parentToChildren]: every main category with its sub-categories as
    they are written in the data, ["Parent - Child"]. *)
Definition parentToChildren : list (string * list string) :=
  fold_left (fun m item =>
    let parent := Hierarchy.mainCategory item in
    let children :=
      map (fun sub => parent ++ " - " ++ sub) (Hierarchy.subCategories item) in
    Dict.set String.eqb parent children m)
    (Hierarchy.getProductTypeHierarchy tt) [].

(** The children of a selected parent ([parentToChildren.get(parent)!]). *)
Definition childrenOf (parent : string) : list string :=
  match Dict.get String.eqb parentToChildren parent with
  | Some children => children
  | None => []
  end.

(** [generateProductTypeChartData] *)
Definition generateProductTypeChartData (filters : Filters.t) (filteredData : list Row)
  : ProductTypeChart num :=
  let years := yearsOf filteredData in
  let selectedProductTypes :=
    if (0 <? List.length (Filters.productType filters))%nat
    then Filters.productType filters else [] in
  let allProductTypesFromData := distinctSorted (map productType filteredData) in
  let selectedParents :=
    filter (fun selected => Dict.has String.eqb parentToChildren selected)
      selectedProductTypes in
  let selectedChildren :=
    filter (fun selected => negb (Dict.has String.eqb parentToChildren selected))
      selectedProductTypes in
  let grouped :=
    let segmentsToShow :=
      if (0 <? List.length selectedProductTypes)%nat then
        flat_map (fun selected =>
          if Dict.has String.eqb parentToChildren selected then
            filter (fun child => Str.includes allProductTypesFromData child)
              (childrenOf selected)
          else
            if Str.includes allProductTypesFromData selected then [selected] else [])
          selectedProductTypes
      else allProductTypesFromData in
    let segmentsToShow := Arr.sort (fun s => s) (Arr.uniq String.eqb segmentsToShow) in
    let segmentMap :=
      fold_left (fun segmentMap d =>
        let productType := productType d in
        if Str.includes segmentsToShow productType then
          let key := yearSegmentKey (year d) productType in
          Dict.set String.eqb key
            (add (getOrZero String.eqb segmentMap key) (getDataValue filters d))
            segmentMap
        else segmentMap) filteredData [] in
    let chartData :=
      map (fun year =>
        fold_left (fun entry segment =>
          let key := yearSegmentKey year segment in
          setNum segment (getOrZero String.eqb segmentMap key) entry)
          segmentsToShow (newEntry year)) years in
    {| pt_chartData := chartData;
       pt_segments := segmentsToShow;
       stackedChartData := [];
       stackedSegments := [];
       isStacked := false |} in
  match selectedParents, selectedChildren with
  | [parent], [] =>
      let children := childrenOf parent in
      let validChildren :=
        filter (fun child => Str.includes allProductTypesFromData child) children in
      if (0 <? List.length validChildren)%nat then
        let yearChildMap :=
          sumByYear filters productType (Str.includes validChildren) filteredData in
        let chartData := stackedRows years validChildren yearChildMap in
        {| pt_chartData := [];
           pt_segments := [];
           stackedChartData := chartData;
           stackedSegments := validChildren;
           isStacked := true |}
      else grouped
  | _, _ => grouped
  end.


(** *** Region / country percentage *)

Record RegionCountryEntry := {
  rc_year : Z;
  rc_region : string;
  rc_country : string;
  rc_value : num;
  yearRegion : string
}.

(** [regionYearData] and [regionYearTotals] after the records seen so
    far. *)
Record RegionYear := {
  regionYearData : list (string * list (string * list (string * num)));
  regionYearTotals : list (string * list (string * num))
}.

(** [obj[key]] where the loop has made sure the key is there; an object
    that is missing reads as an empty one. *)
Definition objAt {V} (obj : list (string * list (string * V))) (key : string)
  : list (string * V) :=
  match Dict.get String.eqb obj key with
  | Some o => o
  | None => []
  end.

(** [obj[y][r]] and [obj[y][r] = x], where [obj[y]] is an object. *)
Definition at2 {V} (obj : list (string * list (string * V))) (y r : string) : option V :=
  Dict.get String.eqb (objAt obj y) r.

Definition put2 {V} (y r : string) (x : V) (obj : list (string * list (string * V)))
  : list (string * list (string * V)) :=
  Dict.set String.eqb y (Dict.set String.eqb r x (objAt obj y)) obj.

(** The body of [filteredData.forEach] at lines 610-631. *)
Definition regionYearStep (filters : Filters.t) (acc : RegionYear) (d : Row) : RegionYear :=
  let value := getDataValue filters d in
  let region := region d in
  let country := country d in
  let yearKey := Str.of_Z (year d) in
  let data := regionYearData acc in
  let totals := regionYearTotals acc in
  (* if (!regionYearData[yearKey]) *)
  let '(data, totals) :=
    if Dict.has String.eqb data yearKey then (data, totals)
    else (Dict.set String.eqb yearKey [] data, Dict.set String.eqb yearKey [] totals) in
  (* if (!regionYearData[yearKey][region]) *)
  let '(data, totals) :=
    match at2 data yearKey region with
    | Some _ => (data, totals)
    | None => (put2 yearKey region [] data, put2 yearKey region zero totals)
    end in
  (* if (!regionYearData[yearKey][region][country]) ... = 0;  ... += value *)
  let countries := objAt (objAt data yearKey) region in
  let data :=
    put2 yearKey region
      (Dict.set String.eqb country
         (add (getOrZero String.eqb countries country) value) countries) data in
  (* regionYearTotals[yearKey][region] += value *)
  let totals :=
    match at2 totals yearKey region with
    | Some total => put2 yearKey region (add total value) totals
    | None => totals                    (* not reached: set with the region *)
    end in
  {| regionYearData := data; regionYearTotals := totals |}.

Definition regionYear (filters : Filters.t) (filteredData : list Row) : RegionYear :=
  fold_left (regionYearStep filters) filteredData
    {| regionYearData := []; regionYearTotals := [] |}.

(** The entries of one (year, region) group, lines 635-649. *)
Definition groupEntries (filters : Filters.t) (year region : string) (totalValue : num)
    (countriesData : list (string * num)) : list RegionCountryEntry :=
  let countryList := Arr.sort (fun s => s) (Obj.keys countriesData) in
  map (fun country =>
    let value := getOrZero String.eqb countriesData country in
    let percentage :=
      if gt totalValue zero then mul (div value totalValue) (lit 100 1) else zero in
    {| rc_year := Str.to_Z year;
       rc_region := region;
       rc_country := country;
       rc_value := match Filters.marketEvaluation filters with
                   | Filters.ByVolume => value
                   | Filters.ByValue => percentage
                   end;
       yearRegion := year ++ " - " ++ region |}) countryList.

(** [regionYearTotals[year][region]] *)
Definition totalOf (totals : list (string * list (string * num))) (year region : string)
  : num :=
  match at2 totals year region with
  | Some total => total
  | None => zero                        (* not reached *)
  end.

(** [regionCountryPercentageChartData] *)
Definition regionCountryPercentageChartData (filters : Filters.t)
    (filteredData : list Row) : list RegionCountryEntry :=
  let acc := regionYear filters filteredData in
  flat_map (fun '(year, regionData) =>
    flat_map (fun '(region, countriesData) =>
      groupEntries filters year region (totalOf (regionYearTotals acc) year region)
        countriesData)
      (Obj.entries regionData))
    (Obj.entries (regionYearData acc)).

(** *** The waterfall of the incremental tab *)

Record IncrementalFilters := {
  if_region : list string;
  if_productType : list string
}.

(** [filteredIncrementalData] *)
Definition filteredIncrementalData (incrementalFilters : IncrementalFilters)
    (data : list Row) : list Row :=
  let filtered := data in
  let filtered := keepSelected (if_region incrementalFilters) region filtered in
  let filtered := keepSelected (if_productType incrementalFilters) productType filtered in
  filtered.

(** A bar of the waterfall; a property the object literal does not have is
    [None], and an absent flag is [false]. *)
Record WaterfallEntry := {
  w_year : string;
  w_baseValue : option num;
  w_incrementalValue : option num;
  w_totalValue : num;
  isBase : bool;
  isTotal : bool
}.

Record Waterfall := {
  w_chartData : list WaterfallEntry;
  incrementalOpportunity : num
}.

(** [arr.filter(d => d.year === y).reduce((sum, d) => sum + (d.marketValueUsd || 0) / 1000, 0)] *)
Definition yearTotal (records : list Row) (y : Z) : num :=
  fold_left (fun sum d => add sum (valueInMillions d))
    (filter (fun d => Z.eqb (year d) y) records) zero.

Definition defaultBaseValue : num := lit 57159 1.

Definition defaultIncrements : list num :=
  [ lit 26384 10; lit 28504 10; lit 30556 10; lit 3231 1;
    lit 34329 10; lit 36742 10; lit 38851 10 ].

(** The years of [for (let year = 2025; year <= 2031; year++)]. *)
Definition incrementYears : list Z := map (fun i => (2025 + Z.of_nat i)%Z) (seq 0 7).

(** The increment of one year, lines 845-854; the index [year - 2025] is
    within the table for the years of the loop. *)
Definition incrementOf (records : list Row) (baseValue : num) (year : Z) : num :=
  let yearValue := yearTotal records year in
  let prevYearValue := yearTotal records (year - 1) in
  if gt yearValue zero && gt prevYearValue zero
  then sub yearValue prevYearValue
  else mul (nth (Z.to_nat (year - 2025)) defaultIncrements zero)
           (div baseValue defaultBaseValue).

(** [incrementalValues.map(item => { cumulative += item.value; ... })],
    with the value [cumulative] has afterwards. *)
Fixpoint accumulate (cumulative : num) (items : list (string * num))
  : list WaterfallEntry * num :=
  match items with
  | [] => ([], cumulative)
  | (year, value) :: rest =>
      let cumulative := add cumulative value in
      let '(entries, final) := accumulate cumulative rest in
      ({| w_year := year; w_baseValue := None; w_incrementalValue := Some value;
          w_totalValue := cumulative; isBase := false; isTotal := false |} :: entries,
       final)
  end.

(** [waterfallData] *)
Definition waterfallData (filteredIncrementalData : list Row) : Waterfall :=
  let baseValue :=
    let total := yearTotal filteredIncrementalData 2024 in
    if truthy total then total else defaultBaseValue in
  let incrementalValues :=
    map (fun year => (Str.of_Z year, incrementOf filteredIncrementalData baseValue year))
      incrementYears in
  let '(middle, cumulative) := accumulate baseValue incrementalValues in
  let chartData :=
    ({| w_year := "2024"; w_baseValue := Some baseValue; w_incrementalValue := None;
        w_totalValue := baseValue; isBase := true; isTotal := false |}
     :: middle
     ++ [ {| w_year := "2032"; w_baseValue := Some cumulative;
             w_incrementalValue := None; w_totalValue := cumulative;
             isBase := false; isTotal := true |} ])%list in
  let totalIncremental :=
    fold_left (fun sum item => add sum (snd item)) incrementalValues zero in
  {| w_chartData := chartData; incrementalOpportunity := totalIncremental |}.

End Analysis.

Arguments RegionCountryEntry : clear implicits.
Arguments RegionYear : clear implicits.
Arguments WaterfallEntry : clear implicits.
Arguments Waterfall : clear implicits.

End Analysis.

(** ** Growth rates of the attractiveness and the YoY / CAGR tabs

    [Math.pow] is the platform's; the derivations take it as [pow]. *)
Module Growth.

Open Scope float_scope.

Section Growth.

Variable pow : float -> float -> float.

(** [values.find((_, i) => years[i] === y)], from index [i] on. *)
Fixpoint findFrom (i : nat) (values : list float) (years : list Z) (y : Z)
  : option float :=
  match values with
  | [] => None
  | v :: rest =>
      match nth_error years i with
      | Some yr => if Z.eqb yr y then Some v else findFrom (S i) rest years y
      | None => findFrom (S i) rest years y
      end
  end.

(** [values.find(...) || 0] *)
Definition valueAtYear (values : list float) (years : list Z) (y : Z) : float :=
  match findFrom 0 values years y with
  | Some v => JS.or_else v 0
  | None => 0
  end.

(** The CAGR of an entity of the bubble chart, lines 1304-1314. *)
Definition bubbleCagr (values : list float) (years : list Z) : float :=
  let startYear := 2025%Z in
  let endYear := 2032%Z in
  let startValue := valueAtYear values years startYear in
  let endValue := valueAtYear values years endYear in
  if (0 <? startValue) && (0 <? endValue) then
    let years := JS.of_Z (endYear - startYear) in
    (pow (endValue / startValue) (1 / years) - 1) * 100
  else 0.

(** [yearDataMap.get(year) || 0] *)
Definition valueOf (yearDataMap : list (Z * float)) (year : Z) : float :=
  match Dict.get Z.eqb yearDataMap year with
  | Some v => JS.or_else v 0
  | None => 0
  end.

(** The YoY growth of the row [index] of [years], lines 1938-1946. *)
Definition yoyAt (years : list Z) (yearDataMap : list (Z * float))
    (index : nat) (year : Z) : float :=
  let currentValue := valueOf yearDataMap year in
  if (0 <? index)%nat then
    match nth_error years (index - 1) with
    | Some previousYear =>
        let previousValue := valueOf yearDataMap previousYear in
        if 0 <? previousValue
        then ((currentValue - previousValue) / previousValue) * 100
        else 0
    | None => 0                         (* not reached: [index - 1] is a row *)
    end
  else 0.

(** The CAGR of the row [index] of [years], lines 1948-1959. *)
Definition cagrAt (years : list Z) (yearDataMap : list (Z * float))
    (index : nat) (year : Z) : float :=
  let currentValue := valueOf yearDataMap year in
  if (0 <? index)%nat then
    match nth_error years 0 with
    | Some firstYear =>
        let firstValue := valueOf yearDataMap firstYear in
        if (0 <? firstValue) && (0 <? currentValue) then
          let yearsDiff := JS.of_Z (year - firstYear) in
          if 0 <? yearsDiff
          then (pow (currentValue / firstValue) (1 / yearsDiff) - 1) * 100
          else 0
        else 0
    | None => 0                         (* not reached: row 0 exists *)
    end
  else 0.

Record GrowthRow := { g_year : string; yoy : float; g_cagr : float }.

(** [years.map((year, index) => ...)], rows [index], [index + 1], ... *)
Fixpoint rowsFrom (index : nat) (years : list Z) (yearDataMap : list (Z * float))
    (rest : list Z) : list GrowthRow :=
  match rest with
  | [] => []
  | year :: rest' =>
      {| g_year := Str.of_Z year;
         yoy := yoyAt years yearDataMap index year;
         g_cagr := cagrAt years yearDataMap index year |}
      :: rowsFrom (S index) years yearDataMap rest'
  end.

Definition growthRows (years : list Z) (yearDataMap : list (Z * float)) : list GrowthRow :=
  rowsFrom 0 years yearDataMap years.

End Growth.

End Growth.

(** ** Separation of the bubbles ([separateBubbleData])

    [Math.cos], [Math.sin] and [Math.random] are the platform's: the
    function takes them as [cos], [sin] and [random], where [random n] is
    what the [n]-th call of [Math.random] returns. *)
Module Bubble.

Open Scope float_scope.

Record t := {
  region : string;
  cagrIndex : float;
  marketShareIndex : float;
  incrementalOpportunity : float
}.

(** The state of the loops: the copies being moved, the number of calls of
    [Math.random] so far, and [hasOverlap]. *)
Record Layout := { separated : list t; draws : nat; hasOverlap : bool }.

Definition PI : float := 3.141592653589793.

(** [Math.max(...xs)], [Math.min(...xs)] *)
Definition maxOf (xs : list float) : float := fold_left JS.max xs neg_infinity.
Definition minOf (xs : list float) : float := fold_left JS.min xs infinity.

(** [Math.max(0, Math.min(10, x))] *)
Definition clamp (x : float) : float := JS.max 0 (JS.min 10 x).

(** [arr[i] = x] for an index of the array. *)
Fixpoint setAt {A} (i : nat) (x : A) (arr : list A) : list A :=
  match arr, i with
  | [], _ => []
  | _ :: rest, O => x :: rest
  | y :: rest, S i' => y :: setAt i' x rest
  end.

Definition moveTo (b : t) (x y : float) : t :=
  {| region := region b; cagrIndex := clamp x; marketShareIndex := clamp y;
     incrementalOpportunity := incrementalOpportunity b |}.

Section Bubble.

Variables cos sin : float -> float.
Variable random : nat -> float.

(** What is computed once before the loops. *)
Variables sizeRange minOpportunity pixelToData : float.

Definition getBubbleSize (opp : float) : float :=
  if 0 <? sizeRange then 30 + ((opp - minOpportunity) / sizeRange) * 170 else 100.

Definition minSeparationFactor : float := 1.6.

(** The body of the loop over [j], lines 1420-1481. *)
Definition pairStep (i j : nat) (st : Layout) : Layout :=
  match nth_error (separated st) i, nth_error (separated st) j with
  | Some bubble1, Some bubble2 =>
      let dx := cagrIndex bubble2 - cagrIndex bubble1 in
      let dy := marketShareIndex bubble2 - marketShareIndex bubble1 in
      let distance := PrimFloat.sqrt (dx * dx + dy * dy) in
      let size1 := getBubbleSize (incrementalOpportunity bubble1) in
      let size2 := getBubbleSize (incrementalOpportunity bubble2) in
      let radius1Data := (size1 / 2) * pixelToData in
      let radius2Data := (size2 / 2) * pixelToData in
      let requiredDistance := (radius1Data + radius2Data) * minSeparationFactor in
      if (distance <? requiredDistance) && (0.0001 <? distance) then
        let overlap := requiredDistance - distance in
        let damping := 0.5 in
        let separationAmount := overlap * damping in
        let unitX := dx / distance in
        let unitY := dy / distance in
        let totalSize := size1 + size2 in
        let moveRatio1 := size2 / totalSize in
        let moveRatio2 := size1 / totalSize in
        let b1 := moveTo bubble1
                    (cagrIndex bubble1 - unitX * separationAmount * moveRatio1)
                    (marketShareIndex bubble1 - unitY * separationAmount * moveRatio1) in
        let b2 := moveTo bubble2
                    (cagrIndex bubble2 + unitX * separationAmount * moveRatio2)
                    (marketShareIndex bubble2 + unitY * separationAmount * moveRatio2) in
        {| separated := setAt j b2 (setAt i b1 (separated st));
           draws := draws st; hasOverlap := true |}
      else if (distance =? 0) || ((PrimFloat.abs dx <? 0.001) && (PrimFloat.abs dy <? 0.001)) then
        let overlapSize1 := getBubbleSize (incrementalOpportunity bubble1) in
        let overlapSize2 := getBubbleSize (incrementalOpportunity bubble2) in
        let avgRadius := ((overlapSize1 + overlapSize2) / 4) * pixelToData in
        let pushDistance := avgRadius * minSeparationFactor * 0.5 in
        let angle := random (draws st) * PI * 2 in
        let b1 := moveTo bubble1
                    (cagrIndex bubble1 - cos angle * pushDistance)
                    (marketShareIndex bubble1 - sin angle * pushDistance) in
        let b2 := moveTo bubble2
                    (cagrIndex bubble2 + cos angle * pushDistance)
                    (marketShareIndex bubble2 + sin angle * pushDistance) in
        {| separated := setAt j b2 (setAt i b1 (separated st));
           draws := S (draws st); hasOverlap := true |}
      else st
  | _, _ => st
  end.

(** The two conditions of the loop body, lines 1436 and 1463, for the
    bubbles as they are when the pair is examined. *)
Definition pushedAlongLine (bubble1 bubble2 : t) : bool :=
  let dx := cagrIndex bubble2 - cagrIndex bubble1 in
  let dy := marketShareIndex bubble2 - marketShareIndex bubble1 in
  let distance := PrimFloat.sqrt (dx * dx + dy * dy) in
  let size1 := getBubbleSize (incrementalOpportunity bubble1) in
  let size2 := getBubbleSize (incrementalOpportunity bubble2) in
  let radius1Data := (size1 / 2) * pixelToData in
  let radius2Data := (size2 / 2) * pixelToData in
  let requiredDistance := (radius1Data + radius2Data) * minSeparationFactor in
  (distance <? requiredDistance) && (0.0001 <? distance).

Definition pushedAtRandom (bubble1 bubble2 : t) : bool :=
  let dx := cagrIndex bubble2 - cagrIndex bubble1 in
  let dy := marketShareIndex bubble2 - marketShareIndex bubble1 in
  let distance := PrimFloat.sqrt (dx * dx + dy * dy) in
  negb (pushedAlongLine bubble1 bubble2)
  && ((distance =? 0) || ((PrimFloat.abs dx <? 0.001) && (PrimFloat.abs dy <? 0.001))).

(** One run of the loops over [i] and [j > i]. *)
Definition pass (st : Layout) : Layout :=
  let n := List.length (separated st) in
  fold_left (fun st i =>
    fold_left (fun st j => pairStep i j st) (seq (S i) (n - S i)) st)
    (seq 0 n) st.

(** [iterations] further runs of the loop over [iteration]. *)
Fixpoint iterate (iterations : nat) (st : Layout) : Layout :=
  match iterations with
  | O => st
  | S k =>
      let st' := pass {| separated := separated st; draws := draws st;
                         hasOverlap := false |} in
      if hasOverlap st' then iterate k st' else st'
  end.

End Bubble.

Definition maxIterations : nat := 200.

(** The loops of [separateBubbleData] with their final state. *)
Definition separateLayout (cos sin : float -> float) (random : nat -> float)
    (data : list t) : Layout :=
  let separated := data in
  let maxOpportunity := maxOf (map incrementalOpportunity separated) in
  let minOpportunity := minOf (map incrementalOpportunity separated) in
  let sizeRange := maxOpportunity - minOpportunity in
  let cagrMin := minOf (map cagrIndex separated) in
  let cagrMax := maxOf (map cagrIndex separated) in
  let shareMin := minOf (map marketShareIndex separated) in
  let shareMax := maxOf (map marketShareIndex separated) in
  let cagrRange := JS.or_else (cagrMax - cagrMin) 1 in
  let shareRange := JS.or_else (shareMax - shareMin) 1 in
  let estimatedChartWidth := 450 in
  let estimatedChartHeight := 300 in
  let pixelToDataX := cagrRange / estimatedChartWidth in
  let pixelToDataY := shareRange / estimatedChartHeight in
  let pixelToData := JS.max pixelToDataX pixelToDataY in
  iterate cos sin random sizeRange minOpportunity pixelToData maxIterations
    {| separated := separated; draws := 0; hasOverlap := false |}.

(** [separateBubbleData] *)
Definition separateBubbleData (cos sin : float -> float) (random : nat -> float)
    (data : list t) : list t :=
  if (List.length data <=? 1)%nat then data
  else separated (separateLayout cos sin random data).

End Bubble.

(** ** Checks on generated records

    Executable predicates on a record, as a test of the generator would
    write them with the program's own arithmetic, and their conjunction
    over a whole data set. *)
Module Dataset.

Open Scope float_scope.

Abbreviation Row := (ShovelMarketData float).

(** [Math.abs(revenue - price * volumeUnits) <= 0.01 * volumeUnits]: the
    stored price is the price rounded to a cent, so the product moves by
    at most half a cent per unit. *)
Definition revenueMatches (r : Row) : bool :=
  PrimFloat.abs (revenue r - price r * volumeUnits r) <=? 0.01 * volumeUnits r.

(** [Math.abs(marketValueUsd - revenue) <= 0.1 * revenue] *)
Definition marketValueNear (r : Row) : bool :=
  PrimFloat.abs (marketValueUsd r - revenue r) <=? 0.1 * revenue r.

Definition isInteger (x : float) : bool := JS.floor x =? x.

Definition amountsOk (r : Row) : bool :=
  (0 <? price r)
  && (1 <=? volumeUnits r) && isInteger (volumeUnits r)
  && (0.8 * volumeUnits r - 1 <=? qty r) && (qty r <=? 1.2 * volumeUnits r)
  && isInteger (qty r)
  && (0 <? revenue r) && (0 <? marketValueUsd r)
  && (value r =? marketValueUsd r)
  && (0 <? marketSharePct r) && (marketSharePct r <=? 56)
  && (-2.6 <=? cagr r) && (cagr r <=? 13)
  && (-5 <=? yoyGrowth r) && (yoyGrowth r <=? 15).

Definition recordOk (r : Row) : bool :=
  revenueMatches r && marketValueNear r && amountsOk r.

(** Every record passes [recordOk] and the identifiers count up from
    [next]; the second component is the identifier after the last. *)
Definition checkFrom (next : Z) (data : list Row) : bool * Z :=
  fold_left (fun acc r =>
    (fst acc && recordOk r && (recordId r =? snd acc)%Z, (snd acc + 1)%Z))
    data (true, next).

(** One record per combination of year, region, product type, product
    form, price range and age group. *)
Definition expectedCount : Z :=
  Z.of_nat (List.length Generator.years * List.length Generator.regions
            * List.length Generator.productTypes * List.length Generator.bladeMaterials
            * List.length Generator.handleLengths * List.length Generator.applications).

Definition datasetOk (generated : option (list Row)) : bool :=
  match generated with
  | Some data =>
      let '(ok, next) := checkFrom 100000 data in
      ok && (next =? 100000 + expectedCount)%Z
  | None => false
  end.

(** What [getData] hands out after it has called the generator. *)
Definition generatedRecords : list Row :=
  Cache.generated_items Generator.generateComprehensiveData.

End Dataset.

(** ** Sums as the maps accumulate them

    What an entry written by [m.set(k, (m.get(k) || 0) + v)] holds after
    the values [vs] were added to it in turn, and what [m.get(k) || 0]
    then reads. *)
Module Sums.

Section Sums.

Context {num : Type} `{Number num}.

(** [m.get(k) || 0], where [None] is a key that is not there. *)
Definition read (held : option num) : num :=
  match held with
  | Some a => or_zero a
  | None => zero
  end.

Definition accumulateFrom (held : option num) (vs : list num) : option num :=
  fold_left (fun held v => Some (add (read held) v)) vs held.

(** The total the chart shows for the values [vs]: zero for none. *)
Definition total (vs : list num) : num := read (accumulateFrom None vs).

(** The plain sum, [vs.reduce((sum, v) => sum + v, 0)]. *)
Definition sum (vs : list num) : num := fold_left add vs zero.

End Sums.

End Sums.

(** ** Records and map entries by year and segment *)
Module Grouping.

Section Grouping.

Context {num : Type}.

Abbreviation Row := (ShovelMarketData num).

(** The records of a year and a segment. *)
Definition matching (getSegmentValue : Row -> string) (y : Z) (segment : string)
    (records : list Row) : list Row :=
  filter (fun d => Z.eqb (year d) y && String.eqb (getSegmentValue d) segment) records.

(** What a nested map holds for a year and a segment. *)
Definition get2 (yearSegmentMap : list (Z * list (string * num))) (y : Z) (s : string)
  : option num :=
  match Dict.get Z.eqb yearSegmentMap y with
  | Some m => Dict.get String.eqb m s
  | None => None
  end.

End Grouping.

(** A filter with no selection lets everything pass. *)
Definition passes {A} (selected : list A) (x : A) : Prop :=
  selected = [] \/ In x selected.

End Grouping.

(** ** Sample inputs *)
Module Samples.

Open Scope float_scope.
Open Scope string_scope.

(** Two bubbles at one point, as two entities with equal indices give. *)
Definition coincident : list Bubble.t :=
  [ {| Bubble.region := "North India"; Bubble.cagrIndex := 5;
       Bubble.marketShareIndex := 5; Bubble.incrementalOpportunity := 100 |};
    {| Bubble.region := "South India"; Bubble.cagrIndex := 5;
       Bubble.marketShareIndex := 5; Bubble.incrementalOpportunity := 200 |} ].

(** Two bubbles 0.0005 apart on both axes and a third far from them: the
    two are closer than their sizes require. *)
Definition nearby : list Bubble.t :=
  [ {| Bubble.region := "North India"; Bubble.cagrIndex := 5;
       Bubble.marketShareIndex := 5; Bubble.incrementalOpportunity := 100 |};
    {| Bubble.region := "South India"; Bubble.cagrIndex := 5.0005;
       Bubble.marketShareIndex := 5.0005; Bubble.incrementalOpportunity := 200 |};
    {| Bubble.region := "East India"; Bubble.cagrIndex := 9;
       Bubble.marketShareIndex := 9; Bubble.incrementalOpportunity := 300 |} ].

(** A record with the fields the derivations read; the others are fixed. *)
Definition record {num : Type} `{Number num} (y : Z) (region country productType : string)
    (volumeUnits marketValueUsd : num) : ShovelMarketData num :=
  {| recordId := 100000; year := y; region := region; country := country;
     productType := productType; bladeMaterial := "Creams & Lotions";
     handleLength := "Mass"; application := "Gen X (Ages 42-57)";
     endUser := "Students"; distributionChannelType := "Others";
     distributionChannel := "Brand Website"; brand := "Dabur";
     company := "Dabur India Ltd"; price := zero; volumeUnits := volumeUnits;
     qty := volumeUnits; revenue := marketValueUsd; marketValueUsd := marketValueUsd;
     value := marketValueUsd; marketSharePct := zero; cagr := zero;
     yoyGrowth := zero |}.

(** The filter state of a page on which nothing is selected. *)
Definition noFilters (evaluation : Filters.MarketEvaluationType) : Filters.t :=
  {| Filters.year := []; Filters.country := []; Filters.productType := [];
     Filters.bladeMaterial := []; Filters.handleLength := [];
     Filters.application := []; Filters.endUser := [];
     Filters.distributionChannelType := []; Filters.distributionChannel := [];
     Filters.marketEvaluation := evaluation |}.




(** A page on which the product types [selected] are selected. *)
Definition productFilter (selected : list string) : Filters.t :=
  {| Filters.year := []; Filters.country := []; Filters.productType := selected;
     Filters.bladeMaterial := []; Filters.handleLength := [];
     Filters.application := []; Filters.endUser := [];
     Filters.distributionChannelType := []; Filters.distributionChannel := [];
     Filters.marketEvaluation := Filters.ByValue |}.

(** Records of a main category and of one of its children. *)
Definition skinCare : list (ShovelMarketData float) :=
  [ record 2024 "North India" "North India" "Skin Care" 10 2000;
    record 2024 "North India" "North India" "Skin Care - Serums" 20 3000;
    record 2025 "North India" "North India" "Skin Care - Serums" 30 4000 ]%float.

(** What [separateBubbleData] leaves alone in a bubble. *)
Definition label (b : Bubble.t) : string * float := (Bubble.region b, Bubble.incrementalOpportunity b).


End Samples.

(** ** Counting the calls of the cache *)
Module Calls.

Definition isClear (c : Cache.call) : bool :=
  match c with Cache.ClearDataCache => true | Cache.GetData => false end.

(** The calls of [clearDataCache] among [calls]. *)
Definition clears (calls : list Cache.call) : nat := List.length (filter isClear calls).

(** The calls of [getData] among [calls]. *)
Definition reads (calls : list Cache.call) : nat :=
  List.length (filter (fun c => negb (isClear c)) calls).

(** 1 while the cache is empty: a run of the generator is due. *)
Definition due {R} (s : Cache.Store R) : nat :=
  match Cache.dataCache s with Some _ => 0 | None => 1 end.

End Calls.

(** ** Countries in the nested maps *)
Module Presence.

(** The country [c] has an entry under the year [y] and the region [r]. *)
Definition present {V} (data : list (string * list (string * list (string * V))))
    (y r c : string) : Prop :=
  exists countriesData,
    Analysis.at2 data y r = Some countriesData /\ In c (Dict.keys countriesData).

(** Every entry of the nested maps is one that [allowed] admits. *)
Definition sound {V} (data : list (string * list (string * list (string * V))))
    (allowed : string -> string -> string -> Prop) : Prop :=
  forall y regionData r countriesData c,
    In (y, regionData) data -> In (r, countriesData) regionData ->
    In c (Dict.keys countriesData) -> allowed y r c.

(** The place of a record in the nested maps. *)
Definition placeOf {num} (d : ShovelMarketData num) (y r c : string) : Prop :=
  Str.of_Z (year d) = y /\ region d = r /\ country d = c.

End Presence.

(** ** The product-type filter

    [HierarchicalFilterDropdown]: what its handlers pass to [onChange] for
    the selection [value] the dropdown is rendered with. *)
Module Dropdown.

Open Scope string_scope.

(** [`${mainCategory} - ${sub}`] *)
Definition fullName (mainCategory sub : string) : string :=
  mainCategory ++ " - " ++ sub.




(** [selectAll], lines 97-106. *)
Definition selectAll (hierarchy : list Hierarchy.ProductTypeHierarchy) : list string :=
  flat_map (fun item =>
    Hierarchy.mainCategory item
    :: map (fun sub => fullName (Hierarchy.mainCategory item) sub)
         (Hierarchy.subCategories item)) hierarchy.




End Dropdown.

(** ** The product types the page selects

    [filters.productType] is written in three places: the initial state
    (line 35), the defaults set once the data is loaded (lines 79, 94 and
    104) and the [onChange] of the product-type dropdown (line 2236). *)
Module Page.

Section Page.

Context {num : Type}.





End Page.

(** A selected main category and a selected product type that is none,
    as lines 454 and 455 tell them apart. *)
Definition isParent (selected : string) : bool :=
  Dict.has String.eqb Analysis.parentToChildren selected.

Definition selectedParents (selected : list string) : list string :=
  filter isParent selected.

Definition selectedChildren (selected : list string) : list string :=
  filter (fun s => negb (isParent s)) selected.


End Page.

(** ** The bars of the waterfall in a row *)
Module Series.

Section Series.

Context {num : Type} `{Number num}.

(** Every bar continues from the total of the bar before it: a bar with
    an increment adds it, a bar without one repeats the total. *)
Fixpoint chained (previous : num) (bars : list (Analysis.WaterfallEntry num)) : Prop :=
  match bars with
  | [] => True
  | bar :: rest =>
      Analysis.w_totalValue bar
      = match Analysis.w_incrementalValue bar with
        | Some increment => add previous increment
        | None => previous
        end
      /\ chained (Analysis.w_totalValue bar) rest
  end.

(** The increments the bars show, in their order. *)
Definition increments (bars : list (Analysis.WaterfallEntry num)) : list num :=
  flat_map (fun bar => match Analysis.w_incrementalValue bar with
                       | Some increment => [increment]
                       | None => []
                       end) bars.

End Series.

End Series.

(** ** The records behind a region-year group *)
Module Regions.

Section Regions.

Context {num : Type} `{Number num}.

Abbreviation Row := (ShovelMarketData num).




End Regions.

End Regions.
(** * Properties *)

(** ** The dataset cache *)
Module CacheFacts.
Import Cache.

Section CacheFacts.

Context {R : Type}.
Variable generate : unit -> option (list R).

Abbreviation getData := (getData generate).
Abbreviation run := (run generate).
Abbreviation step := (step generate).
Abbreviation cache_ok := (cache_ok generate).
Abbreviation generated_items := (generated_items generate).

Lemma cache_ok_step s c : cache_ok s -> cache_ok (step s c).
Proof.
  unfold Cache.cache_ok, Cache.step, Cache.getData. destruct c; simpl; [|tauto].
  destruct (dataCache s) as [a|] eqn:E; simpl.
  - rewrite E. auto.
  - intros _. split; [lia | reflexivity].
Qed.

Lemma cache_ok_run calls : cache_ok (run calls).
Proof.
  unfold Cache.run. assert (H : cache_ok init) by exact I.
  revert H. generalize (@init R). induction calls as [|c calls IH]; simpl; auto.
  intros s Hs. apply IH, cache_ok_step, Hs.
Qed.

Lemma getData_cached s a : dataCache s = Some a -> getData s = (a, s).
Proof. unfold Cache.getData. intros ->. reflexivity. Qed.

Lemma getData_fills s : dataCache (snd (getData s)) = Some (fst (getData s)).
Proof. unfold Cache.getData. destruct (dataCache s) eqn:E; simpl; auto. Qed.

Lemma getData_times_cached n : forall s a,
  dataCache s = Some a -> getData_times generate n s = (repeat a n, s).
Proof.
  induction n as [|n IH]; intros s a H; simpl; auto.
  rewrite (getData_cached s a H), (IH s a H). reflexivity.
Qed.

Lemma getData_items s : cache_ok s -> arr_items (fst (getData s)) = generated_items.
Proof.
  unfold Cache.cache_ok, Cache.getData. destruct (dataCache s) as [a|]; simpl; tauto.
Qed.

(** After [clearDataCache] the next [getData] calls the generator and
    stores a new array. *)
Lemma getData_after_clear s :
  let r := getData (clearDataCache s) in
  arr_items (fst r) = generated_items
  /\ arr_id (fst r) = allocated s
  /\ generations (snd r) = S (generations s).
Proof. unfold Cache.getData. simpl. auto. Qed.

Lemma getData_allocated s :
  cache_ok s -> arr_id (fst (getData s)) < allocated (snd (getData s)).
Proof.
  unfold Cache.cache_ok, Cache.getData. destruct (dataCache s) as [a|]; simpl; [tauto | lia].
Qed.

Lemma regenerated_same_items s :
  cache_ok s ->
  let first := getData s in
  let second := getData (clearDataCache (snd first)) in
  arr_items (fst second) = arr_items (fst first)
  /\ arr_items (fst first) = generated_items
  /\ arr_id (fst second) <> arr_id (fst first)
  /\ generations (snd second) = S (generations (snd first)).
Proof.
  intros Hs first second.
  destruct (getData_after_clear (snd first)) as (Hi & Hid & Hg).
  fold second in Hi, Hid, Hg.
  pose proof (getData_items s Hs) as H1. fold first in H1.
  pose proof (getData_allocated s Hs) as H2. fold first in H2.
  split; [congruence|]. split; [exact H1|]. split; [lia | exact Hg].
Qed.

Lemma regenerated_after_run calls :
  let s := run calls in
  let first := getData s in
  let second := getData (clearDataCache (snd first)) in
  arr_items (fst second) = arr_items (fst first)
  /\ arr_items (fst first) = generated_items
  /\ arr_id (fst second) <> arr_id (fst first)
  /\ generations (snd second) = S (generations (snd first)).
Proof. intros s. apply regenerated_same_items, cache_ok_run. Qed.

(** C9.  [getData] always returns an array and throws nothing.  On an
    empty cache it calls the generator once and stores a new array: the
    generator's records, in their order, when the call returns, and no
    record when it throws.  On a filled cache it returns the cached array
    and changes nothing.  The array it returns is cached in either case:
    any number of further calls return that same array and leave the state
    as it is, so the generator runs at most once until [clearDataCache]
    empties the cache; [clearDataCache] on an empty cache changes
    nothing. *)
Theorem getData_contract (s : Store R) (n : nat) :
  (forall data, generate tt = Some data -> dataCache s = None ->
     fst (getData s) = {| arr_id := allocated s; arr_items := data |}
     /\ generations (snd (getData s)) = S (generations s))
  /\ (generate tt = None -> dataCache s = None ->
      fst (getData s) = {| arr_id := allocated s; arr_items := [] |}
      /\ generations (snd (getData s)) = S (generations s))
  /\ (forall a, dataCache s = Some a -> getData s = (a, s))
  /\ dataCache (snd (getData s)) = Some (fst (getData s))
  /\ getData_times generate n (snd (getData s))
     = (repeat (fst (getData s)) n, snd (getData s))
  /\ generations (snd (getData s)) <= S (generations s)
  /\ (dataCache s <> None -> generations (snd (getData s)) = generations s)
  /\ dataCache (clearDataCache s) = None
  /\ clearDataCache (clearDataCache s) = clearDataCache s.
Proof.
  split; [|split; [|split; [|split; [|split; [|split; [|split; [|split]]]]]]].
  - unfold Cache.getData. intros data Hg Hc. rewrite Hc, Hg. split; reflexivity.
  - unfold Cache.getData. intros Hg Hc. rewrite Hc, Hg. split; reflexivity.
  - intros a Ha. apply getData_cached, Ha.
  - apply getData_fills.
  - apply getData_times_cached, getData_fills.
  - unfold Cache.getData. destruct (dataCache s); simpl; lia.
  - unfold Cache.getData. destruct (dataCache s); simpl; congruence.
  - reflexivity.
  - reflexivity.
Qed.

End CacheFacts.

(** [getData_contract] from the initial state, on a generator that
    returns three records and on one that throws: the first call returns
    the three records, or none, and three further calls return the array
    of the first. *)
Lemma getData_contract_witness :
  (arr_items (fst (Cache.getData (fun _ => Some [7; 8; 9]) init)) = [7; 8; 9]
   /\ fst (getData_times (fun _ => Some [7; 8; 9]) 3
             (snd (Cache.getData (fun _ => Some [7; 8; 9]) init)))
      = repeat {| arr_id := 0; arr_items := [7; 8; 9] |} 3)
  /\ arr_items (fst (Cache.getData (fun _ => @None (list nat)) init)) = []
  /\ dataCache (snd (Cache.getData (fun _ => @None (list nat)) init))
     = Some {| arr_id := 0; arr_items := [] |}.
Proof.
  destruct (getData_contract (fun _ => Some [7; 8; 9]) init 3)
    as (H1 & _ & _ & _ & H5 & _).
  destruct (getData_contract (fun _ => @None (list nat)) init 3)
    as (_ & H2 & _ & H4 & _).
  destruct (H1 [7; 8; 9] eq_refl eq_refl) as [Ha _].
  destruct (H2 eq_refl eq_refl) as [Hb _].
  split; [split|split].
  - rewrite Ha. reflexivity.
  - rewrite H5, Ha. reflexivity.
  - rewrite Hb. reflexivity.
  - rewrite H4, Hb. reflexivity.
Defined.

(** C1.  In every state the program can be in, [getData], then
    [clearDataCache], then [getData] again returns a new array with the same
    records as the first: both hold what [generateComprehensiveData]
    returns, which starts from the seed 42 and the identifier 100000 on
    every call and reads nothing else. *)
Theorem regenerated_identical (calls : list call) :
  (let s := Cache.run Generator.generateComprehensiveData calls in
   let first := Cache.getData Generator.generateComprehensiveData s in
   let second :=
     Cache.getData Generator.generateComprehensiveData (clearDataCache (snd first)) in
   arr_items (fst second) = arr_items (fst first)
   /\ arr_items (fst first) = Cache.generated_items Generator.generateComprehensiveData
   /\ arr_id (fst second) <> arr_id (fst first)
   /\ generations (snd second) = S (generations (snd first)))
  /\ Generator.generateComprehensiveData tt
     = option_map fst
         (Generator.generateFrom {| Generator.seed := 42; Generator.nextId := 100000 |}).
Proof.
  split.
  - exact (regenerated_after_run Generator.generateComprehensiveData calls).
  - unfold Generator.generateComprehensiveData. reflexivity.
Qed.

End CacheFacts.

(** ** The record generator *)
Module GeneratorFacts.
Import Generator.

(** The seed update is the linear congruence of the source, on integers. *)
Lemma lcg_next_spec (s : int) :
  (Uint63.to_Z s < 233280)%Z ->
  Uint63.to_Z (lcg_next s) = ((Uint63.to_Z s * 9301 + 49297) mod 233280)%Z
  /\ (0 <= Uint63.to_Z (lcg_next s) < 233280)%Z.
Proof.
  intros H. pose proof (Uint63.to_Z_bounded s) as Hb.
  unfold lcg_next.
  rewrite Uint63.mod_spec, Uint63.add_spec, Uint63.mul_spec.
  change (Uint63.to_Z 9301) with 9301%Z.
  change (Uint63.to_Z 49297) with 49297%Z.
  change (Uint63.to_Z 233280) with 233280%Z.
  change wB with 9223372036854775808%Z.
  rewrite (Z.mod_small (Uint63.to_Z s * 9301)) by lia.
  rewrite (Z.mod_small (Uint63.to_Z s * 9301 + 49297)) by lia.
  split; [reflexivity|]. apply Z.mod_pos_bound. lia.
Qed.

Lemma seededRandom_spec (s : GenState) :
  seededRandom s =
  Some ((of_uint63 (lcg_next (seed s)) / 233280)%float,
        {| seed := lcg_next (seed s); nextId := nextId s |}).
Proof. reflexivity. Qed.

Section Produced.

Context {A R : Type} (P : R -> Prop).

(** A loop pushes only what its body pushes. *)
Lemma forOf_Forall (xs : list A) (body : A -> M (list R)) :
  (forall x s out s', In x xs -> body x s = Some (out, s') -> Forall P out) ->
  forall s out s', forOf xs body s = Some (out, s') -> Forall P out.
Proof.
  induction xs as [|x xs IH]; intros Hbody s out s' H; simpl in H.
  - inversion H. constructor.
  - unfold bind in H.
    destruct (body x s) as [[o1 s1]|] eqn:E1; [|discriminate].
    destruct (forOf xs body s1) as [[o2 s2]|] eqn:E2; [|discriminate].
    inversion H; subst. apply Forall_app. split.
    + eapply Hbody; [left; reflexivity | exact E1].
    + eapply IH; [|exact E2]. intros. eapply Hbody; [right|]; eassumption.
Qed.

End Produced.

(** A loop that runs to its end has run its body on every element, and
    keeps what the body pushed. *)
Lemma forOf_covers {A R} (xs : list A) (body : A -> M (list R)) (x : A) :
  In x xs ->
  forall s out s', forOf xs body s = Some (out, s') ->
  exists s1 o1 s2, body x s1 = Some (o1, s2) /\ incl o1 out.
Proof.
  induction xs as [|y xs IH]; intros Hx s out s' H; [contradiction|].
  simpl in H. unfold bind in H.
  destruct (body y s) as [[o1 s1]|] eqn:E1; [|discriminate].
  destruct (forOf xs body s1) as [[o2 s2]|] eqn:E2; [|discriminate].
  inversion H; subst. destruct Hx as [->|Hx].
  - exists s, o1, s1. split; [exact E1 | apply incl_appl, incl_refl].
  - destruct (IH Hx _ _ _ E2) as (t1 & o & t2 & Hb & Hi).
    exists t1, o, t2. split; [exact Hb | apply incl_appr, Hi].
Qed.

Lemma at_index_In {A} (arr : list A) (i : float) (x : A) :
  JS.at_index arr i = Some x -> In x arr.
Proof.
  unfold JS.at_index. destruct (0 <=? i)%float; [|discriminate].
  apply nth_error_In.
Qed.

Lemma pick_In arr s x s' : pick arr s = Some (x, s') -> In x arr.
Proof.
  unfold pick, bind, seededRandom, defined. simpl.
  destruct (JS.at_index arr _) eqn:E; [|discriminate].
  intros H. inversion H; subst. eapply at_index_In, E.
Qed.

(** One step of a monadic computation that succeeded. *)
Ltac bind_step H :=
  unfold bind in H at 1;
  match type of H with
  | match ?m ?s with _ => _ end = Some _ =>
      let a := fresh "a" in let s1 := fresh "s" in let E := fresh "E" in
      destruct (m s) as [[a s1]|] eqn:E; [|discriminate H]
  end.

(** The record literal stores the drawn [salesChannel] itself. *)
Lemma makeRecord_channel year region regionMult country productType productMult
    bladeMaterial bladeMult handleLength handleMult application appMult s out s' :
  makeRecord year region regionMult country productType productMult
    bladeMaterial bladeMult handleLength handleMult application appMult s
  = Some (out, s') ->
  Forall (fun r => In (distributionChannelType r) salesChannels) out.
Proof.
  unfold makeRecord. intros H.
  bind_step H. bind_step H.
  apply pick_In in E0.
  repeat bind_step H.
  unfold ret in H. inversion H; subst. constructor; [exact E0 | constructor].
Qed.

Lemma generateFrom_channel s out s' :
  generateFrom s = Some (out, s') ->
  Forall (fun r => In (distributionChannelType r) salesChannels) out.
Proof.
  unfold generateFrom.
  repeat (apply forOf_Forall; intros ? ? ? ? _).
  apply makeRecord_channel.
Qed.

Lemma generated_channel data :
  generateComprehensiveData tt = Some data ->
  Forall (fun r => In (distributionChannelType r) salesChannels) data.
Proof.
  unfold generateComprehensiveData.
  destruct (generateFrom _) as [[out s']|] eqn:E; [|discriminate].
  simpl. intros H. inversion H; subst. eapply generateFrom_channel, E.
Qed.

(** The data the generator returns is what its loops push from the seed
    42 and the identifier 100000. *)
Lemma generated_from data :
  generateComprehensiveData tt = Some data ->
  exists s', generateFrom {| seed := 42; nextId := 100000 |} = Some (data, s').
Proof.
  unfold generateComprehensiveData.
  destruct (generateFrom _) as [[out s']|]; [|discriminate].
  simpl. intros H. inversion H; subst. exists s'. reflexivity.
Qed.

Lemma salesChannels_prefixed :
  forallb (fun c => JS.startsWith c "D2C" || JS.startsWith c "Offline"
                    || JS.startsWith c "Others") salesChannels = true.
Proof. reflexivity. Qed.

Lemma salesChannel_own_type c :
  In c salesChannels -> channelTypeOf c = c /\ c <> "Online"%string.
Proof.
  intros H. unfold salesChannels in H. simpl in H.
  repeat (destruct H as [<-|H]; [split; [reflexivity | discriminate]|]).
  contradiction.
Qed.

(** A property of every data set the generator can return holds of the
    records [getData] hands out. *)
Lemma generatedRecords_Forall (P : ShovelMarketData float -> Prop) :
  (forall data, generateComprehensiveData tt = Some data -> Forall P data) ->
  Forall P Dataset.generatedRecords.
Proof.
  unfold Dataset.generatedRecords, Cache.generated_items. intros H.
  destruct (generateComprehensiveData tt) as [data|] eqn:E; simpl.
  - apply H. reflexivity.
  - constructor.
Qed.

(** *** The generated data set, checked by running the generator *)

Lemma checkFrom_sound data : forall ok next next',
  fold_left (fun acc r =>
    (fst acc && Dataset.recordOk r && (recordId r =? snd acc)%Z, (snd acc + 1)%Z))
    data (ok, next) = (true, next') ->
  ok = true
  /\ Forall (fun r => Dataset.recordOk r = true) data
  /\ next' = (next + Z.of_nat (List.length data))%Z
  /\ forall i r, nth_error data i = Some r -> recordId r = (next + Z.of_nat i)%Z.
Proof.
  induction data as [|d data IH]; intros ok next next' H; simpl in H.
  - inversion H; subst. repeat split; [constructor | simpl; lia |].
    intros [|i] r Hn; discriminate Hn.
  - apply IH in H. destruct H as (Hok & Hall & Hnext & Hid).
    apply andb_true_iff in Hok. destruct Hok as [Hok Hrid].
    apply andb_true_iff in Hok. destruct Hok as [Hok Hd].
    apply Z.eqb_eq in Hrid.
    split; [exact Hok|]. split; [constructor; assumption|].
    split; [simpl List.length; lia|].
    intros [|i] r Hn; simpl in Hn.
    + inversion Hn; subst. lia.
    + apply Hid in Hn. lia.
Qed.

Lemma datasetOk_sound generated :
  Dataset.datasetOk generated = true ->
  exists data, generated = Some data
    /\ Forall (fun r => Dataset.recordOk r = true) data
    /\ Z.of_nat (List.length data) = Dataset.expectedCount
    /\ forall i r, nth_error data i = Some r -> recordId r = (100000 + Z.of_nat i)%Z.
Proof.
  unfold Dataset.datasetOk, Dataset.checkFrom. destruct generated as [data|]; [|discriminate].
  destruct (fold_left _ data (true, 100000%Z)) as [ok next] eqn:E.
  intros H. apply andb_true_iff in H. destruct H as [-> Hn]. apply Z.eqb_eq in Hn.
  apply checkFrom_sound in E. destruct E as (_ & Hall & Hnext & Hid).
  exists data. repeat split; [exact Hall | lia | exact Hid].
Qed.

End GeneratorFacts.

Module DatasetFacts.
Import Generator.

(** The generator runs to the end, and its 138240 records pass
    [Dataset.recordOk] with consecutive identifiers from 100000. *)
Lemma dataset_checked : Dataset.datasetOk (generateComprehensiveData tt) = true.
Proof. vm_compute. reflexivity. Qed.

Lemma generated_exists :
  exists data, generateComprehensiveData tt = Some data
    /\ Dataset.generatedRecords = data
    /\ Forall (fun r => Dataset.recordOk r = true) data
    /\ Z.of_nat (List.length data) = Dataset.expectedCount
    /\ forall i r, nth_error data i = Some r -> recordId r = (100000 + Z.of_nat i)%Z.
Proof.
  destruct (GeneratorFacts.datasetOk_sound _ dataset_checked)
    as (data & E & Hall & Hlen & Hid).
  exists data. split; [exact E|]. split.
  - unfold Dataset.generatedRecords, Cache.generated_items. rewrite E. reflexivity.
  - auto.
Qed.

Lemma recordOk_parts r :
  Dataset.recordOk r = true ->
  Dataset.revenueMatches r = true /\ Dataset.marketValueNear r = true
  /\ Dataset.amountsOk r = true.
Proof.
  unfold Dataset.recordOk. intros H.
  apply andb_true_iff in H. destruct H as [H H3].
  apply andb_true_iff in H. destruct H as [H1 H2]. auto.
Qed.

(** C3.  The generator returns 138240 records, and in each of them the
    stored revenue is the stored price times the units sold up to the
    rounding of the price to a cent (one cent per unit at most), and the
    stored market value is within 10% of the stored revenue; both
    comparisons are evaluated in the program's own arithmetic. *)
Theorem generated_revenue_consistent :
  Z.of_nat (List.length Dataset.generatedRecords) = 138240%Z
  /\ Forall (fun r =>
       (PrimFloat.abs (revenue r - price r * volumeUnits r)
          <=? 0.01 * volumeUnits r)%float = true
       /\ (PrimFloat.abs (marketValueUsd r - revenue r)
          <=? 0.1 * revenue r)%float = true)
     Dataset.generatedRecords.
Proof.
  destruct generated_exists as (data & _ & -> & Hall & Hlen & _).
  split; [rewrite Hlen; reflexivity|].
  eapply Forall_impl; [|exact Hall]. intros r Hr.
  apply recordOk_parts in Hr. destruct Hr as (H1 & H2 & _).
  split; [exact H1 | exact H2].
Qed.

(** C10.  Every generated record stores in [distributionChannelType] the
    sales channel that was drawn for it: an entry of [salesChannels], each
    of which starts with D2C, Offline or Others, so that the ternary's
    ["Online"] branch is never taken and ["Online"] is never stored. *)
Theorem generated_channel_type :
  Dataset.generatedRecords <> []
  /\ Forall (fun r =>
       In (distributionChannelType r) salesChannels
       /\ channelTypeOf (distributionChannelType r) = distributionChannelType r
       /\ distributionChannelType r <> "Online"%string)
     Dataset.generatedRecords.
Proof.
  split.
  - destruct generated_exists as (data & _ & -> & _ & Hlen & _).
    intros ->. vm_compute in Hlen. discriminate Hlen.
  - apply GeneratorFacts.generatedRecords_Forall. intros data E.
    eapply Forall_impl; [|exact (GeneratorFacts.generated_channel data E)].
    intros r Hr. split; [exact Hr|]. apply GeneratorFacts.salesChannel_own_type, Hr.
Qed.

End DatasetFacts.

(** ** Strings, arrays and maps *)
Module StrFacts.

Open Scope string_scope.

Lemma of_Z_inj a b : Str.of_Z a = Str.of_Z b -> a = b.
Proof.
  unfold Str.of_Z. intros H. apply DecimalZ.to_int_inj.
  assert (E : forall d, DecimalString.NilEmpty.int_of_string
                          (DecimalString.NilEmpty.string_of_int d) = Some d)
    by apply DecimalString.NilEmpty.isi.
  pose proof (E (Z.to_int a)) as Ea. rewrite H, E in Ea. congruence.
Qed.

Lemma to_of_Z z : Str.to_Z (Str.of_Z z) = z.
Proof.
  unfold Str.to_Z, Str.of_Z. rewrite DecimalString.NilEmpty.isi. apply DecimalZ.of_to.
Qed.

(** Digits, then a hyphen: the digits are determined by the string. *)
Lemma uint_hyphen_inj d1 : forall d2 s1 s2,
  DecimalString.NilEmpty.string_of_uint d1 ++ String "-" s1
  = DecimalString.NilEmpty.string_of_uint d2 ++ String "-" s2 ->
  d1 = d2 /\ s1 = s2.
Proof.
  induction d1; intros d2 s1 s2 H; destruct d2; simpl in H;
    try discriminate H;
    try (inversion H; subst; split; reflexivity);
    (injection H as H; apply IHd1 in H; destruct H as [-> ->]; split; reflexivity).
Qed.

Lemma uint_head_not_hyphen d s t :
  d <> Decimal.Nil ->
  DecimalString.NilEmpty.string_of_uint d ++ s <> String "-" t.
Proof. destruct d; simpl; intros Hd H; try discriminate H. contradiction. Qed.

(** [String(year) + "-" + segment] determines the year and the segment. *)
Lemma int_hyphen_inj y1 y2 s1 s2 :
  Str.of_Z y1 ++ "-" ++ s1 = Str.of_Z y2 ++ "-" ++ s2 -> y1 = y2 /\ s1 = s2.
Proof.
  unfold Str.of_Z. intros H.
  assert (Hn : forall z, match Z.to_int z with
                         | Decimal.Pos d | Decimal.Neg d => d <> Decimal.Nil end).
  { intros [|p|p]; simpl; try apply DecimalPos.Unsigned.to_uint_nonnil. discriminate. }
  pose proof (Hn y1) as H1. pose proof (Hn y2) as H2.
  destruct (Z.to_int y1) as [d1|d1] eqn:E1, (Z.to_int y2) as [d2|d2] eqn:E2;
    simpl in H.
  - apply uint_hyphen_inj in H. destruct H as [-> ->].
    split; [|reflexivity]. apply DecimalZ.to_int_inj. congruence.
  - exfalso. eapply uint_head_not_hyphen; [exact H1 | exact H].
  - exfalso. symmetry in H. eapply uint_head_not_hyphen; [exact H2 | exact H].
  - injection H as H. apply uint_hyphen_inj in H. destruct H as [-> ->].
    split; [|reflexivity]. apply DecimalZ.to_int_inj. congruence.
Qed.

Lemma includes_In arr x : Str.includes arr x = true <-> In x arr.
Proof.
  unfold Str.includes. rewrite existsb_exists. split.
  - intros (y & Hy & E). apply String.eqb_eq in E. subst. exact Hy.
  - intros Hx. exists x. split; [exact Hx | apply String.eqb_refl].
Qed.

End StrFacts.

Module DictFacts.

Section DictFacts.

Context {K V : Type} (eqb : K -> K -> bool).
Hypothesis eqb_eq : forall a b, eqb a b = true <-> a = b.

Lemma eqb_refl k : eqb k k = true.
Proof. apply eqb_eq. reflexivity. Qed.

Lemma eqb_neq a b : a <> b -> eqb a b = false.
Proof.
  intros Hn. destruct (eqb a b) eqn:E; [|reflexivity].
  apply eqb_eq in E. contradiction.
Qed.

(** Reading the key that was just written. *)
Lemma get_set_same (m : list (K * V)) k v : Dict.get eqb (Dict.set eqb k v m) k = Some v.
Proof.
  induction m as [|[k' v'] m IH]; simpl.
  - rewrite eqb_refl. reflexivity.
  - destruct (eqb k' k) eqn:E; simpl; rewrite E; [reflexivity | exact IH].
Qed.

(** Writing a key leaves the others as they are. *)
Lemma get_set_other (m : list (K * V)) k k' v :
  k <> k' -> Dict.get eqb (Dict.set eqb k v m) k' = Dict.get eqb m k'.
Proof.
  intros Hn. induction m as [|[k0 v0] m IH]; simpl.
  - rewrite eqb_neq by exact Hn. reflexivity.
  - destruct (eqb k0 k) eqn:E; simpl.
    + apply eqb_eq in E. subst k0. rewrite eqb_neq by exact Hn. reflexivity.
    + destruct (eqb k0 k'); [reflexivity | exact IH].
Qed.

Lemma get_Some_In (m : list (K * V)) k v : Dict.get eqb m k = Some v -> In (k, v) m.
Proof.
  induction m as [|[k0 v0] m IH]; simpl; [discriminate|].
  destruct (eqb k0 k) eqn:E.
  - apply eqb_eq in E. intros H. inversion H; subst. left. reflexivity.
  - intros H. right. apply IH, H.
Qed.



(** A write keeps the order of the keys and appends a new key. *)
Lemma keys_set (m : list (K * V)) k v :
  Dict.keys (Dict.set eqb k v m)
  = if Dict.has eqb m k then Dict.keys m else (Dict.keys m ++ [k])%list.
Proof.
  unfold Dict.keys, Dict.has. induction m as [|[k0 v0] m IH]; simpl; [reflexivity|].
  destruct (eqb k0 k) eqn:E; simpl; [reflexivity|].
  rewrite IH. destruct (Dict.get eqb m k); reflexivity.
Qed.

Lemma has_In (m : list (K * V)) k : Dict.has eqb m k = true <-> In k (Dict.keys m).
Proof.
  unfold Dict.has, Dict.keys. induction m as [|[k0 v0] m IH]; simpl.
  - split; [discriminate | intros []].
  - destruct (eqb k0 k) eqn:E.
    + apply eqb_eq in E. split; [intros _; left; exact E | reflexivity].
    + rewrite IH. split; [intros Hk; right; exact Hk|].
      intros [Hk|Hk]; [|exact Hk]. apply eqb_eq in Hk. congruence.
Qed.


End DictFacts.

End DictFacts.

Module ArrFacts.

Section ArrFacts.

Context {A : Type}.

Lemma insert_perm (leb : A -> A -> bool) x sorted :
  Permutation (Arr.insert leb x sorted) (x :: sorted).
Proof.
  induction sorted as [|y rest IH]; simpl; [reflexivity|].
  destruct (leb x y); [reflexivity|].
  rewrite IH. apply perm_swap.
Qed.

(** Sorting rearranges: nothing is lost, added or repeated. *)
Lemma sortBy_perm (leb : A -> A -> bool) arr : Permutation (Arr.sortBy leb arr) arr.
Proof.
  unfold Arr.sortBy. induction arr as [|x arr IH]; simpl; [reflexivity|].
  rewrite insert_perm, IH. reflexivity.
Qed.

Lemma sort_perm (key : A -> string) arr : Permutation (Arr.sort key arr) arr.
Proof. apply sortBy_perm. Qed.

Lemma sort_In (key : A -> string) arr x : In x (Arr.sort key arr) <-> In x arr.
Proof.
  split; apply Permutation_in; [|symmetry]; apply sort_perm.
Qed.

Section Uniq.

Variable eqb : A -> A -> bool.
Hypothesis eqb_eq : forall a b, eqb a b = true <-> a = b.

Lemma uniq_In arr x : In x (Arr.uniq eqb arr) <-> In x arr.
Proof.
  induction arr as [|y arr IH]; simpl; [reflexivity|].
  rewrite filter_In, IH. split.
  - intros [H|[H _]]; auto.
  - intros [H|H]; [left; exact H|].
    destruct (eqb y x) eqn:E.
    + left. apply eqb_eq, E.
    + right. split; [exact H | reflexivity].
Qed.

Lemma uniq_NoDup arr : NoDup (Arr.uniq eqb arr).
Proof.
  induction arr as [|y arr IH]; simpl; constructor.
  - rewrite filter_In. intros [_ H].
    rewrite (proj2 (eqb_eq y y) eq_refl) in H. discriminate H.
  - apply NoDup_filter, IH.
Qed.

End Uniq.

End ArrFacts.

End ArrFacts.

Module ObjFacts.

(** [Object.entries] enumerates every own property once. *)
Lemma entries_perm {V} (m : list (string * V)) : Permutation (Obj.entries m) m.
Proof.
  unfold Obj.entries. rewrite ArrFacts.sortBy_perm.
  induction m as [|kv m IH]; simpl; [reflexivity|].
  destruct (Obj.is_index (fst kv)); simpl.
  - constructor. exact IH.
  - rewrite <- Permutation_middle. constructor. exact IH.
Qed.

Lemma entries_In {V} (m : list (string * V)) kv : In kv (Obj.entries m) <-> In kv m.
Proof. split; apply Permutation_in; [|symmetry]; apply entries_perm. Qed.

Lemma keys_perm {V} (m : list (string * V)) : Permutation (Obj.keys m) (Dict.keys m).
Proof. unfold Obj.keys, Dict.keys. apply Permutation_map, entries_perm. Qed.

End ObjFacts.

(** ** The chart derivations *)
Module AnalysisFacts.
Import Analysis Grouping.

Open Scope string_scope.

Lemma string_eqb_eq (a b : string) : String.eqb a b = true <-> a = b.
Proof. apply String.eqb_eq. Qed.

Lemma Forall2_map {A B} (P : A -> B -> Prop) (f : A -> B) (l : list A) :
  (forall a, In a l -> P a (f a)) -> Forall2 P l (map f l).
Proof.
  induction l as [|a l IH]; intros Hf; simpl; constructor.
  - apply Hf. left. reflexivity.
  - apply IH. intros b Hb. apply Hf. right. exact Hb.
Qed.

Section AnalysisFacts.

Context {num : Type} `{Number num}.

Abbreviation Row := (ShovelMarketData num).

Lemma yearSegmentKey_inj y1 y2 s1 s2 :
  yearSegmentKey y1 s1 = yearSegmentKey y2 s2 -> y1 = y2 /\ s1 = s2.
Proof. apply StrFacts.int_hyphen_inj. Qed.

Lemma getOrZero_read (m : list (string * num)) k :
  getOrZero String.eqb m k = Sums.read (Dict.get String.eqb m k).
Proof. reflexivity. Qed.

(** A row holds, under each segment of the axis, the number computed for
    it; the other keys are as in the empty row. *)
Lemma row_get_other (f : string -> num) (segs : list string) (s : string) :
  forall e0 : Entry num, ~ In s segs ->
  Dict.get String.eqb (fold_left (fun entry seg => setNum seg (f seg) entry) segs e0) s
  = Dict.get String.eqb e0 s.
Proof.
  induction segs as [|seg segs IH]; intros e0 Hn; simpl; [reflexivity|].
  rewrite IH by (intros Hi; apply Hn; right; exact Hi).
  unfold setNum. apply DictFacts.get_set_other; [exact string_eqb_eq|].
  intros ->. apply Hn. left. reflexivity.
Qed.

Lemma row_get (f : string -> num) (segs : list string) (s : string) :
  forall e0 : Entry num, In s segs ->
  Dict.get String.eqb (fold_left (fun entry seg => setNum seg (f seg) entry) segs e0) s
  = Some (VNum (f s)).
Proof.
  induction segs as [|seg segs IH]; intros e0 Hi; simpl; [contradiction|].
  destruct (in_dec string_dec s segs) as [Hs|Hs]; [apply IH, Hs|].
  destruct Hi as [->|Hi]; [|contradiction].
  rewrite row_get_other by exact Hs.
  unfold setNum. apply DictFacts.get_set_same. exact string_eqb_eq.
Qed.

(** The map of [generateSegmentChartData] holds under [`${y}-${s}`] what
    the records of the year [y] and the segment [s] add up to. *)
Lemma segmentMap_get filters getSegmentValue y s (records : list Row) :
  forall m : list (string * num),
  Dict.get String.eqb
    (fold_left (fun segmentMap d =>
       let key := yearSegmentKey (year d) (getSegmentValue d) in
       Dict.set String.eqb key
         (add (getOrZero String.eqb segmentMap key) (getDataValue filters d))
         segmentMap) records m)
    (yearSegmentKey y s)
  = Sums.accumulateFrom (Dict.get String.eqb m (yearSegmentKey y s))
      (map (getDataValue filters) (matching getSegmentValue y s records)).
Proof.
  induction records as [|d records IH]; intros m; simpl; [reflexivity|].
  rewrite IH. clear IH.
  destruct (Z.eqb (year d) y && String.eqb (getSegmentValue d) s) eqn:E; simpl.
  - apply andb_true_iff in E. destruct E as [Ey Es].
    apply Z.eqb_eq in Ey. apply String.eqb_eq in Es. subst.
    rewrite DictFacts.get_set_same by exact string_eqb_eq. reflexivity.
  - rewrite DictFacts.get_set_other; [reflexivity | exact string_eqb_eq |].
    intros Hk. apply yearSegmentKey_inj in Hk. destruct Hk as [Hy Hs].
    rewrite Hy, Hs, Z.eqb_refl, String.eqb_refl in E. discriminate E.
Qed.

Lemma Z_eqb_eq (a b : Z) : Z.eqb a b = true <-> a = b.
Proof. apply Z.eqb_eq. Qed.

Lemma sumByYear_step_get filters getSegmentValue (keep : string -> bool) y s
    (ysm : list (Z * list (string * num))) (d : Row) :
  keep s = true ->
  let ysm1 := if Dict.has Z.eqb ysm (year d) then ysm
              else Dict.set Z.eqb (year d) [] ysm in
  get2 (if keep (getSegmentValue d) then
          match Dict.get Z.eqb ysm1 (year d) with
          | Some segmentMap =>
              Dict.set Z.eqb (year d)
                (Dict.set String.eqb (getSegmentValue d)
                   (add (getOrZero String.eqb segmentMap (getSegmentValue d))
                        (getDataValue filters d)) segmentMap) ysm1
          | None => ysm1
          end
        else ysm) y s
  = if Z.eqb (year d) y && String.eqb (getSegmentValue d) s
    then Some (add (Sums.read (get2 ysm y s)) (getDataValue filters d))
    else get2 ysm y s.
Proof.
  intros Hkeep ysm1.
  assert (H1 : forall y' s', get2 ysm1 y' s' = get2 ysm y' s').
  { intros y' s'. unfold ysm1, get2, Dict.has.
    destruct (Dict.get Z.eqb ysm (year d)) eqn:E; [reflexivity|].
    destruct (Z.eq_dec (year d) y') as [<-|Hn].
    - rewrite DictFacts.get_set_same by exact Z_eqb_eq. rewrite E. reflexivity.
    - rewrite DictFacts.get_set_other by (exact Z_eqb_eq || exact Hn). reflexivity. }
  assert (H2 : exists segmentMap, Dict.get Z.eqb ysm1 (year d) = Some segmentMap).
  { unfold ysm1, Dict.has. destruct (Dict.get Z.eqb ysm (year d)) eqn:E.
    - exists l. exact E.
    - exists []. apply DictFacts.get_set_same. exact Z_eqb_eq. }
  destruct H2 as [segmentMap Hm].
  destruct (String.eqb (getSegmentValue d) s) eqn:Es.
  - apply String.eqb_eq in Es. rewrite Es, Hkeep, andb_true_r.
    rewrite Hm.
    destruct (Z.eqb (year d) y) eqn:Ey.
    + apply Z.eqb_eq in Ey. rewrite Ey in Hm |- *.
      unfold get2 at 1. rewrite DictFacts.get_set_same by exact Z_eqb_eq.
      rewrite DictFacts.get_set_same by exact string_eqb_eq.
      rewrite <- H1. unfold get2. rewrite Hm. reflexivity.
    + apply Z.eqb_neq in Ey. rewrite <- H1. unfold get2.
      rewrite DictFacts.get_set_other by (exact Z_eqb_eq || exact Ey). reflexivity.
  - rewrite andb_false_r.
    destruct (keep (getSegmentValue d)); [|reflexivity].
    rewrite Hm, <- H1.
    destruct (Z.eq_dec (year d) y) as [Ey|Ey].
    + rewrite Ey in Hm |- *. unfold get2.
      rewrite DictFacts.get_set_same by exact Z_eqb_eq. rewrite Hm.
      apply DictFacts.get_set_other; [exact string_eqb_eq|].
      intros E. rewrite E, String.eqb_refl in Es. discriminate Es.
    + unfold get2.
      rewrite DictFacts.get_set_other by (exact Z_eqb_eq || exact Ey). reflexivity.
Qed.

(** The nested map of the stacked charts holds, for a year and a segment
    that [keep] accepts, what their records add up to. *)
Lemma sumByYear_get filters getSegmentValue (keep : string -> bool) y s
    (records : list Row) :
  keep s = true ->
  get2 (sumByYear filters getSegmentValue keep records) y s
  = Sums.accumulateFrom None
      (map (getDataValue filters) (matching getSegmentValue y s records)).
Proof.
  intros Hkeep. unfold sumByYear.
  change (@None num) with (get2 (@nil (Z * list (string * num))) y s).
  generalize (@nil (Z * list (string * num))).
  induction records as [|d records IH]; intros ysm; simpl; [reflexivity|].
  rewrite IH. clear IH.
  rewrite (sumByYear_step_get filters getSegmentValue keep y s ysm d Hkeep).
  destruct (Z.eqb (year d) y && String.eqb (getSegmentValue d) s); reflexivity.
Qed.

Lemma segmentAxis_truthy (filteredData : list Row) getSegmentValue selectedSegments s :
  In s (segmentAxis filteredData getSegmentValue selectedSegments) -> Str.truthy s = true.
Proof.
  unfold segmentAxis, distinctSorted.
  destruct selectedSegments as [selected|];
    [destruct (0 <? List.length selected)%nat|];
    intros Hs; apply ArrFacts.sort_In, filter_In in Hs; apply Hs.
Qed.

Lemma positiveAt_spec (s : string) (entry : Entry num) :
  positiveAt s entry = true
  <-> exists v, Dict.get String.eqb entry s = Some (VNum v) /\ gt v zero = true.
Proof.
  unfold positiveAt. destruct (Dict.get String.eqb entry s) as [[t|v]|].
  - split; [discriminate | intros (v & Hv & _); discriminate Hv].
  - split; [intros Hg; exists v; auto | intros (v' & Hv & Hg); congruence].
  - split; [discriminate | intros (v & Hv & _); discriminate Hv].
Qed.

Lemma activeOf_spec (chartData : list (Entry num)) (segments : list string) s :
  In s (activeOf chartData segments)
  <-> In s segments
      /\ exists entry v, In entry chartData
           /\ Dict.get String.eqb entry s = Some (VNum v) /\ gt v zero = true.
Proof.
  unfold activeOf. rewrite filter_In, existsb_exists. split.
  - intros (Hs & entry & He & Hp). apply positiveAt_spec in Hp.
    destruct Hp as (v & Hv & Hg). split; [exact Hs|]. exists entry, v. auto.
  - intros (Hs & entry & v & He & Hv & Hg). split; [exact Hs|].
    exists entry. split; [exact He|]. apply positiveAt_spec. exists v. auto.
Qed.

(** C7.  In the rows of [generateSegmentChartData] and of
    [generateYearWiseStackedBarData], one row per year of the filtered
    data, every segment of the segment axis is a key that holds a number:
    what the records of that year and segment add up to, and 0 when there
    is no such record.  The segments the stacked variant returns are the
    segments of the axis whose number is greater than 0 in some row. *)
Theorem aggregation_complete (filters : Filters.t) (filteredData : list Row)
    (getSegmentValue : Row -> string) (selectedSegments : option (list string)) :
  let axis := segmentAxis filteredData getSegmentValue selectedSegments in
  let grouped :=
    generateSegmentChartData filters filteredData getSegmentValue selectedSegments in
  let stacked :=
    generateYearWiseStackedBarData filters filteredData getSegmentValue
      selectedSegments in
  let filled (year : Z) (entry : Entry num) :=
    forall segment, In segment axis ->
    exists v, Dict.get String.eqb entry segment = Some (VNum v)
      /\ v = Sums.total (map (getDataValue filters)
                           (matching getSegmentValue year segment filteredData))
      /\ (matching getSegmentValue year segment filteredData = [] -> v = zero) in
  segments grouped = axis
  /\ Forall2 filled (yearsOf filteredData) (chartData grouped)
  /\ Forall2 filled (yearsOf filteredData) (chartData stacked)
  /\ (forall segment,
        In segment (segments stacked)
        <-> In segment axis
            /\ exists entry v, In entry (chartData stacked)
                 /\ Dict.get String.eqb entry segment = Some (VNum v)
                 /\ gt v zero = true).
Proof.
  intros axis grouped stacked filled.
  split; [reflexivity|]. split; [|split].
  - unfold grouped, generateSegmentChartData. simpl chartData.
    apply Forall2_map. intros y _ segment Hs.
    eexists. split; [|split].
    + apply (row_get (fun seg => getOrZero String.eqb _ (yearSegmentKey y seg))).
      exact Hs.
    + rewrite getOrZero_read, segmentMap_get. reflexivity.
    + rewrite getOrZero_read, segmentMap_get. intros ->. reflexivity.
  - unfold stacked, generateYearWiseStackedBarData, stackedRows. simpl chartData.
    apply Forall2_map. intros y _ segment Hs.
    pose proof (sumByYear_get filters getSegmentValue Str.truthy y segment
                  filteredData (segmentAxis_truthy _ _ _ _ Hs)) as Hsum.
    eexists. split; [|split].
    + apply (row_get (fun seg => getOrZero String.eqb _ seg)). exact Hs.
    + rewrite getOrZero_read. unfold Sums.total. rewrite <- Hsum.
      unfold get2. destruct (Dict.get Z.eqb _ y); reflexivity.
    + rewrite getOrZero_read. intros E. rewrite E in Hsum. simpl in Hsum.
      unfold get2 in Hsum. destruct (Dict.get Z.eqb _ y); [rewrite Hsum|]; reflexivity.
  - intros segment. apply activeOf_spec.
Qed.

(** *** The product-type chart *)








End AnalysisFacts.

End AnalysisFacts.

(** ** The waterfall *)
Module WaterfallFacts.
Import Analysis.

Open Scope string_scope.

Section Accumulate.

Context {num : Type} `{Number num}.

(** The bars between the base and the total carry the increments in
    order, and the running total ends at the base with the increments
    added to it one after the other. *)
Lemma accumulate_spec (items : list (string * num)) : forall cumulative,
  let '(entries, final) := accumulate cumulative items in
  map w_year entries = map fst items
  /\ map w_incrementalValue entries = map (fun item => Some (snd item)) items
  /\ final = fold_left add (map snd items) cumulative
  /\ Forall (fun e => isBase e = false /\ isTotal e = false /\ w_baseValue e = None)
       entries.
Proof.
  induction items as [|[y v] items IH]; intros cumulative; simpl.
  - repeat split; constructor.
  - specialize (IH (add cumulative v)).
    destruct (accumulate (add cumulative v) items) as [entries final].
    destruct IH as (Hy & Hv & Hf & Hall). simpl.
    split; [f_equal; exact Hy|]. split; [f_equal; exact Hv|].
    split; [exact Hf | constructor; [auto | exact Hall]].
Qed.

End Accumulate.

Open Scope float_scope.

Abbreviation Row := (ShovelMarketData float).

Lemma yearTotal_none (records : list Row) (y : Z) :
  Forall (fun d => year d <> y) records -> yearTotal records y = 0.
Proof.
  intros Hall. unfold yearTotal.
  replace (filter (fun d => Z.eqb (year d) y) records) with (@nil Row); [reflexivity|].
  induction Hall as [|d records Hd _ IH]; simpl; [reflexivity|].
  apply Z.eqb_neq in Hd. rewrite Hd. exact IH.
Qed.

(** C4.  An increment of the waterfall is the difference of the totals of
    its year and the year before when both are greater than 0, and
    otherwise the entry [year - 2025] of the default table scaled by the
    base value over 57159; on records of the year 2024 only, all seven
    increments are the scaled table.  The series starts with the bar of
    2024 flagged [isBase], continues with the seven increments and ends
    with the bar of 2032 flagged [isTotal], whose value is the base value
    with the increments added to it in order. *)
Theorem waterfall_fallback (records : list Row) :
  let baseValue := JS.or_else (yearTotal records 2024) defaultBaseValue in
  let scaled (i : nat) := nth i defaultIncrements 0 * (baseValue / defaultBaseValue) in
  let increment (year : Z) := incrementOf records baseValue year in
  (defaultBaseValue = 57159
   /\ defaultIncrements = [2638.4; 2850.4; 3055.6; 3231.0; 3432.9; 3674.2; 3885.1]
   /\ incrementYears = [2025; 2026; 2027; 2028; 2029; 2030; 2031]%Z)
  /\ (forall year,
        (0 <? yearTotal records year) = false
        \/ (0 <? yearTotal records (year - 1)) = false ->
        increment year = scaled (Z.to_nat (year - 2025)))
  /\ (Forall (fun d => year d = 2024%Z) records ->
      map increment incrementYears = map scaled (seq 0 7))
  /\ exists middle cumulative,
       w_chartData (waterfallData records)
       = ({| w_year := "2024"; w_baseValue := Some baseValue;
             w_incrementalValue := None; w_totalValue := baseValue;
             isBase := true; isTotal := false |}
          :: middle
          ++ [ {| w_year := "2032"; w_baseValue := Some cumulative;
                  w_incrementalValue := None; w_totalValue := cumulative;
                  isBase := false; isTotal := true |} ])%list
       /\ map w_year middle = ["2025"; "2026"; "2027"; "2028"; "2029"; "2030"; "2031"]
       /\ map w_incrementalValue middle = map (fun y => Some (increment y)) incrementYears
       /\ cumulative = fold_left PrimFloat.add (map increment incrementYears) baseValue.
Proof.
  intros baseValue scaled increment.
  split; [repeat split|]. split; [|split].
  - intros year Hz. unfold increment, incrementOf, scaled.
    change (gt ?a zero) with (0 <? a).
    destruct Hz as [-> | ->]; [reflexivity | rewrite andb_false_r; reflexivity].
  - intros Hall.
    assert (Hz : forall y, y <> 2024%Z -> yearTotal records y = 0).
    { intros y Hy. apply yearTotal_none. eapply Forall_impl; [|exact Hall].
      simpl. intros d ->. congruence. }
    assert (Hinc : forall y, y <> 2024%Z -> increment y = scaled (Z.to_nat (y - 2025))).
    { intros y Hy. unfold increment, incrementOf, scaled.
      rewrite (Hz y Hy). reflexivity. }
    change incrementYears with [2025; 2026; 2027; 2028; 2029; 2030; 2031]%Z.
    simpl map. rewrite !Hinc by discriminate. reflexivity.
  - unfold waterfallData. fold baseValue.
    pose proof (accumulate_spec
                  (map (fun year => (Str.of_Z year, incrementOf records baseValue year))
                     incrementYears) baseValue) as Hacc.
    change (if truthy (yearTotal records 2024) then yearTotal records 2024
            else defaultBaseValue) with baseValue.
    destruct (accumulate baseValue _) as [middle cumulative].
    destruct Hacc as (Hy & Hv & Hf & _).
    exists middle, cumulative. split; [reflexivity|].
    split; [rewrite Hy; reflexivity|].
    split; [rewrite Hv, map_map; reflexivity|].
    rewrite Hf, map_map. reflexivity.
Qed.

(** [waterfall_fallback] on one record of the year 2024 worth a million. *)
Lemma waterfall_fallback_witness :
  let records : list Row :=
    [ {| recordId := 100000; year := 2024; region := "North India";
         country := "North India"; productType := "Skin Care";
         bladeMaterial := "Creams & Lotions"; handleLength := "Mass";
         application := "Gen X (Ages 42-57)"; endUser := "Students";
         distributionChannelType := "Others"; distributionChannel := "Brand Website";
         brand := "Dabur"; company := "Dabur India Ltd";
         price := 10; volumeUnits := 100000; qty := 100000; revenue := 1000000;
         marketValueUsd := 1000000; value := 1000000; marketSharePct := 5;
         cagr := 3; yoyGrowth := 2 |} ] in
  Forall (fun d => year d = 2024%Z) records
  /\ map (incrementOf records 1000) incrementYears
     = map (fun i => nth i defaultIncrements 0 * (1000 / 57159)) (seq 0 7).
Proof.
  intros records.
  assert (Hall : Forall (fun d => year d = 2024%Z) records)
    by (repeat constructor).
  split; [exact Hall|].
  exact (proj1 (proj2 (proj2 (waterfall_fallback records))) Hall).
Defined.

End WaterfallFacts.

(** ** Growth rates *)
Module GrowthFacts.
Import Growth.

Open Scope float_scope.

(** [x || 0] is a number: [NaN] reads as 0. *)
Lemma or_else_zero_not_nan (x : float) : JS.is_nan (JS.or_else x 0) = false.
Proof.
  unfold JS.or_else, JS.truthy, JS.is_nan.
  destruct (x =? 0) eqn:E0; simpl; [reflexivity|].
  destruct (x =? x) eqn:Ex; simpl; [rewrite Ex|]; reflexivity.
Qed.

Section GrowthFacts.

Variable pow : float -> float -> float.

(** C8.  The CAGR of the bubble chart and of the YoY / CAGR rows is 0
    unless both end values are greater than 0 (and, for the rows, the row
    is not the first and its year is after the first year); a missing
    value, 0 and [NaN] all read as 0, so an end value that is 0 gives 0.
    When the guards hold it is the percentage
    [(pow (end / start) (1 / span) - 1) * 100]. *)
Theorem cagr_boundary (values : list float) (years rowYears : list Z)
    (yearDataMap : list (Z * float)) (index : nat) (year firstYear : Z) :
  let startValue := valueAtYear values years 2025 in
  let endValue := valueAtYear values years 2032 in
  let firstValue := valueOf yearDataMap firstYear in
  let currentValue := valueOf yearDataMap year in
  let yearsDiff := JS.of_Z (year - firstYear) in
  (JS.is_nan startValue = false /\ JS.is_nan endValue = false
   /\ JS.is_nan firstValue = false /\ JS.is_nan currentValue = false)
  /\ ((0 <? startValue) = false \/ (0 <? endValue) = false ->
      bubbleCagr pow values years = 0)
  /\ ((0 <? startValue) = true -> (0 <? endValue) = true ->
      bubbleCagr pow values years = (pow (endValue / startValue) (1 / 7) - 1) * 100)
  /\ (nth_error rowYears 0 = Some firstYear ->
      index = 0%nat \/ (0 <? firstValue) = false \/ (0 <? currentValue) = false
      \/ (0 <? yearsDiff) = false ->
      cagrAt pow rowYears yearDataMap index year = 0)
  /\ (nth_error rowYears 0 = Some firstYear ->
      (0 < index)%nat -> (0 <? firstValue) = true -> (0 <? currentValue) = true ->
      (0 <? yearsDiff) = true ->
      cagrAt pow rowYears yearDataMap index year
      = (pow (currentValue / firstValue) (1 / yearsDiff) - 1) * 100).
Proof.
  intros startValue endValue firstValue currentValue yearsDiff.
  split; [|split; [|split; [|split]]].
  - unfold startValue, endValue, firstValue, currentValue, valueAtYear, valueOf.
    repeat split;
      match goal with
      | |- JS.is_nan (match ?o with _ => _ end) = false =>
          destruct o; [apply or_else_zero_not_nan | reflexivity]
      end.
  - unfold bubbleCagr. fold startValue endValue.
    intros [-> | ->]; [reflexivity | rewrite andb_false_r; reflexivity].
  - unfold bubbleCagr. fold startValue endValue. intros -> ->. reflexivity.
  - unfold cagrAt. intros ->. fold firstValue currentValue yearsDiff.
    intros [-> | [-> | [-> | ->]]]; try reflexivity.
    + destruct (0 <? index)%nat; reflexivity.
    + destruct (0 <? index)%nat; [rewrite andb_false_r|]; reflexivity.
    + destruct (0 <? index)%nat; [|reflexivity].
      destruct ((0 <? firstValue) && (0 <? currentValue)); reflexivity.
  - unfold cagrAt. intros -> Hi. fold firstValue currentValue yearsDiff.
    intros -> -> ->. apply Nat.ltb_lt in Hi. rewrite Hi. reflexivity.
Qed.

End GrowthFacts.

(** [cagr_boundary] on a segment that doubles from 100 in 2024 to 200 in
    2025, for a [pow] that returns its base: a CAGR of 100 percent. *)
Lemma cagr_boundary_witness :
  cagrAt (fun x _ => x) [2024; 2025]%Z [(2024%Z, 100); (2025%Z, 200)] 1 2025 = 100
  /\ bubbleCagr (fun x _ => x) [0; 250] [2025; 2032]%Z = 0.
Proof.
  pose proof (cagr_boundary (fun x _ => x) [0; 250] [2025; 2032]%Z [2024; 2025]%Z
                [(2024%Z, 100); (2025%Z, 200)] 1 2025 2024) as H.
  cbv zeta in H. destruct H as (_ & H2 & _ & _ & H5).
  split.
  - rewrite H5; reflexivity || (simpl; lia).
  - apply H2. left. reflexivity.
Defined.

(** The claim as stated fails twice.  For a row one year after the first
    the code returns the growth in percent, 100 times the rate, with any
    [pow] that returns its base for the exponent 1; and a ratio that
    overflows gives [Infinity], since [pow] of [Infinity] with a positive
    exponent is [Infinity]. *)
Lemma cagr_is_percentage_and_may_overflow :
  ~ (exists pow : float -> float -> float,
       (forall x, pow x 1 = x)
       /\ cagrAt pow [2024; 2025]%Z [(2024%Z, 100); (2025%Z, 200)] 1 2025
          = pow (200 / 100) (1 / 1) - 1)
  /\ ~ (exists pow : float -> float -> float,
          (forall y, (0 <? y) = true -> pow infinity y = infinity)
          /\ JS.is_finite (bubbleCagr pow [1e-320; 1e300] [2025; 2032]%Z) = true).
Proof.
  split.
  - intros (pow & Hp & H).
    change (cagrAt pow [2024; 2025]%Z [(2024%Z, 100); (2025%Z, 200)] 1 2025)
      with ((pow 2 1 - 1) * 100) in H.
    change (pow (200 / 100) (1 / 1)) with (pow 2 1) in H.
    rewrite Hp in H.
    apply (f_equal (fun x => x =? 1)) in H. vm_compute in H. discriminate H.
  - intros (pow & Hp & H).
    change (bubbleCagr pow [1e-320; 1e300] [2025; 2032]%Z)
      with ((pow infinity (1 / 7) - 1) * 100) in H.
    rewrite Hp in H by reflexivity.
    vm_compute in H. discriminate H.
Qed.

End GrowthFacts.

(** ** Separation of the bubbles *)
Module BubbleFacts.
Import Bubble.

Open Scope float_scope.

(** Loops whose steps count draws: the count never goes down, and two
    loops whose steps agree as long as the count stays within a bound
    agree as a whole. *)
Section Draws.

Context {S T : Type}.
Variable count : S -> nat.
Variables f f' : S -> T -> S.
Variable bound : nat.

Hypothesis f_mono : forall s t, count s <= count (f s t).
Hypothesis f_agree : forall s t, count (f s t) <= bound -> f' s t = f s t.

Lemma fold_mono (ts : list T) : forall s, count s <= count (fold_left f ts s).
Proof.
  induction ts as [|t ts IH]; intros s; simpl; [lia|].
  specialize (IH (f s t)). specialize (f_mono s t). lia.
Qed.

Lemma fold_agree (ts : list T) : forall s,
  count (fold_left f ts s) <= bound -> fold_left f' ts s = fold_left f ts s.
Proof.
  induction ts as [|t ts IH]; intros s Hb; simpl in *; [reflexivity|].
  pose proof (fold_mono ts (f s t)) as Hm.
  rewrite f_agree by lia. apply IH, Hb.
Qed.

End Draws.

Section Separation.

Variables cos sin : float -> float.
Variables sizeRange minOpportunity pixelToData : float.

Abbreviation pairStep random := (pairStep cos sin random sizeRange minOpportunity pixelToData).
Abbreviation pass random := (pass cos sin random sizeRange minOpportunity pixelToData).
Abbreviation iterate random := (iterate cos sin random sizeRange minOpportunity pixelToData).

Lemma pairStep_mono random i j st : draws st <= draws (pairStep random i j st).
Proof.
  unfold Bubble.pairStep.
  destruct (nth_error (separated st) i), (nth_error (separated st) j); try lia.
  cbv zeta.
  repeat match goal with
         | |- context [if ?c then _ else _] => destruct c
         end; simpl; lia.
Qed.

(** A step reads [random] at the number of draws made so far, and only
    when it makes a draw. *)
Lemma pairStep_agree random random' bound i j st :
  (forall n, n < bound -> random' n = random n) ->
  draws (pairStep random i j st) <= bound ->
  pairStep random' i j st = pairStep random i j st.
Proof.
  intros Hr. unfold Bubble.pairStep.
  destruct (nth_error (separated st) i), (nth_error (separated st) j);
    try reflexivity.
  cbv zeta.
  destruct (_ && _); [reflexivity|].
  destruct (_ || _); [|reflexivity].
  simpl draws. intros Hb. rewrite (Hr (draws st)) by lia. reflexivity.
Qed.

Lemma pass_mono random st : draws st <= draws (pass random st).
Proof.
  unfold Bubble.pass. apply fold_mono. intros s i.
  apply fold_mono. intros s' j. apply pairStep_mono.
Qed.

Lemma inner_length random i js : forall st,
  List.length (separated (fold_left (fun st j => pairStep random i j st) js st))
  = List.length (separated st).
Proof.
  assert (Hset : forall (A : Type) k (x : A) l, List.length (setAt k x l) = List.length l).
  { intros A k x l. revert k. induction l as [|y l IH]; intros [|k]; simpl; auto. }
  induction js as [|j js IH]; intros st; simpl; [reflexivity|].
  rewrite IH. unfold Bubble.pairStep.
  destruct (nth_error (separated st) i), (nth_error (separated st) j); try reflexivity.
  cbv zeta.
  repeat match goal with
         | |- context [if ?c then _ else _] => destruct c
         end; simpl; rewrite ?Hset; reflexivity.
Qed.

Lemma pass_agree random random' bound st :
  (forall n, n < bound -> random' n = random n) ->
  draws (pass random st) <= bound ->
  pass random' st = pass random st.
Proof.
  intros Hr. unfold Bubble.pass.
  apply (fold_agree draws).
  - intros s i. apply fold_mono. intros s' j. apply pairStep_mono.
  - intros s i. apply (fold_agree draws).
    + intros s' j. apply pairStep_mono.
    + intros s' j. apply pairStep_agree, Hr.
Qed.

Lemma iterate_mono random n : forall st, draws st <= draws (iterate random n st).
Proof.
  induction n as [|n IH]; intros st; simpl; [lia|].
  set (st0 := {| separated := separated st; draws := draws st; hasOverlap := false |}).
  pose proof (pass_mono random st0) as Hp. simpl in Hp.
  destruct (hasOverlap (pass random st0)); [|exact Hp].
  specialize (IH (pass random st0)). lia.
Qed.

Lemma iterate_agree random random' bound n : forall st,
  (forall k, k < bound -> random' k = random k) ->
  draws (iterate random n st) <= bound ->
  iterate random' n st = iterate random n st.
Proof.
  induction n as [|n IH]; intros st Hr; simpl; [reflexivity|].
  set (st0 := {| separated := separated st; draws := draws st; hasOverlap := false |}).
  intros Hb.
  assert (Hp : draws (pass random st0) <= bound).
  { destruct (hasOverlap (pass random st0)); [|exact Hb].
    pose proof (iterate_mono random n (pass random st0)). lia. }
  rewrite (pass_agree random random' bound st0 Hr Hp).
  destruct (hasOverlap (pass random st0)); [|reflexivity].
  apply IH; assumption.
Qed.

Lemma iterate_agree_self random random' n st :
  (forall k, k < draws (iterate random n st) -> random' k = random k) ->
  iterate random' n st = iterate random n st.
Proof.
  intros Hr. apply (iterate_agree random random' (draws (iterate random n st)) n st Hr).
  apply Nat.le_refl.
Qed.

End Separation.

(** [separateLayout] is the loop with what is computed before it. *)
Lemma separateLayout_unfold cos sin random data :
  separateLayout cos sin random data
  = iterate cos sin random
      (maxOf (map incrementalOpportunity data) - minOf (map incrementalOpportunity data))
      (minOf (map incrementalOpportunity data))
      (JS.max
         (JS.or_else (maxOf (map cagrIndex data) - minOf (map cagrIndex data)) 1 / 450)
         (JS.or_else
            (maxOf (map marketShareIndex data) - minOf (map marketShareIndex data)) 1
          / 300))
      maxIterations {| separated := data; draws := 0; hasOverlap := false |}.
Proof. unfold separateLayout. reflexivity. Qed.

(** The loops read [cos] and [sin] at the angles drawn only. *)
Section Angles.

Variables cos sin cos' sin' : float -> float.
Variable random : nat -> float.
Variables sizeRange minOpportunity pixelToData : float.

Hypothesis cos_agree : forall n, cos' (random n * PI * 2) = cos (random n * PI * 2).
Hypothesis sin_agree : forall n, sin' (random n * PI * 2) = sin (random n * PI * 2).

Lemma fold_ext {S T} (f g : S -> T -> S) (ts : list T) :
  (forall s t, g s t = f s t) -> forall s, fold_left g ts s = fold_left f ts s.
Proof.
  intros Hfg. induction ts as [|t ts IH]; intros s; simpl; [reflexivity|].
  rewrite Hfg. apply IH.
Qed.

Lemma pairStep_angles i j st :
  Bubble.pairStep cos' sin' random sizeRange minOpportunity pixelToData i j st
  = Bubble.pairStep cos sin random sizeRange minOpportunity pixelToData i j st.
Proof.
  unfold Bubble.pairStep.
  destruct (nth_error (separated st) i), (nth_error (separated st) j);
    try reflexivity.
  cbv zeta. rewrite cos_agree, sin_agree. reflexivity.
Qed.

Lemma iterate_angles n : forall st,
  Bubble.iterate cos' sin' random sizeRange minOpportunity pixelToData n st
  = Bubble.iterate cos sin random sizeRange minOpportunity pixelToData n st.
Proof.
  assert (Hp : forall st,
            Bubble.pass cos' sin' random sizeRange minOpportunity pixelToData st
            = Bubble.pass cos sin random sizeRange minOpportunity pixelToData st).
  { intros st. unfold Bubble.pass. apply fold_ext. intros s i.
    apply fold_ext. intros s' j. apply pairStep_angles. }
  induction n as [|n IH]; intros st; simpl; [reflexivity|].
  rewrite Hp. destruct (hasOverlap _); [apply IH | reflexivity].
Qed.

End Angles.

Lemma separateBubbleData_angles cos sin cos' sin' random data :
  (forall n, cos' (random n * PI * 2) = cos (random n * PI * 2)) ->
  (forall n, sin' (random n * PI * 2) = sin (random n * PI * 2)) ->
  separateBubbleData cos' sin' random data = separateBubbleData cos sin random data.
Proof.
  intros Hc Hs. unfold separateBubbleData.
  destruct (List.length data <=? 1)%nat; [reflexivity|].
  rewrite !separateLayout_unfold.
  rewrite (iterate_angles cos sin cos' sin' random _ _ _ Hc Hs). reflexivity.
Qed.

(** C2.  The layout is a function of the input and of the values
    [Math.random] returns while it is computed: two calls on the same
    input return the same layout when [Math.random] returns the same
    values in both for as many calls as the first one makes, and a call
    that makes no draw has one result whatever [Math.random] would
    return.  A draw is made each time a pair is examined that is not
    pushed apart along its line (line 1436) and at distance 0 or within
    0.001 on both axes (line 1463), and at no other time. *)
Theorem separateBubbleData_deterministic (cos sin : float -> float)
    (random : nat -> float) (data : list t) :
  (forall random' : nat -> float,
     (forall n, n < draws (separateLayout cos sin random data) -> random' n = random n) ->
     separateBubbleData cos sin random' data = separateBubbleData cos sin random data)
  /\ (draws (separateLayout cos sin random data) = 0%nat ->
      forall random' : nat -> float,
        separateBubbleData cos sin random' data = separateBubbleData cos sin random data)
  /\ (forall sizeRange minOpportunity pixelToData st i j bubble1 bubble2,
        nth_error (separated st) i = Some bubble1 ->
        nth_error (separated st) j = Some bubble2 ->
        draws (pairStep cos sin random sizeRange minOpportunity pixelToData i j st)
        = if pushedAtRandom sizeRange minOpportunity pixelToData bubble1 bubble2
          then S (draws st) else draws st).
Proof.
  assert (Hdet : forall random' : nat -> float,
            (forall n, n < draws (separateLayout cos sin random data) ->
                       random' n = random n) ->
            separateBubbleData cos sin random' data
            = separateBubbleData cos sin random data).
  { intros random' Hr. unfold separateBubbleData.
    destruct (List.length data <=? 1)%nat; [reflexivity|].
    rewrite separateLayout_unfold in Hr.
    rewrite !separateLayout_unfold.
    rewrite (iterate_agree_self _ _ _ _ _ _ _ _ _ Hr). reflexivity. }
  split; [exact Hdet|]. split.
  - intros Hd random'. apply Hdet. rewrite Hd. intros n Hn. lia.
  - intros sizeRange minOpportunity pixelToData st i j bubble1 bubble2 H1 H2.
    unfold pairStep, pushedAtRandom, pushedAlongLine. rewrite H1, H2. cbv zeta.
    destruct (_ && _); cbn [negb andb]; [reflexivity|].
    destruct (_ || _); reflexivity.
Qed.

(** [separateBubbleData_deterministic] on two bubbles at one point, where
    the call makes one draw and what [Math.random] would return after it
    does not matter, and on two bubbles 0.0005 apart beside a third, where
    the two are pushed apart along their line and no draw is made. *)
Lemma separateBubbleData_deterministic_witness :
  (draws (separateLayout (fun _ => 1) (fun _ => 0) (fun _ => 0) Samples.coincident) = 1%nat
   /\ separateBubbleData (fun _ => 1) (fun _ => 0)
        (fun n => match n with O => 0 | _ => 0.9 end) Samples.coincident
      = separateBubbleData (fun _ => 1) (fun _ => 0) (fun _ => 0) Samples.coincident)
  /\ (draws (separateLayout (fun _ => 1) (fun _ => 0) (fun _ => 0) Samples.nearby) = 0%nat
      /\ separateBubbleData (fun _ => 1) (fun _ => 0) (fun _ => 0.9) Samples.nearby
         = separateBubbleData (fun _ => 1) (fun _ => 0) (fun _ => 0) Samples.nearby).
Proof.
  assert (Hc : draws (separateLayout (fun _ => 1) (fun _ => 0) (fun _ => 0) Samples.coincident)
               = 1%nat) by (vm_compute; reflexivity).
  assert (Hn : draws (separateLayout (fun _ => 1) (fun _ => 0) (fun _ => 0) Samples.nearby)
               = 0%nat) by (vm_compute; reflexivity).
  split; (split; [assumption|]).
  - apply (proj1 (separateBubbleData_deterministic (fun _ => 1) (fun _ => 0) (fun _ => 0)
                    Samples.coincident)).
    rewrite Hc. intros [|n] Hlt; [reflexivity | lia].
  - apply (proj1 (proj2 (separateBubbleData_deterministic (fun _ => 1) (fun _ => 0)
                           (fun _ => 0) Samples.nearby))).
    exact Hn.
Defined.

(** The claim as stated fails: on two bubbles at one point the layout
    depends on what [Math.random] returns.  With 0 the first bubble is
    pushed to the left (the angle is 0), with 0.5 to the right (the angle
    is [Math.PI]), whatever [cos] and [sin] are elsewhere. *)
Lemma separateBubbleData_depends_on_random :
  ~ (exists cos sin : float -> float,
       cos 0 = 1 /\ sin 0 = 0
       /\ cos PI = -1 /\ sin PI = 1.2246467991473532e-16
       /\ forall (random random' : nat -> float) (data : list t),
            separateBubbleData cos sin random' data
            = separateBubbleData cos sin random data).
Proof.
  intros (cos & sin & Hc0 & Hs0 & HcP & HsP & H).
  specialize (H (fun _ => 0) (fun _ => 0.5) Samples.coincident).
  rewrite <- (separateBubbleData_angles cos sin (fun _ => 1) (fun _ => 0) (fun _ => 0))
    in H by (intros _; symmetry; assumption).
  rewrite <- (separateBubbleData_angles cos sin (fun _ => -1)
                (fun _ => 1.2246467991473532e-16) (fun _ => 0.5))
    in H by (intros _; symmetry; assumption).
  apply (f_equal (fun layout => match layout with
                                | b :: _ => cagrIndex b <? 5
                                | [] => false
                                end)) in H.
  vm_compute in H. discriminate H.
Qed.

End BubbleFacts.

(** ** The nested maps of the region / country breakdown *)
Module RegionFacts.
Import Analysis.

Open Scope string_scope.

Section Nested.

Context {V : Type}.

Abbreviation eqb_eq := AnalysisFacts.string_eqb_eq.

Lemma at2_put2_same (m : list (string * list (string * V))) y r x :
  at2 (put2 y r x m) y r = Some x.
Proof.
  unfold at2, put2, objAt.
  rewrite DictFacts.get_set_same by exact eqb_eq.
  apply DictFacts.get_set_same. exact eqb_eq.
Qed.

Lemma at2_put2_other (m : list (string * list (string * V))) y r x y' r' :
  y' <> y \/ r' <> r -> at2 (put2 y r x m) y' r' = at2 m y' r'.
Proof.
  intros Hn. unfold at2, put2, objAt.
  destruct (string_dec y y') as [<-|Hy].
  - rewrite DictFacts.get_set_same by exact eqb_eq.
    apply DictFacts.get_set_other; [exact eqb_eq|].
    destruct Hn as [Hn|Hn]; congruence.
  - rewrite DictFacts.get_set_other by (exact eqb_eq || exact Hy). reflexivity.
Qed.

Lemma at2_new_year (m : list (string * list (string * V))) y y' r' :
  Dict.has String.eqb m y = false ->
  at2 (Dict.set String.eqb y [] m) y' r' = at2 m y' r'.
Proof.
  unfold Dict.has, at2, objAt. intros Hh.
  destruct (string_dec y y') as [<-|Hy].
  - rewrite DictFacts.get_set_same by exact eqb_eq.
    destruct (Dict.get String.eqb m y); [discriminate Hh | reflexivity].
  - rewrite DictFacts.get_set_other by (exact eqb_eq || exact Hy). reflexivity.
Qed.




End Nested.

End RegionFacts.

(** ** Further properties of the page's derivations *)
Module PageFacts.
Import Analysis Grouping.

Open Scope string_scope.

(** Sorting: the result is in order. *)
Section Sorted.

Context {A : Type} (leb : A -> A -> bool).
Hypothesis leb_total : forall a b, leb a b = true \/ leb b a = true.

Lemma insert_sorted x l :
  Sorted (fun a b => leb a b = true) l ->
  Sorted (fun a b => leb a b = true) (Arr.insert leb x l).
Proof.
  induction l as [|y l IH]; intros Hs; simpl.
  - repeat constructor.
  - destruct (leb x y) eqn:E.
    + constructor; [exact Hs | constructor; exact E].
    + inversion Hs as [|? ? Hs' Hd]; subst. constructor; [apply IH, Hs'|].
      assert (Hyx : leb y x = true) by (destruct (leb_total x y); congruence).
      destruct l as [|z l]; simpl; [constructor; exact Hyx|].
      destruct (leb x z); constructor; [exact Hyx|].
      inversion Hd; subst. assumption.
Qed.

Lemma sortBy_sorted l : Sorted (fun a b => leb a b = true) (Arr.sortBy leb l).
Proof.
  unfold Arr.sortBy. induction l as [|x l IH]; simpl; [constructor|].
  apply insert_sorted, IH.
Qed.

End Sorted.

Section PageFacts.

Context {num : Type} `{Number num}.

Abbreviation Row := (ShovelMarketData num).

Lemma keepSelected_iff (selected : list string) (field : Row -> string)
    (records : list Row) d :
  In d (keepSelected selected field records)
  <-> In d records /\ passes selected (field d).
Proof.
  unfold keepSelected, passes. destruct selected as [|x selected].
  - simpl. split; [intros Hd; split; [exact Hd | left; reflexivity] | intros [Hd _]; exact Hd].
  - change (0 <? List.length (x :: selected))%nat with true. cbv iota.
    rewrite filter_In, StrFacts.includes_In. split.
    + intros [Hd Hi]. split; [exact Hd | right; exact Hi].
    + intros [Hd [Hn|Hi]]; [discriminate Hn | split; assumption].
Qed.

(** The records the charts are computed from are the records of the data
    that pass every filter with a selection: year, region (kept in
    [filters.country]), product type, product form, price range, age
    group, profession and sales channel.  The selection in
    [filters.distributionChannel] filters nothing. *)
Theorem filteredData_spec (filters : Filters.t) (data : list Row) (d : Row) :
  In d (filteredData filters data)
  <-> In d data
      /\ passes (Filters.year filters) (year d)
      /\ passes (Filters.country filters) (region d)
      /\ passes (Filters.productType filters) (productType d)
      /\ passes (Filters.bladeMaterial filters) (bladeMaterial d)
      /\ passes (Filters.handleLength filters) (handleLength d)
      /\ passes (Filters.application filters) (application d)
      /\ passes (Filters.endUser filters) (endUser d)
      /\ passes (Filters.distributionChannelType filters) (distributionChannelType d).
Proof.
  unfold filteredData. cbv zeta. rewrite !keepSelected_iff.
  assert (Hy : In d (if (0 <? List.length (Filters.year filters))%nat
                     then filter (fun d => existsb (Z.eqb (year d)) (Filters.year filters))
                            data
                     else data)
               <-> In d data /\ passes (Filters.year filters) (year d)).
  { unfold passes. destruct (Filters.year filters) as [|y ys].
    - simpl. split; [intros Hd; split; [exact Hd | left; reflexivity]
                    | intros [Hd _]; exact Hd].
    - change (0 <? List.length (y :: ys))%nat with true. cbv iota.
      rewrite filter_In, existsb_exists. split.
      + intros [Hd (z & Hz & E)]. apply Z.eqb_eq in E. subst z.
        split; [exact Hd | right; exact Hz].
      + intros [Hd [Hn|Hi]]; [discriminate Hn|]. split; [exact Hd|].
        exists (year d). split; [exact Hi | apply Z.eqb_refl]. }
  rewrite Hy. tauto.
Qed.

(** The rows of the charts are the years of the filtered records, each
    once, in the order of their decimal strings (the default sort of an
    array of numbers). *)
Theorem yearsOf_spec (filteredData : list Row) :
  NoDup (yearsOf filteredData)
  /\ (forall y, In y (yearsOf filteredData) <-> exists d, In d filteredData /\ year d = y)
  /\ Sorted (fun a b => String.leb (Str.of_Z a) (Str.of_Z b) = true) (yearsOf filteredData).
Proof.
  unfold yearsOf. split; [|split].
  - eapply Permutation_NoDup; [symmetry; apply ArrFacts.sort_perm|].
    apply ArrFacts.uniq_NoDup. apply Z.eqb_eq.
  - intros y. rewrite ArrFacts.sort_In, (ArrFacts.uniq_In Z.eqb Z.eqb_eq), in_map_iff.
    split; intros (d & H1 & H2); exists d; auto.
  - unfold Arr.sort.
    apply (sortBy_sorted (fun x y => String.leb (Str.of_Z x) (Str.of_Z y))).
    intros a b. apply String.leb_total.
Qed.

Lemma fold_left_ext_in {A B} (f g : A -> B -> A) (l : list B) :
  (forall a b, In b l -> f a b = g a b) ->
  forall a, fold_left f l a = fold_left g l a.
Proof.
  induction l as [|b l IH]; intros Hfg a; simpl; [reflexivity|].
  rewrite Hfg by (left; reflexivity).
  apply IH. intros a' b' Hb'. apply Hfg. right. exact Hb'.
Qed.

(** The grouped and the stacked aggregation of a segment hold the same
    rows: summing under the key [`${year}-${segment}`] in one map and
    summing by segment in one map per year give every year and segment
    of the axis the same number. *)
Theorem grouped_and_stacked_rows_agree (filters : Filters.t) (filteredData : list Row)
    (getSegmentValue : Row -> string) (selectedSegments : option (list string)) :
  chartData (generateYearWiseStackedBarData filters filteredData getSegmentValue
               selectedSegments)
  = chartData (generateSegmentChartData filters filteredData getSegmentValue
                 selectedSegments).
Proof.
  unfold generateYearWiseStackedBarData, generateSegmentChartData, stackedRows.
  cbn [chartData]. apply map_ext. intros y.
  apply fold_left_ext_in. intros entry segment Hs. f_equal.
  rewrite !AnalysisFacts.getOrZero_read, AnalysisFacts.segmentMap_get.
  rewrite <- (AnalysisFacts.sumByYear_get filters getSegmentValue Str.truthy y segment
                filteredData (AnalysisFacts.segmentAxis_truthy _ _ _ _ Hs)).
  unfold get2. destruct (Dict.get Z.eqb _ y); reflexivity.
Qed.

(** A child of the hierarchy is not a main category. *)
Lemma child_not_parent parent child :
  In child (childrenOf parent) -> Dict.has String.eqb parentToChildren child = false.
Proof.
  unfold childrenOf.
  destruct (Dict.get String.eqb parentToChildren parent) as [children|] eqn:E;
    [|contradiction].
  apply DictFacts.get_Some_In in E; [|exact AnalysisFacts.string_eqb_eq].
  vm_compute in E.
  repeat (destruct E as [E|E];
          [inversion E; subst; simpl; intros Hc;
           repeat (destruct Hc as [<-|Hc]; [reflexivity|]); contradiction|]).
  contradiction.
Qed.

(** The segments of the grouped product-type chart are product types of
    the filtered records; when product types are selected, each segment is
    a selected product type that is no main category, or a child of a
    selected main category: a main category is never a segment of its
    own. *)
Theorem grouped_segments_spec (filters : Filters.t) (filteredData : list Row)
    (segment : string) :
  In segment (pt_segments (generateProductTypeChartData filters filteredData)) ->
  (exists d, In d filteredData /\ productType d = segment)
  /\ (Filters.productType filters <> [] ->
      Dict.has String.eqb parentToChildren segment = false
      /\ (In segment (Filters.productType filters)
          \/ exists parent, In parent (Filters.productType filters)
                            /\ In segment (childrenOf parent))).
Proof.
  unfold generateProductTypeChartData.
  set (selected := if (0 <? List.length (Filters.productType filters))%nat
                   then Filters.productType filters else []).
  assert (Hsel : selected = Filters.productType filters).
  { unfold selected. destruct (Filters.productType filters); reflexivity. }
  set (all := distinctSorted (map productType filteredData)).
  assert (Hall : forall s, In s all -> exists d, In d filteredData /\ productType d = s).
  { intros s Hs. unfold all, distinctSorted in Hs.
    apply ArrFacts.sort_In, filter_In in Hs. destruct Hs as [Hs _].
    apply (proj1 (ArrFacts.uniq_In _ AnalysisFacts.string_eqb_eq _ _)) in Hs.
    apply in_map_iff in Hs. destruct Hs as (d & Hd & Hin). exists d. auto. }
  assert (G : In segment
                (Arr.sort (fun s => s)
                   (Arr.uniq String.eqb
                      (if (0 <? List.length selected)%nat
                       then flat_map (fun sel =>
                              if Dict.has String.eqb parentToChildren sel
                              then filter (fun child => Str.includes all child)
                                     (childrenOf sel)
                              else if Str.includes all sel then [sel] else []) selected
                       else all))) ->
              (exists d, In d filteredData /\ productType d = segment)
              /\ (Filters.productType filters <> [] ->
                  Dict.has String.eqb parentToChildren segment = false
                  /\ (In segment (Filters.productType filters)
                      \/ exists parent, In parent (Filters.productType filters)
                                        /\ In segment (childrenOf parent)))).
  { intros Hs. apply ArrFacts.sort_In in Hs.
    apply (proj1 (ArrFacts.uniq_In _ AnalysisFacts.string_eqb_eq _ _)) in Hs.
    rewrite Hsel in Hs. destruct (Filters.productType filters) as [|p ps] eqn:Ep.
    - simpl in Hs. split; [apply Hall, Hs | congruence].
    - change (0 <? List.length (p :: ps))%nat with true in Hs. cbv iota in Hs.
      apply in_flat_map in Hs. destruct Hs as (sel & Hin & Hs).
      destruct (Dict.has String.eqb parentToChildren sel) eqn:Ehas.
      + apply filter_In in Hs. destruct Hs as [Hc Hi].
        apply StrFacts.includes_In in Hi. split; [apply Hall, Hi|]. intros _.
        split; [eapply child_not_parent, Hc|]. right. exists sel. auto.
      + destruct (Str.includes all sel) eqn:Ei; [|contradiction].
        destruct Hs as [<-|[]]. apply StrFacts.includes_In in Ei.
        split; [apply Hall, Ei|]. intros _. split; [exact Ehas | left; exact Hin]. }
  destruct (filter (fun s => Dict.has String.eqb parentToChildren s) selected)
    as [|parent [|]]; try exact G.
  destruct (filter (fun s => negb (Dict.has String.eqb parentToChildren s)) selected);
    try exact G.
  match goal with
  | |- context [(0 <? List.length (filter ?f (childrenOf parent)))%nat] =>
      destruct (0 <? List.length (filter f (childrenOf parent)))%nat
  end; [cbn [pt_segments In]; intros [] | exact G].
Qed.

End PageFacts.

(** [grouped_segments_spec] on a selection of Skin Care and its child
    Serums, over records of both: the one segment is the child. *)
Lemma grouped_segments_spec_witness :
  (exists d, In d Samples.skinCare /\ productType d = "Skin Care - Serums")
  /\ (["Skin Care"; "Skin Care - Serums"] <> [] ->
      Dict.has String.eqb parentToChildren "Skin Care - Serums" = false
      /\ (In "Skin Care - Serums" ["Skin Care"; "Skin Care - Serums"]
          \/ exists parent, In parent ["Skin Care"; "Skin Care - Serums"]
                            /\ In "Skin Care - Serums" (childrenOf parent))).
Proof.
  apply (grouped_segments_spec
           (Samples.productFilter ["Skin Care"; "Skin Care - Serums"])
           Samples.skinCare "Skin Care - Serums").
  vm_compute. left. reflexivity.
Defined.

End PageFacts.

(** ** Further properties of the cache and of the generated data *)
Module LifetimeFacts.
Import Cache Calls.

Section LifetimeFacts.

Context {R : Type}.
Variable generate : unit -> option (list R).

Lemma step_counts (s : Store R) (c : call) (k g : nat) :
  generations s + due s <= S k ->
  generations s <= g -> allocated s = generations s ->
  generations (step generate s c) + due (step generate s c)
    <= S (k + (if isClear c then 1 else 0))
  /\ generations (step generate s c) <= g + (if isClear c then 0 else 1)
  /\ allocated (step generate s c) = generations (step generate s c).
Proof.
  unfold due. destruct c; unfold step, getData, clearDataCache;
    destruct (dataCache s) eqn:E;
    cbn [isClear dataCache generations allocated fst snd]; rewrite ?E;
    intros Hk Hg Ha; (split; [lia | split; lia]).
Qed.

(** However [getData] and [clearDataCache] are called, the generator has
    run at most once per lifetime of the cache (once more than the cache
    was cleared) and at most once per call of [getData], and every array
    handed out came from a run of its own. *)
Theorem generated_once_per_lifetime (calls : list call) :
  generations (run generate calls) <= S (clears calls)
  /\ generations (run generate calls) <= reads calls
  /\ allocated (run generate calls) = generations (run generate calls).
Proof.
  unfold run, clears, reads.
  assert (G : forall calls (s : Store R) k g,
            generations s + due s <= S k ->
            generations s <= g -> allocated s = generations s ->
            generations (fold_left (step generate) calls s)
            + due (fold_left (step generate) calls s)
              <= S (k + List.length (filter isClear calls))
            /\ generations (fold_left (step generate) calls s)
               <= g + List.length (filter (fun c => negb (isClear c)) calls)
            /\ allocated (fold_left (step generate) calls s)
               = generations (fold_left (step generate) calls s)).
  { clear calls. induction calls as [|c calls IH]; intros s k g Hk Hg Ha.
    - simpl. split; [lia | split; [lia | exact Ha]].
    - destruct (step_counts s c k g Hk Hg Ha) as (H1 & H2 & H3).
      specialize (IH (step generate s c) _ _ H1 H2 H3).
      destruct IH as (I1 & I2 & I3).
      cbn [fold_left filter]. destruct c; cbn [isClear negb List.length] in *;
        (split; [lia | split; [lia | exact I3]]). }
  destruct (G calls init 0 0) as (H1 & H2 & H3);
    [unfold due; simpl; lia | simpl; lia | reflexivity |].
  split; [lia | split; [lia | exact H3]].
Qed.

End LifetimeFacts.

End LifetimeFacts.

Module RecordFacts.
Import Generator.

Open Scope float_scope.

Lemma consecutive_NoDup (ids : list Z) (first : Z) :
  (forall i id, nth_error ids i = Some id -> id = (first + Z.of_nat i)%Z) -> NoDup ids.
Proof.
  revert first. induction ids as [|id ids IH]; intros first Hid; constructor.
  - intros Hin. apply In_nth_error in Hin. destruct Hin as [i Hi].
    pose proof (Hid 0%nat id eq_refl) as H0. pose proof (Hid (S i) id Hi) as H1. lia.
  - apply (IH (first + 1)%Z). intros i id' Hi.
    rewrite (Hid (S i) id' Hi). lia.
Qed.

(** The generated records are numbered 100000, 100001, ... in the order
    in which they are generated: no identifier is used twice. *)
Theorem generated_ids_consecutive :
  (forall i r, nth_error Dataset.generatedRecords i = Some r ->
               recordId r = (100000 + Z.of_nat i)%Z)
  /\ NoDup (map recordId Dataset.generatedRecords).
Proof.
  destruct DatasetFacts.generated_exists as (data & _ & -> & _ & _ & Hid).
  split; [exact Hid|].
  apply (consecutive_NoDup _ 100000). intros i id Hi.
  rewrite nth_error_map in Hi.
  destruct (nth_error data i) as [r|] eqn:E; [|discriminate].
  inversion Hi; subst. apply Hid, E.
Qed.

(** In every generated record the price, the revenue, the market value
    and the market share are positive, the units sold are a whole number
    of at least 1, the quantity is a whole number between 80% (less one)
    and 120% of the units sold, [value] repeats [marketValueUsd], and the
    growth figures stay within the ranges they are drawn from. *)
Theorem generated_amounts_in_range :
  Forall (fun r =>
    (0 <? price r) = true
    /\ (1 <=? volumeUnits r) = true /\ (JS.floor (volumeUnits r) =? volumeUnits r) = true
    /\ (0.8 * volumeUnits r - 1 <=? qty r) = true
    /\ (qty r <=? 1.2 * volumeUnits r) = true /\ (JS.floor (qty r) =? qty r) = true
    /\ (0 <? revenue r) = true /\ (0 <? marketValueUsd r) = true
    /\ (value r =? marketValueUsd r) = true
    /\ (0 <? marketSharePct r) = true /\ (marketSharePct r <=? 56) = true
    /\ (-2.6 <=? cagr r) = true /\ (cagr r <=? 13) = true
    /\ (-5 <=? yoyGrowth r) = true /\ (yoyGrowth r <=? 15) = true)
  Dataset.generatedRecords.
Proof.
  destruct DatasetFacts.generated_exists as (data & _ & -> & Hall & _).
  eapply Forall_impl; [|exact Hall]. intros r Hr.
  apply DatasetFacts.recordOk_parts in Hr. destruct Hr as (_ & _ & Hr).
  unfold Dataset.amountsOk, Dataset.isInteger in Hr.
  repeat (apply andb_true_iff in Hr; destruct Hr as [Hr ?]).
  repeat split; assumption.
Qed.

End RecordFacts.

(** ** The shape of the generated records *)
Module ShapeFacts.
Import Generator.

Open Scope string_scope.

(** Draws and reads of tables leave the next identifier as it is. *)
Lemma pick_nextId arr s x s' : pick arr s = Some (x, s') -> nextId s' = nextId s.
Proof.
  unfold pick, bind, seededRandom, defined. simpl.
  destruct (JS.at_index arr _); [|discriminate]. intros E. inversion E. reflexivity.
Qed.

Lemma seededRandom_nextId s x s' : seededRandom s = Some (x, s') -> nextId s' = nextId s.
Proof. unfold seededRandom. intros E. inversion E. reflexivity. Qed.

Lemma defined_nextId {A} (o : option A) s x s' :
  defined o s = Some (x, s') -> nextId s' = nextId s.
Proof. unfold defined. destruct o; [|discriminate]. intros E. inversion E. reflexivity. Qed.

Ltac keep_id E :=
  match type of E with
  | _ ?st = Some (_, ?st') =>
      let Hn := fresh "Hn" in
      assert (Hn : nextId st' = nextId st)
        by (first [ exact (pick_nextId _ _ _ _ E)
                  | exact (seededRandom_nextId _ _ _ E)
                  | exact (defined_nextId _ _ _ _ E)
                  | destruct (JS.includes _ _); exact (pick_nextId _ _ _ _ E) ])
  end.

(** What the loops fix and what the draws choose in a record. *)
Lemma makeRecord_fields y rg regionMult c pt productMult bm bladeMult hl handleMult
    app appMult s out s' :
  makeRecord y rg regionMult c pt productMult bm bladeMult hl handleMult app appMult s
  = Some (out, s') ->
  exists r, out = [r]
    /\ year r = y /\ region r = rg /\ country r = c /\ productType r = pt
    /\ bladeMaterial r = bm /\ handleLength r = hl /\ application r = app
    /\ In (endUser r) professions
    /\ In (distributionChannel r)
         (if JS.includes (distributionChannelType r) "Offline"
          then offlineChannels else onlineChannels)
    /\ In (brand r) brands /\ In (company r) companies
    /\ recordId r = nextId s /\ nextId s' = (nextId s + 1)%Z.
Proof.
  unfold makeRecord. intros H.
  repeat GeneratorFacts.bind_step H.
  unfold ret in H. inversion H; subst. clear H.
  keep_id E. keep_id E0. keep_id E1. keep_id E2. keep_id E3. keep_id E4. keep_id E5.
  keep_id E6. keep_id E7. keep_id E8. keep_id E9. keep_id E10. keep_id E11.
  keep_id E12. keep_id E13. keep_id E14.
  unfold readRecordId in E15. inversion E15; subst. clear E15.
  unfold incrRecordId in E16. inversion E16; subst. clear E16.
  assert (Hch : In a1 (if JS.includes a0 "Offline" then offlineChannels else onlineChannels)).
  { destruct (JS.includes a0 "Offline"); eapply GeneratorFacts.pick_In; eassumption. }
  apply GeneratorFacts.pick_In in E, E2, E3.
  eexists. split; [reflexivity|]. cbn [year region country productType bladeMaterial
    handleLength application endUser distributionChannel distributionChannelType
    brand company recordId nextId].
  repeat split; try assumption; congruence.
Qed.

(** Every generated record belongs to one combination of the loops: a
    year, a region (which is also its country, no region has countries of
    its own), a product type, a product form, a price range and an age
    group of the generator's lists; its profession, brand and company are
    drawn from their lists, and its channel from the offline channels when
    the sales channel is an offline one and from the online channels
    otherwise. *)
Theorem generated_dimensions :
  Forall (fun r =>
    In (year r) years /\ In (region r) regions /\ country r = region r
    /\ In (productType r) productTypes /\ In (bladeMaterial r) bladeMaterials
    /\ In (handleLength r) handleLengths /\ In (application r) applications
    /\ In (endUser r) professions
    /\ In (distributionChannel r)
         (if JS.includes (distributionChannelType r) "Offline"
          then offlineChannels else onlineChannels)
    /\ In (brand r) brands /\ In (company r) companies)
  Dataset.generatedRecords.
Proof.
  apply GeneratorFacts.generatedRecords_Forall. intros data.
  unfold generateComprehensiveData.
  destruct (generateFrom _) as [[out s']|] eqn:E; [|discriminate].
  simpl. intros Hd. inversion Hd; subst. clear Hd. revert E.
  unfold generateFrom.
  apply GeneratorFacts.forOf_Forall. intros y ? ? ? Hy.
  apply GeneratorFacts.forOf_Forall. intros rg ? ? ? Hr.
  apply GeneratorFacts.forOf_Forall. intros c ? ? ? Hc.
  assert (Hcr : c = rg).
  { unfold regions in Hr. simpl in Hr.
    repeat (destruct Hr as [<-|Hr]; [simpl in Hc; destruct Hc as [<-|[]]; reflexivity|]).
    contradiction. }
  apply GeneratorFacts.forOf_Forall. intros pt ? ? ? Hp.
  apply GeneratorFacts.forOf_Forall. intros bm ? ? ? Hb.
  apply GeneratorFacts.forOf_Forall. intros hl ? ? ? Hh.
  apply GeneratorFacts.forOf_Forall. intros app ? ? ? Ha.
  intros Hm. apply makeRecord_fields in Hm.
  destruct Hm as (r & -> & Ey & Erg & Ec & Ept & Ebm & Ehl & Eapp & H1 & H2 & H3 & H4 & _).
  constructor; [|constructor]. subst. repeat split; assumption.
Qed.

(** The loops leave out no combination: whatever data set the generator
    returns has a record for every year, region, product type, product
    form, price range and age group of its lists. *)
Lemma loops_cover data y rg pt bm hl app :
  generateComprehensiveData tt = Some data ->
  In y years -> In rg regions -> In pt productTypes -> In bm bladeMaterials ->
  In hl handleLengths -> In app applications ->
  exists r, In r data
    /\ year r = y /\ region r = rg /\ country r = rg /\ productType r = pt
    /\ bladeMaterial r = bm /\ handleLength r = hl /\ application r = app.
Proof.
  intros E Hy Hrg Hpt Hbm Hhl Happ.
  destruct (GeneratorFacts.generated_from data E) as [s' E0]. clear E.
  revert E0. unfold generateFrom. intros E0.
  destruct (GeneratorFacts.forOf_covers _ _ y Hy _ _ _ E0) as (? & o1 & ? & E1 & I1).
  destruct (GeneratorFacts.forOf_covers _ _ rg Hrg _ _ _ E1) as (? & o2 & ? & E2 & I2).
  assert (Hc : In rg (if (0 <? List.length (match JS.prop countryMap rg with
                                             | Some cs => cs | None => [] end))%nat
                      then match JS.prop countryMap rg with
                           | Some cs => cs | None => [] end
                      else [rg])).
  { unfold regions in Hrg. simpl in Hrg.
    repeat (destruct Hrg as [<-|Hrg]; [left; reflexivity|]). contradiction. }
  cbv zeta in E2.
  destruct (GeneratorFacts.forOf_covers _ _ rg Hc _ _ _ E2) as (? & o3 & ? & E3 & I3).
  destruct (GeneratorFacts.forOf_covers _ _ pt Hpt _ _ _ E3) as (? & o4 & ? & E4 & I4).
  cbv zeta in E4.
  destruct (GeneratorFacts.forOf_covers _ _ bm Hbm _ _ _ E4) as (? & o5 & ? & E5 & I5).
  cbv zeta in E5.
  destruct (GeneratorFacts.forOf_covers _ _ hl Hhl _ _ _ E5) as (? & o6 & ? & E6 & I6).
  cbv zeta in E6.
  destruct (GeneratorFacts.forOf_covers _ _ app Happ _ _ _ E6) as (? & o7 & ? & E7 & I7).
  cbv zeta in E7.
  apply makeRecord_fields in E7.
  destruct E7 as (r & -> & Ey & Erg & Ec & Ept & Ebm & Ehl & Eapp & _).
  exists r. split.
  - apply I1, I2, I3, I4, I5, I6, I7. left. reflexivity.
  - repeat split; assumption.
Qed.

Lemma generated_covers y rg pt bm hl app :
  In y years -> In rg regions -> In pt productTypes -> In bm bladeMaterials ->
  In hl handleLengths -> In app applications ->
  exists r, In r Dataset.generatedRecords
    /\ year r = y /\ region r = rg /\ country r = rg /\ productType r = pt
    /\ bladeMaterial r = bm /\ handleLength r = hl /\ application r = app.
Proof.
  destruct DatasetFacts.generated_exists as (data & E & Hgen & _).
  rewrite Hgen. intros Hy Hrg Hpt Hbm Hhl Happ.
  exact (loops_cover data y rg pt bm hl app E Hy Hrg Hpt Hbm Hhl Happ).
Qed.

(** Every generated record has its region as its country, and a product
    type of the generator's list. *)
Lemma generated_places :
  Forall (fun r => country r = region r /\ In (productType r) productTypes)
    Dataset.generatedRecords.
Proof.
  apply GeneratorFacts.generatedRecords_Forall. intros data.
  unfold generateComprehensiveData.
  destruct (generateFrom _) as [[out s']|] eqn:E; [|discriminate].
  simpl. intros Hd. inversion Hd; subst. clear Hd. revert E.
  unfold generateFrom.
  apply GeneratorFacts.forOf_Forall. intros y ? ? ? Hy.
  apply GeneratorFacts.forOf_Forall. intros rg ? ? ? Hr.
  apply GeneratorFacts.forOf_Forall. intros c ? ? ? Hc.
  assert (Hcr : c = rg).
  { unfold regions in Hr. simpl in Hr.
    repeat (destruct Hr as [<-|Hr]; [simpl in Hc; destruct Hc as [<-|[]]; reflexivity|]).
    contradiction. }
  apply GeneratorFacts.forOf_Forall. intros pt ? ? ? Hp.
  apply GeneratorFacts.forOf_Forall. intros bm ? ? ? Hb.
  apply GeneratorFacts.forOf_Forall. intros hl ? ? ? Hh.
  apply GeneratorFacts.forOf_Forall. intros app ? ? ? Ha.
  intros Hm. apply makeRecord_fields in Hm.
  destruct Hm as (r & -> & Ey & Erg & Ec & Ept & _).
  constructor; [|constructor]. split; [congruence | rewrite Ept; exact Hp].
Qed.

(** Every combination of the loops has its record: for every year,
    region, product type, product form, price range and age group of the
    generator's lists the data set holds a record with exactly these, so
    no cell of a chart over these dimensions is empty for want of data. *)
Theorem generated_combinations (y : Z) (rg pt bm hl app : string) :
  In y years -> In rg regions -> In pt productTypes -> In bm bladeMaterials ->
  In hl handleLengths -> In app applications ->
  exists r, In r Dataset.generatedRecords
    /\ year r = y /\ region r = rg /\ country r = rg /\ productType r = pt
    /\ bladeMaterial r = bm /\ handleLength r = hl /\ application r = app.
Proof.
  intros Hy Hrg Hpt Hbm Hhl Happ.
  destruct DatasetFacts.generated_exists as (data & E & Hgen & _).
  destruct (loops_cover data y rg pt bm hl app E Hy Hrg Hpt Hbm Hhl Happ)
    as (r & Hr & Hfields).
  exists r. split; [rewrite Hgen; exact Hr | exact Hfields].
Qed.

(** [generated_combinations] on the last entry of every list. *)
Lemma generated_combinations_witness :
  exists r, In r Dataset.generatedRecords
    /\ year r = 2035%Z /\ region r = "West India" /\ country r = "West India"
    /\ productType r = "Cosmetology Kits - Travel + Daily Routine Kits"
    /\ bladeMaterial r = "Others (Sprays & Mists, etc.)"
    /\ handleLength r = "Luxury" /\ application r = "Baby Boomers (Ages 58+)".
Proof.
  apply generated_combinations; repeat (first [left; reflexivity | right]).
Defined.

End ShapeFacts.

(** ** Further properties of the waterfall, the growth rows and the bubbles *)
Module SeriesFacts.
Import Analysis.

Open Scope string_scope.

Section Chain.

Context {num : Type} `{Number num}.

Lemma last_cons {A} (l : list A) : forall x d, last (x :: l) d = last l x.
Proof.
  induction l as [|y l IH]; intros x d; [reflexivity|].
  change (last (x :: y :: l) d) with (last (y :: l) d). rewrite !IH. reflexivity.
Qed.

Lemma accumulate_chained (items : list (string * num)) : forall cumulative,
  Series.chained cumulative (fst (accumulate cumulative items))
  /\ Series.increments (fst (accumulate cumulative items)) = map snd items
  /\ snd (accumulate cumulative items)
     = last (map w_totalValue (fst (accumulate cumulative items))) cumulative.
Proof.
  induction items as [|[y v] items IH]; intros cumulative; simpl.
  - repeat split.
  - specialize (IH (add cumulative v)).
    destruct (accumulate (add cumulative v) items) as [entries final] eqn:E.
    cbn [fst snd] in *. destruct IH as (Hc & Hi & Hl).
    split; [split; [reflexivity | exact Hc]|].
    split; [unfold Series.increments in *; simpl; f_equal; exact Hi|].
    rewrite Hl. cbn [map w_totalValue]. rewrite last_cons. reflexivity.
Qed.

Lemma chained_app (bars : list (WaterfallEntry num)) : forall previous bar,
  Series.chained previous bars ->
  w_totalValue bar = last (map w_totalValue bars) previous ->
  w_incrementalValue bar = None ->
  Series.chained previous (bars ++ [bar]).
Proof.
  induction bars as [|b bars IH]; intros previous bar Hc Ht Hn.
  - simpl in *. rewrite Hn. auto.
  - destruct Hc as [Hb Hc]. split; [exact Hb|].
    apply IH; [exact Hc | | exact Hn].
    rewrite Ht. cbn [map]. apply last_cons.
Qed.

End Chain.

Open Scope float_scope.

(** In the program's arithmetic the bars of the waterfall continue one
    another: they are the nine bars of 2024 to 2032, the first flagged
    [isBase] and the last [isTotal]; every bar of 2025 to 2031 holds the
    total of the bar before it plus its own increment, the bar of 2032
    repeats the total of 2031, and [incrementalOpportunity] is the seven
    increments added up from 0 in their order. *)
Theorem waterfall_running_total (records : list (ShovelMarketData float)) :
  let bars := w_chartData (waterfallData records) in
  map w_year bars
  = ["2024"; "2025"; "2026"; "2027"; "2028"; "2029"; "2030"; "2031"; "2032"]
  /\ map isBase bars = [true; false; false; false; false; false; false; false; false]
  /\ map isTotal bars = [false; false; false; false; false; false; false; false; true]
  /\ (exists first rest,
        bars = first :: rest
        /\ w_baseValue first = Some (w_totalValue first)
        /\ w_incrementalValue first = None
        /\ Series.chained (w_totalValue first) rest)
  /\ List.length (Series.increments bars) = 7%nat
  /\ incrementalOpportunity (waterfallData records)
     = fold_left PrimFloat.add (Series.increments bars) 0.
Proof.
  unfold waterfallData.
  set (baseValue := if truthy (yearTotal records 2024) then yearTotal records 2024
                    else defaultBaseValue).
  set (items := map (fun y => (Str.of_Z y, incrementOf records baseValue y))
                  incrementYears).
  pose proof (WaterfallFacts.accumulate_spec items baseValue) as Hacc.
  pose proof (accumulate_chained items baseValue) as Hch.
  destruct (accumulate baseValue items) as [middle cumulative].
  cbn [fst snd] in Hch. destruct Hacc as (Hy & _ & _ & Hall).
  destruct Hch as (Hc & Hi & Hl). cbv zeta. cbn [w_chartData incrementalOpportunity].
  assert (Hflags : map isBase middle = repeat false 7
                   /\ map isTotal middle = repeat false 7).
  { assert (Hlen : List.length middle = 7%nat)
      by (rewrite <- (length_map w_year), Hy, length_map; reflexivity).
    clear - Hall Hlen. revert Hlen. generalize 7%nat.
    induction Hall as [|e l (Hb & Ht & _) _ IH]; intros [|n] Hlen; try discriminate.
    - split; reflexivity.
    - destruct (IH n) as [H1 H2]; [simpl in Hlen; congruence|].
      simpl. rewrite Hb, Ht, H1, H2. split; reflexivity. }
  destruct Hflags as [Hb Ht].
  assert (Hinc : Series.increments
                   (({| w_year := "2024"; w_baseValue := Some baseValue;
                        w_incrementalValue := None; w_totalValue := baseValue;
                        isBase := true; isTotal := false |}
                     :: middle
                     ++ [ {| w_year := "2032"; w_baseValue := Some cumulative;
                             w_incrementalValue := None; w_totalValue := cumulative;
                             isBase := false; isTotal := true |} ])%list)
                 = map snd items).
  { unfold Series.increments in *. cbn [flat_map w_incrementalValue app].
    rewrite flat_map_app, Hi. cbn [flat_map w_incrementalValue app].
    apply app_nil_r. }
  split; [cbn [map w_year]; rewrite map_app, Hy; reflexivity|].
  split; [cbn [map isBase]; rewrite map_app, Hb; reflexivity|].
  split; [cbn [map isTotal]; rewrite map_app, Ht; reflexivity|].
  split.
  - eexists _, _. split; [reflexivity|]. cbn [w_baseValue w_totalValue w_incrementalValue].
    split; [reflexivity|]. split; [reflexivity|].
    apply chained_app; [exact Hc | exact Hl | reflexivity].
  - rewrite Hinc. split; [unfold items; rewrite !length_map; reflexivity|].
    assert (Hs : forall (l : list (string * float)) b,
              fold_left (fun sum item => add sum (snd item)) l b
              = fold_left PrimFloat.add (map snd l) b).
    { induction l as [|x l IH]; intros b; simpl; [reflexivity | apply IH]. }
    rewrite Hs. reflexivity.
Qed.

End SeriesFacts.

Module RowFacts.
Import Growth.

Open Scope float_scope.

Section RowFacts.

Variable pow : float -> float -> float.

Lemma rowsFrom_nth years yearDataMap rest : forall index i,
  nth_error (rowsFrom pow index years yearDataMap rest) i
  = option_map (fun year =>
      {| g_year := Str.of_Z year;
         yoy := yoyAt years yearDataMap (index + i) year;
         g_cagr := cagrAt pow years yearDataMap (index + i) year |})
      (nth_error rest i).
Proof.
  induction rest as [|year rest IH]; intros index [|i]; simpl; try reflexivity.
  - rewrite Nat.add_0_r. reflexivity.
  - rewrite IH. rewrite Nat.add_succ_r. reflexivity.
Qed.

(** The YoY / CAGR series of a segment has one row per year, labelled
    with the year; the first row has no growth, and a later row compares
    its year with the year before: the change in percent of the value of
    the year before, or 0 when that value is not greater than 0. *)
Theorem growthRows_spec (years : list Z) (yearDataMap : list (Z * float)) :
  map g_year (growthRows pow years yearDataMap) = map Str.of_Z years
  /\ (forall row, nth_error (growthRows pow years yearDataMap) 0 = Some row ->
        yoy row = 0 /\ g_cagr row = 0)
  /\ (forall i row year previousYear,
        nth_error (growthRows pow years yearDataMap) (S i) = Some row ->
        nth_error years (S i) = Some year ->
        nth_error years i = Some previousYear ->
        yoy row
        = if 0 <? valueOf yearDataMap previousYear
          then ((valueOf yearDataMap year - valueOf yearDataMap previousYear)
                / valueOf yearDataMap previousYear) * 100
          else 0).
Proof.
  unfold growthRows. split; [|split].
  - generalize 0%nat. generalize years at 2 3 as rest.
    induction rest as [|y rest IH]; intros index; simpl; [reflexivity|].
    f_equal. apply IH.
  - intros row. rewrite rowsFrom_nth.
    destruct (nth_error years 0); [|discriminate]. simpl. intros E.
    inversion E. split; reflexivity.
  - intros i row year previousYear. rewrite rowsFrom_nth. intros E Hy Hp.
    rewrite Hy in E. simpl in E. inversion E. cbn [yoy].
    unfold yoyAt. cbn [Nat.ltb Nat.leb]. rewrite Nat.sub_1_r. cbn [Nat.pred].
    rewrite Hp. reflexivity.
Qed.

End RowFacts.

(** [growthRows_spec] on a segment worth 100 in 2024 and 150 in 2025: a
    growth of 50 percent. *)
Lemma growthRows_spec_witness :
  yoy {| g_year := "2025"; yoy := 50; g_cagr := 50 |}
  = if 0 <? valueOf [(2024%Z, 100); (2025%Z, 150)] 2024
    then ((valueOf [(2024%Z, 100); (2025%Z, 150)] 2025
           - valueOf [(2024%Z, 100); (2025%Z, 150)] 2024)
          / valueOf [(2024%Z, 100); (2025%Z, 150)] 2024) * 100
    else 0.
Proof.
  apply (proj2 (proj2 (growthRows_spec (fun x _ => x) [2024; 2025]%Z
                         [(2024%Z, 100); (2025%Z, 150)])) 0%nat _ 2025%Z 2024%Z);
    reflexivity.
Defined.

End RowFacts.

Module FrameFacts.
Import Bubble Samples.

Open Scope float_scope.

Lemma setAt_labels (l : list t) i b b' :
  nth_error l i = Some b -> label b' = label b ->
  map label (setAt i b' l) = map label l.
Proof.
  revert i. induction l as [|x l IH]; intros [|i] Hn Hl; simpl in *; try discriminate.
  - inversion Hn; subst. rewrite Hl. reflexivity.
  - f_equal. apply IH; assumption.
Qed.

Lemma setAt_nth_other {A} (l : list A) i j x :
  i <> j -> nth_error (setAt i x l) j = nth_error l j.
Proof.
  revert i j. induction l as [|y l IH]; intros [|i] [|j] Hn; simpl; try reflexivity.
  - contradiction.
  - apply IH. congruence.
Qed.

Lemma setAt_nth_same {A} (l : list A) i x y :
  nth_error l i = Some y -> nth_error (setAt i x l) i = Some x.
Proof.
  revert i. induction l as [|z l IH]; intros [|i] Hn; simpl in *; try discriminate.
  - reflexivity.
  - apply IH, Hn.
Qed.

Section FrameFacts.

Variables cos sin : float -> float.
Variable random : nat -> float.
Variables sizeRange minOpportunity pixelToData : float.

Lemma moved_labels (l : list t) i j b1 b2 b1' b2' :
  nth_error l i = Some b1 -> nth_error l j = Some b2 ->
  label b1' = label b1 -> label b2' = label b2 ->
  map label (setAt j b2' (setAt i b1' l)) = map label l.
Proof.
  intros Hi Hj H1 H2.
  destruct (Nat.eq_dec i j) as [<-|Hn].
  - rewrite (setAt_labels _ i b1' b2'); [apply (setAt_labels _ i b1); assumption | |].
    + eapply setAt_nth_same, Hi.
    + rewrite H2, H1. congruence.
  - rewrite (setAt_labels _ j b2 b2'); [apply (setAt_labels _ i b1); assumption | | exact H2].
    rewrite setAt_nth_other by exact Hn. exact Hj.
Qed.

Lemma pairStep_labels i j st :
  map label (separated (pairStep cos sin random sizeRange minOpportunity pixelToData i j st))
  = map label (separated st).
Proof.
  unfold pairStep.
  destruct (nth_error (separated st) i) as [b1|] eqn:Ei; [|reflexivity].
  destruct (nth_error (separated st) j) as [b2|] eqn:Ej; [|reflexivity].
  cbv zeta.
  destruct (_ && _); [apply (moved_labels _ i j b1 b2); auto|].
  destruct (_ || _); [apply (moved_labels _ i j b1 b2); auto | reflexivity].
Qed.

Lemma fold_labels {T} (f : Layout -> T -> Layout) (ts : list T) :
  (forall st x, map label (separated (f st x)) = map label (separated st)) ->
  forall st, map label (separated (fold_left f ts st)) = map label (separated st).
Proof.
  intros Hf. induction ts as [|x ts IH]; intros st; simpl; [reflexivity|].
  rewrite IH. apply Hf.
Qed.

Lemma iterate_labels n : forall st,
  map label (separated (iterate cos sin random sizeRange minOpportunity pixelToData n st))
  = map label (separated st).
Proof.
  assert (Hp : forall st,
            map label (separated (pass cos sin random sizeRange minOpportunity
                                    pixelToData st))
            = map label (separated st)).
  { intros st. unfold pass. apply fold_labels. intros s i.
    apply fold_labels. intros s' j. apply pairStep_labels. }
  induction n as [|n IH]; intros st; simpl; [reflexivity|].
  destruct (hasOverlap _); [rewrite IH|]; rewrite Hp; reflexivity.
Qed.

End FrameFacts.

(** Separation only moves bubbles: the layout has the entities of the
    input, in the same order, each with its name and its opportunity. *)
Theorem separateBubbleData_keeps_entities (cos sin : float -> float)
    (random : nat -> float) (data : list t) :
  map (fun b => (region b, incrementalOpportunity b))
    (separateBubbleData cos sin random data)
  = map (fun b => (region b, incrementalOpportunity b)) data.
Proof.
  unfold separateBubbleData.
  destruct (List.length data <=? 1)%nat; [reflexivity|].
  rewrite BubbleFacts.separateLayout_unfold.
  apply (iterate_labels cos sin random).
Qed.

End FrameFacts.

Module TableFacts.

Open Scope string_scope.

(** The product types the generator writes are the main categories of the
    hierarchy, each followed by its children written ["Parent - Child"]:
    the names Select All selects, and the entries of [parentToChildren].
    Every one of them is the product type of a generated record, in every
    year and region, and every generated record has one of them. *)
Theorem productTypes_follow_hierarchy :
  Generator.productTypes
  = flat_map (fun item =>
      Hierarchy.mainCategory item
      :: map (fun sub => Hierarchy.mainCategory item ++ " - " ++ sub)
           (Hierarchy.subCategories item))
      (Hierarchy.getProductTypeHierarchy tt)
  /\ Generator.productTypes = Dropdown.selectAll (Hierarchy.getProductTypeHierarchy tt)
  /\ Generator.productTypes
     = flat_map (fun entry => fst entry :: snd entry) Analysis.parentToChildren
  /\ (forall name y rg,
        In name (Dropdown.selectAll (Hierarchy.getProductTypeHierarchy tt)) ->
        In y Generator.years -> In rg Generator.regions ->
        exists r, In r Dataset.generatedRecords
                  /\ productType r = name /\ year r = y /\ region r = rg)
  /\ Forall (fun r =>
       In (productType r) (Dropdown.selectAll (Hierarchy.getProductTypeHierarchy tt)))
     Dataset.generatedRecords.
Proof.
  assert (E : Generator.productTypes
              = Dropdown.selectAll (Hierarchy.getProductTypeHierarchy tt))
    by reflexivity.
  split; [reflexivity|]. split; [exact E|]. split; [reflexivity|]. rewrite <- E.
  split.
  - intros name y rg Hn Hy Hrg.
    assert (Hbm : In "Creams & Lotions" Generator.bladeMaterials)
      by (right; left; reflexivity).
    assert (Hhl : In "Mass" Generator.handleLengths) by (left; reflexivity).
    assert (Happ : In "Gen Z (Ages 10-25)" Generator.applications)
      by (left; reflexivity).
    destruct (ShapeFacts.generated_covers y rg name _ _ _ Hy Hrg Hn Hbm Hhl Happ)
      as (r & Hr & Ey & Erg & _ & Ept & _).
    exists r. split; [exact Hr|]. split; [exact Ept|]. split; [exact Ey | exact Erg].
  - eapply Forall_impl; [|exact ShapeFacts.generated_places].
    intros r [_ Hr]. exact Hr.
Qed.

(** The keys [`${year}-${segment}`] of the aggregation map never collide:
    two keys are equal only for the same year and the same segment. *)
Theorem yearSegmentKey_distinct (y1 y2 : Z) (s1 s2 : string) :
  Analysis.yearSegmentKey y1 s1 = Analysis.yearSegmentKey y2 s2
  <-> y1 = y2 /\ s1 = s2.
Proof.
  split; [apply StrFacts.int_hyphen_inj | intros [-> ->]; reflexivity].
Qed.

End TableFacts.

(** ** Labels of the rows, and the seed *)
Module LabelFacts.
Import Analysis.

Open Scope string_scope.

Section LabelFacts.

Context {num : Type} `{Number num}.

(** Every row of [generateSegmentChartData] is labelled with its year
    under the key [year], unless a segment is itself called [year]: the
    segment's number then replaces the label in every row. *)
Theorem rows_labelled (filters : Filters.t) (filteredData : list (ShovelMarketData num))
    (getSegmentValue : ShovelMarketData num -> string)
    (selectedSegments : option (list string)) :
  let axis := segmentAxis filteredData getSegmentValue selectedSegments in
  let rows :=
    chartData (generateSegmentChartData filters filteredData getSegmentValue
                 selectedSegments) in
  (~ In "year" axis ->
   map (fun entry => Dict.get String.eqb entry "year") rows
   = map (fun y => Some (VStr (Str.of_Z y))) (yearsOf filteredData))
  /\ (In "year" axis ->
      Forall (fun entry => exists v, Dict.get String.eqb entry "year" = Some (VNum v))
        rows).
Proof.
  intros axis rows. unfold rows, generateSegmentChartData. cbn [chartData]. split.
  - intros Hn. rewrite map_map. apply map_ext. intros y.
    rewrite (AnalysisFacts.row_get_other
               (fun seg => getOrZero String.eqb _ (yearSegmentKey y seg)))
      by exact Hn.
    reflexivity.
  - intros Hi. apply Forall_map, Forall_forall. intros y _.
    eexists.
    apply (AnalysisFacts.row_get
             (fun seg => getOrZero String.eqb _ (yearSegmentKey y seg))).
    exact Hi.
Qed.

End LabelFacts.

(** [rows_labelled] on records of 2024 and 2025 by product type. *)
Lemma rows_labelled_witness :
  map (fun entry => Dict.get String.eqb entry "year")
    (chartData (generateSegmentChartData (Samples.noFilters Filters.ByValue)
                  Samples.skinCare productType None))
  = [Some (VStr "2024"); Some (VStr "2025")].
Proof.
  apply (proj1 (rows_labelled (Samples.noFilters Filters.ByValue) Samples.skinCare
                  productType None)).
  vm_compute. intros [E|[E|[]]]; discriminate E.
Defined.

End LabelFacts.

Module SeedFacts.
Import Generator.

(** The seed of the generator stays an integer from 0 to 233279, and each
    draw replaces it by [(seed * 9301 + 49297) mod 233280]: the product
    never leaves the range in which the arithmetic of the program is
    exact. *)
Theorem seed_in_range (n : nat) :
  (0 <= Uint63.to_Z (Nat.iter n lcg_next 42%uint63) < 233280)%Z
  /\ Uint63.to_Z (Nat.iter (S n) lcg_next 42%uint63)
     = ((Uint63.to_Z (Nat.iter n lcg_next 42%uint63) * 9301 + 49297) mod 233280)%Z.
Proof.
  assert (Hr : (0 <= Uint63.to_Z (Nat.iter n lcg_next 42%uint63) < 233280)%Z).
  { induction n as [|n IH]; [vm_compute; split; [discriminate | reflexivity]|].
    simpl. apply GeneratorFacts.lcg_next_spec. lia. }
  split; [exact Hr|]. simpl. apply GeneratorFacts.lcg_next_spec. lia.
Qed.

End SeedFacts.

(** ** The countries of the region / country breakdown *)
Module CountryFacts.
Import Analysis Presence.

Open Scope string_scope.

Abbreviation eqb_eq := AnalysisFacts.string_eqb_eq.

Lemma In_set {V} (m : list (string * V)) k v k' v' :
  In (k', v') (Dict.set String.eqb k v m) -> (k' = k /\ v' = v) \/ In (k', v') m.
Proof.
  induction m as [|[k0 v0] m IH]; simpl.
  - intros [E|[]]. inversion E. left. auto.
  - destruct (String.eqb k0 k) eqn:E; simpl.
    + apply String.eqb_eq in E. subst.
      intros [E'|Hin]; [inversion E'; left|right; right]; auto.
    + intros [E'|Hin]; [right; left; exact E'|].
      destruct (IH Hin) as [Hl|Hr]; [left | right; right]; assumption.
Qed.

Lemma keys_In_set {V} (m : list (string * V)) k v k' :
  In k' (Dict.keys (Dict.set String.eqb k v m)) <-> k' = k \/ In k' (Dict.keys m).
Proof.
  rewrite (DictFacts.keys_set String.eqb).
  destruct (Dict.has String.eqb m k) eqn:E.
  - apply (DictFacts.has_In String.eqb eqb_eq) in E.
    split; [auto | intros [->|Hin]; assumption].
  - rewrite in_app_iff. simpl. split; [intros [Hin|[<-|[]]]; auto | intros [->|Hin]; auto].
Qed.

Section CountryFacts.

Context {V : Type}.

Abbreviation Nested := (list (string * list (string * list (string * V)))).

Lemma objAt_In {W} (m : list (string * list (string * W))) y kv :
  In kv (objAt m y) -> exists rd, In (y, rd) m /\ In kv rd.
Proof.
  unfold objAt. destruct (Dict.get String.eqb m y) as [rd|] eqn:E; [|intros []].
  intros Hin. exists rd. split; [|exact Hin].
  apply (DictFacts.get_Some_In String.eqb eqb_eq), E.
Qed.

Lemma sound_set_empty (data : Nested) allowed y :
  sound data allowed -> sound (Dict.set String.eqb y [] data) allowed.
Proof.
  intros Hs y' rd r cd c Hy Hr Hc. apply In_set in Hy.
  destruct Hy as [[-> ->]|Hy]; [destruct Hr | eapply Hs; eassumption].
Qed.

Lemma sound_put2 (data : Nested) (allowed : string -> string -> string -> Prop) y r cd :
  sound data allowed ->
  (forall c, In c (Dict.keys cd) -> allowed y r c) ->
  sound (put2 y r cd data) allowed.
Proof.
  intros Hs Hcd y' rd r' cd' c Hy Hr Hc. unfold put2 in Hy. apply In_set in Hy.
  destruct Hy as [[-> ->]|Hy]; [|eapply Hs; eassumption].
  apply In_set in Hr. destruct Hr as [[-> ->]|Hr]; [apply Hcd, Hc|].
  apply objAt_In in Hr. destruct Hr as (rd & H1 & H2). eapply Hs; eassumption.
Qed.

Lemma present_set_empty (data : Nested) y y' r' c' :
  Dict.has String.eqb data y = false ->
  (present (Dict.set String.eqb y [] data) y' r' c' <-> present data y' r' c').
Proof.
  intros Hh. unfold present. rewrite RegionFacts.at2_new_year by exact Hh. reflexivity.
Qed.

Lemma present_put2 (data : Nested) y r cd y' r' c' :
  present (put2 y r cd data) y' r' c'
  <-> (y' = y /\ r' = r /\ In c' (Dict.keys cd))
      \/ ((y' <> y \/ r' <> r) /\ present data y' r' c').
Proof.
  unfold present.
  destruct (string_dec y' y) as [->|Hy]; [destruct (string_dec r' r) as [->|Hr]|].
  - rewrite RegionFacts.at2_put2_same. split.
    + intros (cd' & E & Hc). inversion E; subst. left. auto.
    + intros [(_ & _ & Hc)|[[Hn|Hn] _]]; try contradiction. exists cd. auto.
  - rewrite RegionFacts.at2_put2_other by (right; exact Hr). split.
    + intros Hp. right. auto.
    + intros [(_ & Hn & _)|[_ Hp]]; [contradiction | exact Hp].
  - rewrite RegionFacts.at2_put2_other by (left; exact Hy). split.
    + intros Hp. right. auto.
    + intros [(Hn & _)|[_ Hp]]; [contradiction | exact Hp].
Qed.

End CountryFacts.

Section Breakdown.

Context {num : Type} `{Number num}.

Abbreviation Row := (ShovelMarketData num).

Lemma regionYearStep_data filters (acc : RegionYear num) (d : Row)
    (allowed : string -> string -> string -> Prop) :
  let data' := regionYearData (regionYearStep filters acc d) in
  (sound (regionYearData acc) allowed ->
   allowed (Str.of_Z (year d)) (region d) (country d) ->
   sound data' allowed)
  /\ (forall y r c, present (regionYearData acc) y r c -> present data' y r c)
  /\ present data' (Str.of_Z (year d)) (region d) (country d).
Proof.
  unfold regionYearStep.
  set (yk := Str.of_Z (year d)). set (rg := region d). set (c0 := country d).
  set (acc1 := if Dict.has String.eqb (regionYearData acc) yk
               then (regionYearData acc, regionYearTotals acc)
               else (Dict.set String.eqb yk [] (regionYearData acc),
                     Dict.set String.eqb yk [] (regionYearTotals acc))).
  assert (H1 : (sound (regionYearData acc) allowed -> sound (fst acc1) allowed)
               /\ forall y r c, present (regionYearData acc) y r c
                                <-> present (fst acc1) y r c).
  { unfold acc1. destruct (Dict.has String.eqb (regionYearData acc) yk) eqn:E;
      cbn [fst].
    - split; [auto | reflexivity].
    - split; [apply sound_set_empty|].
      intros y r c. symmetry. apply present_set_empty, E. }
  destruct acc1 as [data1 totals1]. cbn [fst] in H1. destruct H1 as [S1 P1].
  set (acc2 := match at2 data1 yk rg with
               | Some _ => (data1, totals1)
               | None => (put2 yk rg [] data1, put2 yk rg zero totals1)
               end).
  assert (H2 : (sound data1 allowed -> sound (fst acc2) allowed)
               /\ forall y r c, present data1 y r c <-> present (fst acc2) y r c).
  { unfold acc2. destruct (at2 data1 yk rg) as [cd|] eqn:E; cbn [fst].
    - split; [auto | reflexivity].
    - split; [intros Hs; apply sound_put2; [exact Hs | intros c []]|].
      intros y r c. rewrite present_put2. split.
      + intros Hp. right. split; [|exact Hp].
        destruct (string_dec y yk) as [->|Hy]; [|left; exact Hy].
        destruct (string_dec r rg) as [->|Hr]; [|right; exact Hr].
        destruct Hp as (cd & Hcd & _). congruence.
      + intros [(_ & _ & [])|[_ Hp]]. exact Hp. }
  destruct acc2 as [data2 totals2]. cbn [fst] in H2. destruct H2 as [S2 P2].
  cbv zeta. cbn [regionYearData].
  assert (Hk : forall c, In c (Dict.keys (objAt (objAt data2 yk) rg))
                         <-> present data2 yk rg c).
  { intros c. unfold present, at2.
    unfold objAt at 1. destruct (Dict.get String.eqb (objAt data2 yk) rg) as [cd|].
    - split; [intros Hc; exists cd; auto | intros (cd' & E & Hc); congruence].
    - split; [intros [] | intros (cd' & E & _); discriminate E]. }
  split; [|split].
  - intros Hs Ha. apply sound_put2; [apply S2, S1, Hs|].
    intros c Hc. apply keys_In_set in Hc. destruct Hc as [->|Hc]; [exact Ha|].
    apply Hk in Hc. destruct Hc as (cd & Hcd & Hc).
    unfold at2 in Hcd. apply (DictFacts.get_Some_In String.eqb eqb_eq) in Hcd.
    apply objAt_In in Hcd. destruct Hcd as (rd & Hy & Hr).
    exact (S2 (S1 Hs) _ _ _ _ _ Hy Hr Hc).
  - intros y r c Hp. apply P1, P2 in Hp. apply present_put2.
    destruct (string_dec y yk) as [->|Hy]; [|right; split; [left|]; assumption].
    destruct (string_dec r rg) as [->|Hr]; [|right; split; [right|]; assumption].
    left. split; [reflexivity|]. split; [reflexivity|].
    apply keys_In_set. right. apply Hk, Hp.
  - apply present_put2. left. split; [reflexivity|]. split; [reflexivity|].
    apply keys_In_set. left. reflexivity.
Qed.

Lemma regionYear_data filters (filteredData : list Row) :
  sound (regionYearData (regionYear filters filteredData))
    (fun y r c => exists d, In d filteredData /\ placeOf d y r c)
  /\ forall d, In d filteredData ->
       present (regionYearData (regionYear filters filteredData))
         (Str.of_Z (year d)) (region d) (country d).
Proof.
  unfold regionYear.
  assert (G : forall (rest seen : list Row) acc,
            sound (regionYearData acc) (fun y r c => exists d, In d seen /\ placeOf d y r c) ->
            (forall d, In d seen ->
               present (regionYearData acc) (Str.of_Z (year d)) (region d) (country d)) ->
            sound (regionYearData (fold_left (regionYearStep filters) rest acc))
              (fun y r c => exists d, In d (seen ++ rest) /\ placeOf d y r c)
            /\ forall d, In d (seen ++ rest) ->
                 present (regionYearData (fold_left (regionYearStep filters) rest acc))
                   (Str.of_Z (year d)) (region d) (country d)).
  { induction rest as [|d rest IH]; intros seen acc Hs Hp.
    - rewrite app_nil_r. split; assumption.
    - simpl fold_left.
      replace (seen ++ d :: rest)%list with ((seen ++ [d]) ++ rest)%list
        by (rewrite <- app_assoc; reflexivity).
      destruct (regionYearStep_data filters acc d
                  (fun y r c => exists d', In d' (seen ++ [d]) /\ placeOf d' y r c))
        as (S1 & P1 & P2).
      apply IH.
      + apply S1.
        * intros y rd r cd c Hy Hr Hc.
          destruct (Hs y rd r cd c Hy Hr Hc) as (d' & Hd' & Hpl).
          exists d'. split; [apply in_or_app; left; exact Hd' | exact Hpl].
        * exists d. split; [apply in_or_app; right; left; reflexivity|].
          repeat split.
      + intros d' Hd'. apply in_app_or in Hd'. destruct Hd' as [Hd'|[<-|[]]].
        * apply P1, Hp, Hd'.
        * exact P2. }
  apply (G filteredData [] {| regionYearData := []; regionYearTotals := [] |}).
  - intros y rd r cd c [].
  - intros d [].
Qed.

(** The breakdown has an entry for the year, region and country of every
    filtered record, and no other entry. *)
Theorem regionCountry_entries (filters : Filters.t) (filteredData : list Row)
    (y : Z) (r c : string) :
  (exists e, In e (regionCountryPercentageChartData filters filteredData)
             /\ rc_year e = y /\ rc_region e = r /\ rc_country e = c)
  <-> exists d, In d filteredData /\ year d = y /\ region d = r /\ country d = c.
Proof.
  destruct (regionYear_data filters filteredData) as [Hs Hp].
  unfold regionCountryPercentageChartData. split.
  - intros (e & He & <- & <- & <-).
    apply in_flat_map in He. destruct He as ([yk rd] & Hy & He).
    apply in_flat_map in He. destruct He as ([rg cd] & Hr & He).
    unfold groupEntries in He. apply in_map_iff in He. destruct He as (c0 & <- & Hc).
    cbn [rc_year rc_region rc_country].
    apply (proj1 (ArrFacts.sort_In _ _ _)) in Hc.
    apply (Permutation_in _ (ObjFacts.keys_perm cd)) in Hc.
    apply (proj1 (ObjFacts.entries_In _ _)) in Hy.
    apply (proj1 (ObjFacts.entries_In _ _)) in Hr.
    destruct (Hs yk rd rg cd c0 Hy Hr Hc) as (d & Hd & E1 & E2 & E3).
    exists d. split; [exact Hd|]. rewrite <- E1, StrFacts.to_of_Z. auto.
  - intros (d & Hd & <- & <- & <-).
    destruct (Hp d Hd) as (cd & Hcd & Hc).
    unfold at2 in Hcd. apply (DictFacts.get_Some_In String.eqb eqb_eq) in Hcd.
    apply objAt_In in Hcd. destruct Hcd as (rd & Hy & Hr).
    eexists. split.
    + apply in_flat_map. exists (Str.of_Z (year d), rd).
      split; [apply (proj2 (ObjFacts.entries_In _ _)), Hy|].
      apply in_flat_map. exists (region d, cd).
      split; [apply (proj2 (ObjFacts.entries_In _ _)), Hr|].
      unfold groupEntries. apply in_map_iff. exists (country d).
      split; [reflexivity|]. apply (proj2 (ArrFacts.sort_In _ _ _)).
      apply (Permutation_in _ (Permutation_sym (ObjFacts.keys_perm cd))). exact Hc.
    + cbn [rc_year rc_region rc_country]. rewrite StrFacts.to_of_Z. auto.
Qed.

End Breakdown.

End CountryFacts.

(** ** The product-type chart and the selections that reach it *)
Module ProductTypeFacts.
Import Analysis.

Open Scope string_scope.

(** *** The order of the default sort *)

Lemma ascii_compare_trans (a b c : ascii) :
  Ascii.compare a b <> Gt -> Ascii.compare b c <> Gt -> Ascii.compare a c <> Gt.
Proof.
  unfold Ascii.compare. rewrite !N.compare_le_iff. apply N.le_trans.
Qed.





Section Canonical.

Context {A : Type}.
Variable leb : A -> A -> bool.
Hypothesis leb_total : forall a b, leb a b = true \/ leb b a = true.
Hypothesis leb_trans : forall a b c, leb a b = true -> leb b c = true -> leb a c = true.
Hypothesis leb_antisym : forall a b, leb a b = true -> leb b a = true -> a = b.



End Canonical.


(** *** The product types of the generated data *)




(** *** The hierarchy of the dropdown *)







(** *** What the handlers keep *)











(** *** The two modes of the chart *)

Section Modes.

Context {num : Type} `{Number num}.

Abbreviation Row := (ShovelMarketData num).






End Modes.

(** *** The chart of a selection on the generated data *)



Section Expanded.

Context {num : Type} `{Number num}.



End Expanded.





End ProductTypeFacts.

(** ** Region / country percentage *)
Module PercentageFacts.
Import Analysis.

Open Scope string_scope.

Abbreviation eqb_eq := AnalysisFacts.string_eqb_eq.

Section Filed.

Context {num : Type} `{Number num}.

Abbreviation Row := (ShovelMarketData num).












End Filed.

(** *** The arithmetic of doubles that the percentages rest on *)

Open Scope float_scope.







(** *** Signs

    Rounding never changes the sign of what it rounds, so sums and
    quotients of doubles that are not negative are not negative (and not
    [NaN]). *)















(** *** The groups of the chart *)




Section Kept.

Context {num : Type} `{Number num}.



End Kept.




End PercentageFacts.
